(** * Task lifecycle and analytics pipeline: a shallow embedding

    The development follows the TypeScript sources of the task store
    ([TaskManager]), the planner, assessor and pattern-analyzer workflows and
    the calendar analytics route, together with the SQL schema they run
    against.

    Conventions of the embedding:
    - SQL tables are lists of rows in insertion order; Redis keys are finite
      maps; the two event streams are lists, oldest entry first.
    - Code that talks to the stores runs in a state-and-error monad over
      [World]: a thrown exception keeps the writes made before it.
    - JavaScript numbers are exact rationals ([Q]); a quotient that can be
      infinite or undefined uses [JS.number]. A comparison of doubles agrees
      with the exact comparison away from equality; the statements below
      speak of the outcome at an exact tie of a computed quotient or product
      only where the double computation is exact as well (halves of
      integers, 20 * 1.15 = 23).
    - DECIMAL columns round what they store and reject what does not fit;
      a DECIMAL read back is a non-empty string in JavaScript, hence truthy
      even when it is zero. COUNT( * ) is read back as a string of digits.
    - [uuid] values stand for Postgres UUIDs (128-bit numbers); in JavaScript a
      non-null UUID is a non-empty string, hence always truthy.
    - Generated text (the planner's judgment, the assessor's scores, the
      insights) enters as a parameter: it is the parsed reply of the model.
    - Timestamps are UTC milliseconds. *)

From Stdlib Require Import ZArith QArith Qround Lia Lqa Sorted Ascii.
From stdpp Require Import base option list strings gmap.

Set Default Proof Using "Type".
#[local] Set Warnings "-register-all".
#[local] Set Warnings "-clear-no-such-hyp,-level-tolerance".

(** ** JavaScript values *)

Module JS.

(** A double that may be infinite. *)
Inductive number := Fin (q : Q) | PosInf | NegInf | NaN.

(** [Math.round]: the nearest integer, halves going up. *)
Definition Math_round (x : Q) : Z := Qfloor (x + (1 # 2)).

Definition Qltb (a b : Q) : bool := negb (Qle_bool b a).

(** [a / b] when [b] is a non-negative-zero double. *)
Definition div (a b : Q) : number :=
  if Qeq_bool b 0 then
    if Qeq_bool a 0 then NaN else if Qle_bool 0 a then PosInf else NegInf
  else Fin (a / b).

(** [x >= c] for a finite [c]. *)
Definition ge (x : number) (c : Q) : bool :=
  match x with
  | Fin q => Qle_bool c q
  | PosInf => true
  | NegInf | NaN => false
  end.

(** [x + y], [Math.min(x, c)] and [x / n] for a finite [c] and a positive
    [n]. *)
Definition add (x y : number) : number :=
  match x, y with
  | NaN, _ | _, NaN => NaN
  | PosInf, NegInf | NegInf, PosInf => NaN
  | PosInf, _ | _, PosInf => PosInf
  | NegInf, _ | _, NegInf => NegInf
  | Fin a, Fin b => Fin (a + b)
  end.

Definition min (x : number) (c : Q) : number :=
  match x with
  | NaN => NaN
  | PosInf => Fin c
  | NegInf => NegInf
  | Fin q => Fin (if Qle_bool q c then q else c)
  end.

Definition over (x : number) (n : Q) : number :=
  match x with
  | Fin q => Fin (q / n)
  | other => other
  end.

(** Truthiness of an optional number: [undefined], [null] and [0] are falsy. *)
Definition truthy_num (o : option Q) : bool :=
  match o with
  | Some q => negb (Qeq_bool q 0)
  | None => false
  end.

Definition truthy_int (o : option Z) : bool :=
  match o with
  | Some z => negb (z =? 0)%Z
  | None => false
  end.

(** [o || d] on numbers. *)
Definition or_num (o : option Q) (d : Q) : Q :=
  match o with
  | Some q => if Qeq_bool q 0 then d else q
  | None => d
  end.

Definition or_int (o : option Z) (d : Z) : Z :=
  match o with
  | Some z => if (z =? 0)%Z then d else z
  | None => d
  end.

(** [o || null] on numbers. *)
Definition or_null_num (o : option Q) : option Q :=
  if truthy_num o then o else None.

Definition or_null_int (o : option Z) : option Z :=
  if truthy_int o then o else None.

(** JSON values; an object is a list of members. *)
Inductive json :=
| JNull
| JBool (b : bool)
| JNum (q : Q)
| JStr (s : string)
| JArr (l : list json)
| JObj (l : list (string * json)).

Definition object := list (string * json).

Fixpoint get (k : string) (o : object) : option json :=
  match o with
  | [] => None
  | (k', v) :: o' => if String.eqb k k' then Some v else get k o'
  end.

(** Assignment of one member: in place when the key exists, else appended. *)
Fixpoint set (k : string) (v : json) (o : object) : object :=
  match o with
  | [] => [(k, v)]
  | (k', v') :: o' =>
      if String.eqb k k' then (k, v) :: o' else (k', v') :: set k v o'
  end.

(** [{...o, k1: v1, ...}] *)
Definition spread (o : object) (members : object) : object :=
  fold_left (fun acc kv => set kv.1 kv.2 acc) members o.

(** An object literal whose members may be [undefined]; [JSON.stringify]
    omits those. *)
Definition literal (members : list (string * option json)) : object :=
  omap (fun kv => match kv.2 with Some v => Some (kv.1, v) | None => None end)
       members.

End JS.

(** ** Data model *)

Definition uuid := N.
Bind Scope N_scope with uuid.

Inductive Status := todo | in_progress | blocked | done | cancelled.

Definition Status_eqb (a b : Status) : bool :=
  match a, b with
  | todo, todo | in_progress, in_progress | blocked, blocked
  | done, done | cancelled, cancelled => true
  | _, _ => false
  end.

(** A row of table [tasks]. *)
Module Task.
Record t := mk {
  id : uuid;
  user_id : uuid;
  parent_id : option uuid;
  title : string;
  description : option string;
  status : Status;
  priority : Z;
  progress : Z;
  estimated_hours : option Q;
  actual_hours : option Q;
  due_at : option Z;
  scheduled_at : option Z;
  started_at : option Z;
  completed_at : option Z;
  tags : list string;
  context : JS.object;
  created_at : Z;
  updated_at : Z
}.

(** The CHECK constraints of the table. *)
Definition checks (r : t) : bool :=
  (1 <=? priority r)%Z && (priority r <=? 5)%Z
  && (0 <=? progress r)%Z && (progress r <=? 100)%Z.
End Task.

(** A typed column value, as it is rendered into SQL text or a Redis field. *)
Inductive Value :=
| VUuid (u : uuid)
| VStr (s : string)
| VStatus (s : Status)
| VInt (z : Z)
| VNum (q : Q)
| VTime (ms : Z)
| VTags (l : list string)
| VJson (o : JS.object)
| VNull.

(** [Partial<Task>] over the columns the callers may write; [None] is
    [undefined]. *)
Module Partial.
Record t := mk {
  parent_id : option uuid;
  title : option string;
  description : option string;
  status : option Status;
  priority : option Z;
  progress : option Z;
  estimated_hours : option Q;
  actual_hours : option Q;
  due_at : option Z;
  scheduled_at : option Z;
  started_at : option Z;
  completed_at : option Z;
  tags : option (list string);
  context : option JS.object
}.

Definition empty : t :=
  mk None None None None None None None None None None None None None None.

(** [Object.entries(updates)] with the [undefined] members kept. *)
Definition all_entries (u : t) : list (string * option Value) :=
  [ ("parent_id", VUuid <$> parent_id u);
    ("title", VStr <$> title u);
    ("description", VStr <$> description u);
    ("status", VStatus <$> status u);
    ("priority", VInt <$> priority u);
    ("progress", VInt <$> progress u);
    ("estimated_hours", VNum <$> estimated_hours u);
    ("actual_hours", VNum <$> actual_hours u);
    ("due_at", VTime <$> due_at u);
    ("scheduled_at", VTime <$> scheduled_at u);
    ("started_at", VTime <$> started_at u);
    ("completed_at", VTime <$> completed_at u);
    ("tags", VTags <$> tags u);
    ("context", VJson <$> context u) ]%string.

(** [.filter(([_, v]) => v !== undefined)] *)
Definition entries (u : t) : list (string * Value) :=
  omap (fun kv => match kv.2 with Some v => Some (kv.1, v) | None => None end)
       (all_entries u).
End Partial.

(** A row of table [task_scores]; [task_id] is its primary key and references
    [tasks(id)]. *)
Module TaskScore.
Record t := mk {
  task_id : uuid;
  difficulty : Z;
  innovation : Z;
  quality : Z;
  speed : Z;
  overall_score : Z;
  xp_earned : Z;
  user_satisfaction : option Z;
  user_notes : option string;
  scored_at : Z
}.

Definition between (lo hi x : Z) : bool := ((lo <=? x) && (x <=? hi))%Z.

(** The CHECK constraints of the table. *)
Definition checks (r : t) : bool :=
  between 1 5 (difficulty r) && between 1 5 (innovation r)
  && between 1 5 (quality r) && between 1 5 (speed r)
  && between 0 100 (overall_score r)
  && match user_satisfaction r with
     | Some s => between 1 5 s
     | None => true
     end.
End TaskScore.

(** [Omit<TaskScore, 'task_id' | 'scored_at'>]: the four dimensions are
    JavaScript numbers as the assessment delivers them; the two derived
    values are integers by construction ([Math.round] plus integer bonuses). *)
Module Scores.
Record t := mk {
  difficulty : Q;
  innovation : Q;
  quality : Q;
  speed : Q;
  overall_score : Z;
  xp_earned : Z;
  user_satisfaction : option Z;
  user_notes : option string
}.
End Scores.

(** The payload of a stored pattern. *)
Module Pattern.

Record HourStats := mkHourStats {
  h_count : nat;
  avgQuality : Q;
  avgSpeed : Q
}.

Record DayStats := mkDayStats {
  d_count : nat;
  avgProductivity : Q
}.

Record OptimalHour := mkOptimalHour {
  hour : Z;
  oh_stats : HourStats
}.

Record Slot := mkSlot {
  slot : OptimalHour;
  hoursFromNow : Z;
  recommendationScore : Q
}.

Record Predictions := mkPredictions {
  nextOptimalSlots : list Slot;
  currentProductivity : Q;
  recommendation : option Slot
}.

Record DifficultyGroup := mkDifficultyGroup {
  g_count : nat;
  avgCompletionRate : Q;
  avgTimeAccuracy : JS.number;
  avgSatisfaction : Q;
  confidence : Q
}.

Record Insight := mkInsight {
  i_type : string;
  i_title : string;
  i_description : string;
  i_confidence : Q;
  actionable : string
}.

Inductive Data :=
| Scheduling (optimalHours : list OptimalHour) (dayStats : list (Z * DayStats))
             (lastUpdated : Z) (predictions : option Predictions)
| Complexity (difficultyGroups : list (Z * DifficultyGroup)) (lastUpdated : Z)
| Insights (insights : list Insight) (generatedAt : Z) (basedOnTasks : nat)
| Other (o : JS.object).

(** [patternData.sample_size]: only a free-form payload can have the member. *)
Definition sample_size_member (d : Data) : option Q :=
  match d with
  | Other o => match JS.get "sample_size" o with
               | Some (JS.JNum q) => Some q
               | _ => None
               end
  | _ => None
  end.

(** A row of table [task_patterns]. *)
Record row := mkRow {
  user_id : uuid;
  pattern_type : string;
  pattern_data : Data;
  confidence_score : Q;
  sample_size : Q;
  updated_at : Z
}.

End Pattern.

(** Entries of the streams [events:task] and [events:ml]. *)
Inductive Event :=
| TASK_CREATED (taskId userId : uuid) (parentId : option uuid) (ts : Z)
| TASK_UPDATED (taskId userId : uuid) (delta : Partial.t) (ts : Z)
| TASK_COMPLETED (taskId userId : uuid) (completedAt : Z) (ts : Z)
| TASK_SCORED (taskId userId : uuid) (xpEarned overallScore : Z) (ts : Z)
| META_PLAN_READY (taskId userId : uuid) (subtaskCount : nat) (complexity : Q)
                  (ts : Z)
| INSIGHTS_GENERATED (userId : uuid) (insightCount : nat) (ts : Z)
| ACHIEVEMENT_UNLOCKED (userId : uuid) (achievement achievementName : string)
                       (ts : Z).

(** A thrown JavaScript error: the name of its class and its message. *)
Inductive Error := Throw (name message : string).

Definition error_name (e : Error) : string :=
  match e with Throw n _ => n end.

(** The hash [user:<id>:stats]. *)
Record UserStats := mkUserStats {
  total_xp : option Z;
  tasks_completed : option Z;
  last_completed : option string
}.

(** The bundle cached under [user:<id>:recommendations]. *)
Record Recommendations := mkRecommendations {
  r_scheduling : list Pattern.Slot;
  r_insights : list Pattern.Insight;
  r_completion : option (list Pattern.OptimalHour * list (Z * Pattern.DayStats)
                         * list (Z * Pattern.HourStats) * nat);
  r_complexity : list (Z * Pattern.DifficultyGroup);
  r_lastUpdated : Z
}.

(** ** The stores *)

Record World := mkWorld {
  (* Postgres *)
  users : list uuid;             (* the ids of table [users] *)
  tasks : list Task.t;
  task_scores : list TaskScore.t;
  task_patterns : list Pattern.row;
  (* whether the deployed [task_patterns] carries the unique constraint on
     (user_id, pattern_type) that [storePattern] names in ON CONFLICT; the
     schema file declares a plain index only *)
  task_patterns_unique : bool;
  next_uuid : uuid;              (* gen_random_uuid() *)
  clock : Z;                     (* NOW() and Date.now(), milliseconds *)
  (* Redis *)
  task_hash : gmap uuid (gmap string Value);       (* task:<id> *)
  user_tasks : gmap uuid (gmap uuid Z);            (* user:<id>:tasks *)
  user_stats : gmap uuid UserStats;                (* user:<id>:stats *)
  recommendations : gmap uuid (Z * Recommendations);
  achievements : gmap uuid (gset string);          (* user:<id>:achievements *)
  events_task : list Event;
  events_ml : list Event
}.

Definition set_tasks (f : list Task.t -> list Task.t)
    (w : World) : World :=
  mkWorld (users w) (f (tasks w)) (task_scores w) (task_patterns w)
          (task_patterns_unique w) (next_uuid w) (clock w) (task_hash w)
          (user_tasks w) (user_stats w) (recommendations w) (achievements w)
          (events_task w) (events_ml w).

Definition set_task_scores (f : list TaskScore.t -> list TaskScore.t)
    (w : World) : World :=
  mkWorld (users w) (tasks w) (f (task_scores w)) (task_patterns w)
          (task_patterns_unique w) (next_uuid w) (clock w) (task_hash w)
          (user_tasks w) (user_stats w) (recommendations w) (achievements w)
          (events_task w) (events_ml w).

Definition set_task_patterns (f : list Pattern.row -> list Pattern.row)
    (w : World) : World :=
  mkWorld (users w) (tasks w) (task_scores w) (f (task_patterns w))
          (task_patterns_unique w) (next_uuid w) (clock w) (task_hash w)
          (user_tasks w) (user_stats w) (recommendations w) (achievements w)
          (events_task w) (events_ml w).

Definition set_next_uuid (f : uuid -> uuid)
    (w : World) : World :=
  mkWorld (users w) (tasks w) (task_scores w) (task_patterns w)
          (task_patterns_unique w) (f (next_uuid w)) (clock w) (task_hash w)
          (user_tasks w) (user_stats w) (recommendations w) (achievements w)
          (events_task w) (events_ml w).

Definition set_task_hash (f : gmap uuid (gmap string Value) -> gmap uuid (gmap string Value))
    (w : World) : World :=
  mkWorld (users w) (tasks w) (task_scores w) (task_patterns w)
          (task_patterns_unique w) (next_uuid w) (clock w) (f (task_hash w))
          (user_tasks w) (user_stats w) (recommendations w) (achievements w)
          (events_task w) (events_ml w).

Definition set_user_tasks (f : gmap uuid (gmap uuid Z) -> gmap uuid (gmap uuid Z))
    (w : World) : World :=
  mkWorld (users w) (tasks w) (task_scores w) (task_patterns w)
          (task_patterns_unique w) (next_uuid w) (clock w) (task_hash w)
          (f (user_tasks w)) (user_stats w) (recommendations w)
          (achievements w) (events_task w) (events_ml w).

Definition set_user_stats (f : gmap uuid UserStats -> gmap uuid UserStats)
    (w : World) : World :=
  mkWorld (users w) (tasks w) (task_scores w) (task_patterns w)
          (task_patterns_unique w) (next_uuid w) (clock w) (task_hash w)
          (user_tasks w) (f (user_stats w)) (recommendations w)
          (achievements w) (events_task w) (events_ml w).

Definition set_recommendations (f : gmap uuid (Z * Recommendations) -> gmap uuid (Z * Recommendations))
    (w : World) : World :=
  mkWorld (users w) (tasks w) (task_scores w) (task_patterns w)
          (task_patterns_unique w) (next_uuid w) (clock w) (task_hash w)
          (user_tasks w) (user_stats w) (f (recommendations w))
          (achievements w) (events_task w) (events_ml w).

Definition set_achievements (f : gmap uuid (gset string) -> gmap uuid (gset string))
    (w : World) : World :=
  mkWorld (users w) (tasks w) (task_scores w) (task_patterns w)
          (task_patterns_unique w) (next_uuid w) (clock w) (task_hash w)
          (user_tasks w) (user_stats w) (recommendations w)
          (f (achievements w)) (events_task w) (events_ml w).

Definition set_events_task (f : list Event -> list Event)
    (w : World) : World :=
  mkWorld (users w) (tasks w) (task_scores w) (task_patterns w)
          (task_patterns_unique w) (next_uuid w) (clock w) (task_hash w)
          (user_tasks w) (user_stats w) (recommendations w) (achievements w)
          (f (events_task w)) (events_ml w).

Definition set_events_ml (f : list Event -> list Event)
    (w : World) : World :=
  mkWorld (users w) (tasks w) (task_scores w) (task_patterns w)
          (task_patterns_unique w) (next_uuid w) (clock w) (task_hash w)
          (user_tasks w) (user_stats w) (recommendations w) (achievements w)
          (events_task w) (f (events_ml w)).

(** Time passing between two operations. *)
Definition set_clock (now : Z) (w : World) : World :=
  mkWorld (users w) (tasks w) (task_scores w) (task_patterns w)
          (task_patterns_unique w) (next_uuid w) now (task_hash w)
          (user_tasks w) (user_stats w) (recommendations w) (achievements w)
          (events_task w) (events_ml w).

(** ** The monad of store operations *)

Definition M (A : Type) : Type := World -> (Error + A) * World.

#[global] Instance M_ret : MRet M := fun A a w => (inr a, w).

#[global] Instance M_bind : MBind M := fun A B k m w =>
  match m w with
  | (inr a, w') => k a w'
  | (inl e, w') => (inl e, w')
  end.

Definition throw {A} (e : Error) : M A := fun w => (inl e, w).
Definition gets {A} (f : World -> A) : M A := fun w => (inr (f w), w).
Definition modify (f : World -> World) : M unit := fun w => (inr tt, f w).

(** [for (const [index, x] of xs.entries()) { acc.push(await f(index, x)) }] *)
Fixpoint for_entries {A B} (f : nat -> A -> M B) (i : nat) (xs : list A)
    : M (list B) :=
  match xs with
  | [] => mret []
  | x :: xs' =>
      b ← f i x;
      bs ← for_entries f (S i) xs';
      mret (b :: bs)
  end.

(** ** Store primitives *)

Module Redis.

(** HSET key field value [field value ...]: new fields replace old ones. *)
Definition hset (key : uuid) (fields : gmap string Value)
    (m : gmap uuid (gmap string Value)) : gmap uuid (gmap string Value) :=
  <[key := fields ∪ default ∅ (m !! key)]> m.

(** ZADD key score member *)
Definition zadd (key : uuid) (score : Z) (member : uuid)
    (m : gmap uuid (gmap uuid Z)) : gmap uuid (gmap uuid Z) :=
  <[key := <[member := score]> (default ∅ (m !! key))]> m.

(** SADD and SISMEMBER on user:<id>:achievements *)
Definition sadd (key : uuid) (member : string)
    (m : gmap uuid (gset string)) : gmap uuid (gset string) :=
  <[key := {[member]} ∪ default ∅ (m !! key)]> m.

Definition sismember (key : uuid) (member : string)
    (m : gmap uuid (gset string)) : bool :=
  bool_decide (member ∈ default ∅ (m !! key)).

(** The two streams. *)
Inductive Stream := events_task_key | events_ml_key.

(** The second argument of [xadd]: the entry id, "*" for a generated one.
    The sources pass the object of fields in this place. *)
Inductive EntryId := Generated | Misplaced (fields : Event).

(** [redis.xadd(key, id, entries)] of the Redis client. The client builds
    the command from [Object.entries(entries)] before it sends anything;
    with [entries] undefined that throws. Every call in the sources has the
    form [redis.xadd(key, fields)], so [entries] is always undefined
    there. *)
Definition xadd (key : Stream) (id : EntryId) (entries : option Event)
    : M unit :=
  match entries with
  | None =>
      throw (Throw "TypeError" "Cannot convert undefined or null to object")
  | Some e =>
      match key with
      | events_task_key => modify (set_events_task (fun l => l ++ [e]))
      | events_ml_key => modify (set_events_ml (fun l => l ++ [e]))
      end
  end.

Definition empty_stats : UserStats := mkUserStats None None None.

(** HINCRBY user:<id>:stats total_xp n: a missing field counts as 0. *)
Definition hincrby_total_xp (key : uuid) (n : Z)
    (m : gmap uuid UserStats) : gmap uuid UserStats :=
  let s := default empty_stats (m !! key) in
  <[key := mkUserStats (Some (default 0%Z (total_xp s) + n)%Z)
                       (tasks_completed s) (last_completed s)]> m.

(** HGET user:<id>:stats total_xp, read as a number. *)
Definition get_total_xp (key : uuid) (m : gmap uuid UserStats) : Z :=
  default 0%Z (total_xp (default empty_stats (m !! key))).

End Redis.

Module Sql.

Definition db_error (message : string) : Error := Throw "NeonDbError" message.

(** SELECT * FROM tasks WHERE id = taskId, then [rows[0]]. *)
Definition select_task (taskId : uuid) (w : World) : option Task.t :=
  List.find (fun r => N.eqb (Task.id r) taskId) (tasks w).

(** The condition [parent_id = taskId]. *)
Definition is_child_of (taskId : uuid) (r : Task.t) : bool :=
  match Task.parent_id r with
  | Some p => N.eqb p taskId
  | None => false
  end.

(** A number as a DECIMAL column of the given scale stores it: rounded to
    that many decimals, a half going away from zero; [None] when the rounded
    value does not fit the precision (numeric field overflow). [scale] is
    10 to the number of decimals and [limit] 10 to the number of digits left
    of the point. *)
Definition decimal (scale : positive) (limit : Z) (q : Q) : option Q :=
  let scaled := (q * inject_Z (Z.pos scale))%Q in
  let n := if Qle_bool 0 q then Qfloor (scaled + (1 # 2))
           else (- Qfloor (- scaled + (1 # 2)))%Z in
  if (Z.abs n <? limit * Z.pos scale)%Z then Some (Qred (n # scale)) else None.

(** DECIMAL(5,2), the type of [estimated_hours] and [actual_hours], and
    DECIMAL(5,4), the type of [confidence_score]. *)
Definition decimal_5_2 : Q -> option Q := decimal 100 1000.
Definition decimal_5_4 : Q -> option Q := decimal 10000 10.

(** [o] is a value as a nullable column of type [column] holds it: NULL, or
    a number that the column stores unchanged. *)
Definition held (column : Q -> option Q) (o : option Q) : bool :=
  match o with
  | None => true
  | Some q => match column q with
              | Some r => Qeq_bool r q
              | None => false
              end
  end.

(** A nullable DECIMAL(5,2) value on its way into the table. *)
Definition hours_column (o : option Q) : option (option Q) :=
  match o with
  | Some q => Some <$> decimal_5_2 q
  | None => Some None
  end.

(** The SET clause of [updateTask] is text: every value is put between
    apostrophes as it is, an object as its JSON text. *)
Fixpoint has_apostrophe (s : string) : bool :=
  match s with
  | EmptyString => false
  | String c s' => Ascii.eqb c "'"%char || has_apostrophe s'
  end.

Fixpoint json_has_apostrophe (j : JS.json) : bool :=
  match j with
  | JS.JStr s => has_apostrophe s
  | JS.JArr l => existsb json_has_apostrophe l
  | JS.JObj l =>
      existsb (fun kv => match kv with
                         | (k, v) => has_apostrophe k || json_has_apostrophe v
                         end) l
  | _ => false
  end.

(** The clause is one the server can read: no [tags] member (the JSON text
    of an array is not an array literal) and no apostrophe inside a value
    (it would end the literal early). A value crafted to continue the
    statement after its apostrophe is outside the model; it is counted as
    rejected. *)
Definition readable (updates : Partial.t) : bool :=
  negb (bool_decide (is_Some (Partial.tags updates)))
  && negb (has_apostrophe (default EmptyString (Partial.title updates)))
  && negb (has_apostrophe (default EmptyString (Partial.description updates)))
  && negb (json_has_apostrophe (JS.JObj (default [] (Partial.context updates)))).

(** The values as the columns take them: the two DECIMAL members rounded. *)
Definition as_stored (updates : Partial.t) : option Partial.t :=
  e ← hours_column (Partial.estimated_hours updates);
  a ← hours_column (Partial.actual_hours updates);
  Some (Partial.mk (Partial.parent_id updates) (Partial.title updates)
          (Partial.description updates) (Partial.status updates)
          (Partial.priority updates) (Partial.progress updates) e a
          (Partial.due_at updates) (Partial.scheduled_at updates)
          (Partial.started_at updates) (Partial.completed_at updates)
          (Partial.tags updates) (Partial.context updates)).

(** The effect of a SET clause built from [updates], followed by
    [updated_at = NOW()]. *)
Definition apply_set (updates : Partial.t) (now : Z) (r : Task.t) : Task.t :=
  Task.mk (Task.id r) (Task.user_id r)
    (match Partial.parent_id updates with
     | Some p => Some p | None => Task.parent_id r end)
    (default (Task.title r) (Partial.title updates))
    (match Partial.description updates with
     | Some d => Some d | None => Task.description r end)
    (default (Task.status r) (Partial.status updates))
    (default (Task.priority r) (Partial.priority updates))
    (default (Task.progress r) (Partial.progress updates))
    (match Partial.estimated_hours updates with
     | Some h => Some h | None => Task.estimated_hours r end)
    (match Partial.actual_hours updates with
     | Some h => Some h | None => Task.actual_hours r end)
    (match Partial.due_at updates with
     | Some d => Some d | None => Task.due_at r end)
    (match Partial.scheduled_at updates with
     | Some d => Some d | None => Task.scheduled_at r end)
    (match Partial.started_at updates with
     | Some d => Some d | None => Task.started_at r end)
    (match Partial.completed_at updates with
     | Some d => Some d | None => Task.completed_at r end)
    (default (Task.tags r) (Partial.tags updates))
    (default (Task.context r) (Partial.context updates))
    (Task.created_at r)
    now.

(** The foreign key [parent_id REFERENCES tasks(id)]. *)
Definition parent_exists (r : Task.t) (w : World) : bool :=
  match Task.parent_id r with
  | Some p => bool_decide (is_Some (select_task p w))
  | None => true
  end.

(** UPDATE tasks SET <setClause>, updated_at = NOW() WHERE id = taskId
    RETURNING *, then [rows[0]]. An empty clause leaves [SET , updated_at]
    which the server rejects. The statement is read and its constants are
    typed before any row is looked at, so an unreadable clause or a number
    too large for its column fails also when no row matches; the CHECK and
    foreign key constraints are tested on the row that is written. *)
Definition update_task (taskId : uuid) (updates : Partial.t)
    : M (option Task.t) :=
  fun w =>
    match Partial.entries updates with
    | [] => (inl (db_error "syntax error at or near ,"), w)
    | _ :: _ =>
        if negb (readable updates) then
          (inl (db_error "the SET clause is rejected"), w)
        else
          match as_stored updates with
          | None => (inl (db_error "numeric field overflow"), w)
          | Some stored =>
              match select_task taskId w with
              | None => (inr None, w)
              | Some r =>
                  let r' := apply_set stored (clock w) r in
                  if Task.checks r' && parent_exists r' w then
                    (inr (Some r'),
                     set_tasks
                       (map (fun x => if N.eqb (Task.id x) taskId
                                      then r' else x)) w)
                  else (inl (db_error "constraint violation on tasks"), w)
              end
          end
    end.

(** An integer column accepts a number only when it is integral. *)
Definition as_integer (q : Q) : option Z :=
  if Qeq_bool q (inject_Z (Qfloor q)) then Some (Qfloor q) else None.

(** The row that [scoreTask] sends to [task_scores]. *)
Definition score_row (taskId : uuid) (scores : Scores.t) (now : Z)
    : option TaskScore.t :=
  d ← as_integer (Scores.difficulty scores);
  i ← as_integer (Scores.innovation scores);
  q ← as_integer (Scores.quality scores);
  s ← as_integer (Scores.speed scores);
  Some (TaskScore.mk taskId d i q s
          (Scores.overall_score scores) (Scores.xp_earned scores)
          (JS.or_null_int (Scores.user_satisfaction scores))
          (match Scores.user_notes scores with
           | Some EmptyString => None       (* [user_notes || null] *)
           | n => n
           end)
          now).

Definition has_score (taskId : uuid) (rows : list TaskScore.t) : bool :=
  existsb (fun r => N.eqb (TaskScore.task_id r) taskId) rows.

(** The row set after INSERT ... ON CONFLICT (task_id) DO UPDATE SET ...:
    a conflicting row takes the new values, otherwise the row is added. *)
Definition upsert_rows (taskId : uuid) (row : TaskScore.t)
    (rows : list TaskScore.t) : list TaskScore.t :=
  if has_score taskId rows then
    map (fun r => if N.eqb (TaskScore.task_id r) taskId then row else r) rows
  else rows ++ [row].

(** INSERT INTO task_scores ... ON CONFLICT (task_id) DO UPDATE SET ... *)
Definition upsert_score (taskId : uuid) (scores : Scores.t) : M unit :=
  fun w =>
    match score_row taskId scores (clock w) with
    | None => (inl (db_error "invalid input syntax for type integer"), w)
    | Some row =>
        if negb (TaskScore.checks row) then
          (inl (db_error "check constraint violation on task_scores"), w)
        else if negb (bool_decide (is_Some (select_task taskId w))) then
          (inl (db_error "foreign key violation on task_scores"), w)
        else (inr tt, set_task_scores (upsert_rows taskId row) w)
    end.

(** The scores fit the columns of [task_scores]: integral dimensions and
    every CHECK satisfied. *)
Definition acceptable (scores : Scores.t) : bool :=
  match score_row 0%N scores 0%Z with
  | Some row => TaskScore.checks row
  | None => false
  end.

(** The rows of [task_scores] that belong to one task. *)
Definition scores_of_task (taskId : uuid) (rows : list TaskScore.t)
    : list TaskScore.t :=
  List.filter (fun r => N.eqb (TaskScore.task_id r) taskId) rows.

Definition same_pattern (userId : uuid) (patternType : string)
    (r : Pattern.row) : bool :=
  N.eqb (Pattern.user_id r) userId
  && String.eqb (Pattern.pattern_type r) patternType.

(** The row as the table takes it: [confidence_score] is DECIMAL(5,4) and
    [sample_size] is INTEGER, which accepts an integral number only. *)
Definition pattern_row (row : Pattern.row) : option Pattern.row :=
  c ← decimal_5_4 (Pattern.confidence_score row);
  n ← as_integer (Pattern.sample_size row);
  Some (Pattern.mkRow (Pattern.user_id row) (Pattern.pattern_type row)
          (Pattern.pattern_data row) c (inject_Z n) (Pattern.updated_at row)).

(** INSERT INTO task_patterns ... ON CONFLICT (user_id, pattern_type)
    DO UPDATE SET ... The user is taken to be registered: patterns are
    stored for the user whose tasks were read, and the foreign key of
    [user_id] is not tested here. *)
Definition upsert_pattern (row : Pattern.row) : M unit :=
  fun w =>
    if negb (task_patterns_unique w) then
      (inl (db_error "no unique constraint matching the ON CONFLICT specification"), w)
    else
      match pattern_row row with
      | None => (inl (db_error "value out of range for its column"), w)
      | Some row =>
          if negb (Qle_bool 0 (Pattern.confidence_score row)
                   && Qle_bool (Pattern.confidence_score row) 1) then
            (inl (db_error "check constraint violation on task_patterns"), w)
          else if existsb (same_pattern (Pattern.user_id row)
                                        (Pattern.pattern_type row))
                          (task_patterns w) then
            (inr tt,
             set_task_patterns
               (map (fun r => if same_pattern (Pattern.user_id row)
                                              (Pattern.pattern_type row) r
                              then row else r)) w)
          else (inr tt, set_task_patterns (fun rows => rows ++ [row]) w)
      end.

End Sql.

(** ** The task store *)

Module TaskManager.

(** The members of [{...task}] as the cache mirror receives them. *)
Definition task_fields (r : Task.t) : list (string * Value) :=
  let opt {A} (f : A -> Value) (o : option A) : Value :=
    match o with Some a => f a | None => VNull end in
  [ ("id", VUuid (Task.id r));
    ("user_id", VUuid (Task.user_id r));
    ("parent_id", opt VUuid (Task.parent_id r));
    ("title", VStr (Task.title r));
    ("description", opt VStr (Task.description r));
    ("status", VStatus (Task.status r));
    ("priority", VInt (Task.priority r));
    ("progress", VInt (Task.progress r));
    ("estimated_hours", opt VNum (Task.estimated_hours r));
    ("actual_hours", opt VNum (Task.actual_hours r));
    ("due_at", match Task.due_at r with
               | Some d => VTime d | None => VStr EmptyString end);
    ("scheduled_at", opt VTime (Task.scheduled_at r));
    ("started_at", opt VTime (Task.started_at r));
    ("completed_at", opt VTime (Task.completed_at r));
    ("tags", VTags (Task.tags r));
    ("context", VJson (Task.context r));
    ("created_at", VTime (Task.created_at r));
    ("updated_at", VTime (Task.updated_at r)) ]%string.

(** The row that the INSERT of [createTask] produces. Its column list is
    (user_id, title, description, priority, estimated_hours, due_at, tags,
    context); every other column takes its default. [estimate] is the
    estimate as the DECIMAL column holds it. *)
Definition inserted_row (id userId : uuid) (title : string)
    (taskData : Partial.t) (estimate : option Q) (now : Z) : Task.t :=
  Task.mk id userId
    None                                                   (* parent_id *)
    title
    (Some (default EmptyString (Partial.description taskData)))
    todo
    (JS.or_int (Partial.priority taskData) 3)
    0%Z
    estimate
    None
    (Partial.due_at taskData)
    None None None
    (default [] (Partial.tags taskData))
    (default [] (Partial.context taskData))
    now now.

(** The INSERT is rejected when the title is missing (NOT NULL), the
    estimate does not fit DECIMAL(5,2), the priority is outside 1..5 (CHECK)
    or the user id is not in [users] (foreign key). *)
Definition createTask (userId : uuid) (taskData : Partial.t) : M Task.t :=
  now ← gets clock;
  id ← gets next_uuid;
  registered ← gets (fun w => existsb (N.eqb userId) (users w));
  match Partial.title taskData,
        Sql.hours_column (JS.or_null_num (Partial.estimated_hours taskData))
  with
  | None, _ => throw (Sql.db_error "null value in column title")
  | Some _, None => throw (Sql.db_error "numeric field overflow")
  | Some title, Some estimate =>
      let task := inserted_row id userId title taskData estimate now in
      if negb (Task.checks task) then
        throw (Sql.db_error "check constraint violation on tasks")
      else if negb registered then
        throw (Sql.db_error "foreign key violation on tasks")
      else
        modify (fun w => set_next_uuid N.succ
                           (set_tasks (fun rows => rows ++ [task]) w));;
        (* Cache in Redis for real-time access *)
        modify (set_task_hash (Redis.hset id (list_to_map (task_fields task))));;
        (* Add to user's task index *)
        modify (set_user_tasks (Redis.zadd userId (Task.created_at task) id));;
        (* Emit event for agents *)
        Redis.xadd Redis.events_task_key
          (Redis.Misplaced (TASK_CREATED id userId (Task.parent_id task) now))
          None;;
        mret task
  end.

Definition updateTask (taskId : uuid) (updates : Partial.t) : M Task.t :=
  now ← gets clock;
  task ← Sql.update_task taskId updates;
  (* Update Redis cache *)
  let redisData : gmap string Value :=
    <["updated_at"%string := VTime now]> (list_to_map (Partial.entries updates)) in
  modify (set_task_hash (Redis.hset taskId redisData));;
  match task with
  | None =>
      throw (Throw "TypeError"
                   "Cannot read properties of undefined (reading 'user_id')")
  | Some task =>
      (* Emit update event *)
      Redis.xadd Redis.events_task_key
        (Redis.Misplaced (TASK_UPDATED taskId (Task.user_id task) updates now))
        None;;
      (* Check if completed *)
      match Partial.status updates, Task.completed_at task with
      | Some done, Some completedAt =>
          Redis.xadd Redis.events_task_key
            (Redis.Misplaced (TASK_COMPLETED taskId (Task.user_id task)
                                             completedAt now))
            None
      | _, _ => mret tt
      end;;
      mret task
  end.

Definition scoreTask (taskId : uuid) (scores : Scores.t) : M unit :=
  Sql.upsert_score taskId scores;;
  (* Update user XP *)
  task ← gets (Sql.select_task taskId);
  now ← gets clock;
  match task with
  | Some task =>
      modify (set_user_stats
                (Redis.hincrby_total_xp (Task.user_id task)
                                        (Scores.xp_earned scores)));;
      (* Emit scoring event for achievements *)
      Redis.xadd Redis.events_task_key
        (Redis.Misplaced (TASK_SCORED taskId (Task.user_id task)
                                      (Scores.xp_earned scores)
                                      (Scores.overall_score scores) now))
        None
  | None => mret tt
  end.

Definition storePattern (userId : uuid) (patternType : string)
    (patternData : Pattern.Data) (confidence : Q) : M unit :=
  now ← gets clock;
  Sql.upsert_pattern
    (Pattern.mkRow userId patternType patternData confidence
       (JS.or_num (Pattern.sample_size_member patternData) 1) now).

End TaskManager.

(** ** The planner workflow *)

Module Planner.

Record Subtask := mkSubtask {
  title : option string;
  description : option string;
  estimatedHours : option Q;
  tags : option (list string);
  dependencies : option (list Z)
}.

(** The judgment returned by the analyze-task step, after parsing. *)
Record Analysis := mkAnalysis {
  needsSubtasks : bool;
  reasoning : option string;
  estimatedComplexity : option Q;
  suggestedDuration : option Q;
  subtasks : option (list Subtask)
}.

Inductive Result :=
| Skipped (reason : string)
| Success (subtasksCreated : nat) (complexity : option Q)
          (reasoning : option string).

(** The context literal of one subtask. *)
Definition subtask_context (analysis : Analysis) (index : nat)
    (subtask : Subtask) : JS.object :=
  JS.literal
    [ ("dependencies",
       Some (JS.JArr (map (fun d => JS.JNum (inject_Z d))
                          (default [] (dependencies subtask)))));
      ("plannedOrder", Some (JS.JNum (inject_Z (Z.of_nat index))));
      ("parentComplexity", JS.JNum <$> estimatedComplexity analysis) ]%string.

(** The argument of [TaskManager.createTask] for one subtask. *)
Definition subtask_data (taskId : uuid) (analysis : Analysis) (index : nat)
    (subtask : Subtask) : Partial.t :=
  Partial.mk (Some taskId) (title subtask) (description subtask) None None None
             (estimatedHours subtask) None None None None None
             (Some (default [] (tags subtask)))
             (Some (subtask_context analysis index subtask)).

Definition create_subtasks (taskId userId : uuid) (analysis : Analysis)
    (subs : list Subtask) : M (list Task.t) :=
  for_entries
    (fun index subtask =>
       TaskManager.createTask userId (subtask_data taskId analysis index subtask))
    0 subs.

(** The argument of [TaskManager.updateTask] in the update-parent step. *)
Definition parent_update (task : Task.t) (analysis : Analysis)
    (created : list Task.t) : Partial.t :=
  Partial.mk None None None None None None
    (suggestedDuration analysis) None None None None None None
    (Some (JS.spread (Task.context task)
             (JS.literal
                [ ("planningCompleted", Some (JS.JBool true));
                  ("complexityScore", JS.JNum <$> estimatedComplexity analysis);
                  ("subtaskCount",
                   Some (JS.JNum (inject_Z (Z.of_nat (length created)))));
                  ("planningReasoning", JS.JStr <$> reasoning analysis)
                ]%string))).

Definition truthy_string (o : option string) : bool :=
  match o with
  | Some s => negb (String.eqb s EmptyString)
  | None => false
  end.

(** The workflow; [analyze] is the judgment obtained for the fetched task. *)
Definition POST (taskId userId : uuid) (analyze : Task.t -> Analysis)
    : M Result :=
  (* Step 1: fetch task details *)
  task ← gets (Sql.select_task taskId);
  match task with
  | None => mret (Skipped "Not a root task")
  | Some task =>
      match Task.parent_id task with
      | Some _ => mret (Skipped "Not a root task")
      | None =>
          (* Step 2: analyze task complexity and context *)
          let analysis := analyze task in
          match needsSubtasks analysis, subtasks analysis with
          | true, Some ((_ :: _) as subs) =>
              (* Step 3: create subtasks *)
              created ← create_subtasks taskId userId analysis subs;
              (* Step 4: update parent task with planning results *)
              TaskManager.updateTask taskId
                (parent_update task analysis created);;
              (* Step 5: emit planning completion event *)
              match estimatedComplexity analysis with
              | None =>
                  throw (Throw "TypeError"
                           "Cannot read properties of undefined (reading 'toString')")
              | Some c =>
                  now ← gets clock;
                  Redis.xadd Redis.events_task_key
                    (Redis.Misplaced (META_PLAN_READY taskId userId
                                        (length created) c now))
                    None
              end;;
              mret (Success (length created) (estimatedComplexity analysis)
                            (reasoning analysis))
          | _, _ =>
              mret (Success 0 None
                      (Some (if truthy_string (reasoning analysis)
                             then default EmptyString (reasoning analysis)
                             else "Task doesn't need subtasks"%string)))
          end
      end
  end.

End Planner.

(** ** The assessor workflow *)

Module Assessor.

(** The parsed reply of the ai-assessment step. *)
Record Assessment := mkAssessment {
  difficulty : Q;
  innovation : Q;
  quality : Q;
  speed : Q;
  highlights : option (list string);
  improvements : option (list string)
}.

Record TimeMetrics := mkTimeMetrics {
  estimatedHours : Q;
  actualHours : Q;
  speedRatio : JS.number;
  wasOnTime : bool
}.

Record FinalScores := mkFinalScores {
  overall : Z;
  xp : Z
}.

(** Direct subtasks: SELECT * FROM tasks WHERE parent_id = taskId ORDER BY
    created_at. The steps below use the number of rows only, so the rows are
    left in table order. *)
Definition select_subtasks (taskId : uuid) (w : World) : list Task.t :=
  filter (fun r => Is_true (Sql.is_child_of taskId r)) (tasks w).

(** The values computed by the calculate-time-metrics step. The estimate
    is read from a DECIMAL column: when the column is not NULL it is a
    non-empty string, which [||] and [?:] take for true also when it reads
    0.00. *)
Definition time_metrics (task : Task.t) : TimeMetrics :=
  let estimatedMs :=
    (default 1 (Task.estimated_hours task) * 60 * 60 * 1000)%Q in
  let actualMs :=
    match Task.completed_at task with
    | Some completed =>
        inject_Z (completed
                  - default (Task.created_at task) (Task.started_at task))
    | None => estimatedMs
    end in
  let actualHours := (actualMs / (60 * 60 * 1000))%Q in
  let speedRatio :=
    match Task.estimated_hours task with
    | Some e => JS.div e actualHours
    | None => JS.Fin 1
    end in
  mkTimeMetrics (default 1%Q (Task.estimated_hours task)) actualHours
                speedRatio
                (JS.ge speedRatio (8 # 10)).

(** Step 2, with its write of the actual time to the database. *)
Definition calculate_time_metrics (taskId : uuid) (task : Task.t)
    : M TimeMetrics :=
  let m := time_metrics task in
  TaskManager.updateTask taskId
    (Partial.mk None None None None None None None (Some (actualHours m))
                None None None None None None);;
  mret m.

Definition weights : list (string * Q) :=
  [ ("difficulty", 3); ("innovation", 3); ("quality", 4); ("speed", 2) ]%string%Q.

Definition totalWeight : Q := fold_left Qplus (map snd weights) 0%Q.

Definition weight (name : string) : Q :=
  default 0%Q (snd <$> List.find (fun kv => String.eqb (fst kv) name) weights).

(** Step 4: the overall score and the experience points. *)
Definition calculate_final_scores (assessment : Assessment)
    (timeMetrics : TimeMetrics) (subtasks : list Task.t) : FinalScores :=
  let overall :=
    JS.Math_round
      ((difficulty assessment * weight "difficulty"
        + innovation assessment * weight "innovation"
        + quality assessment * weight "quality"
        + speed assessment * weight "speed") / totalWeight * 20)%Q in
  let xp := JS.Math_round (inject_Z overall / 10)%Q in
  let xp := if Qle_bool 5 (innovation assessment) then (xp + 3)%Z else xp in
  let xp := if Qle_bool 5 (quality assessment) then (xp + 2)%Z else xp in
  let xp := if wasOnTime timeMetrics then (xp + 1)%Z else xp in
  let xp := if (0 <? length subtasks)%nat then (xp + 1)%Z else xp in
  mkFinalScores overall xp.

Definition join_notes (l : option (list string)) : string :=
  match l with
  | Some l => String.concat "; " l
  | None => "undefined"
  end.

(** Step 5: the argument of [TaskManager.scoreTask]. *)
Definition scores_of (assessment : Assessment) (finalScores : FinalScores)
    : Scores.t :=
  Scores.mk (difficulty assessment) (innovation assessment)
            (quality assessment) (speed assessment)
            (overall finalScores) (xp finalScores) None
            (Some (join_notes (highlights assessment) ++ ". Improvements: "
                   ++ join_notes (improvements assessment))%string).

Definition store_scores (taskId : uuid) (assessment : Assessment)
    (finalScores : FinalScores) : M unit :=
  TaskManager.scoreTask taskId (scores_of assessment finalScores).

(** A row of table [achievements]. *)
Record Achievement := mkAchievement {
  slug : string;
  name : string
}.

(** The switch over the slug: a slug without a case is never earned. *)
Definition shouldEarn (slug : string) (assessment : Assessment)
    (timeMetrics : TimeMetrics) (totalXp tasksCompleted : Z) : bool :=
  if String.eqb slug "first_blood" then (tasksCompleted =? 1)%Z
  else if String.eqb slug "innovator_50" then
    Qle_bool 4 (innovation assessment) && (50 <=? totalXp)%Z
  else if String.eqb slug "speed_demon" then
    Qle_bool 4 (speed assessment) && wasOnTime timeMetrics
  else if String.eqb slug "perfectionist" then Qle_bool 5 (quality assessment)
  else false.

(** The loop over the rows of [achievements]; the value is the array
    [earned]. *)
Fixpoint award (userId : uuid) (assessment : Assessment)
    (timeMetrics : TimeMetrics) (totalXp tasksCompleted : Z)
    (catalog : list Achievement) : M (list Achievement) :=
  match catalog with
  | [] => mret []
  | achievement :: rest =>
      hasEarned ← gets (fun w => Redis.sismember userId (slug achievement)
                                                 (achievements w));
      if (hasEarned : bool) then
        award userId assessment timeMetrics totalXp tasksCompleted rest
      else if shouldEarn (slug achievement) assessment timeMetrics totalXp
                         tasksCompleted then
        modify (set_achievements (Redis.sadd userId (slug achievement)));;
        (* Emit achievement event *)
        now ← gets clock;
        Redis.xadd Redis.events_task_key
          (Redis.Misplaced (ACHIEVEMENT_UNLOCKED userId (slug achievement)
                                                 (name achievement) now))
          None;;
        won ← award userId assessment timeMetrics totalXp tasksCompleted rest;
        mret (achievement :: won)
      else
        award userId assessment timeMetrics totalXp tasksCompleted rest
  end.

(** Step 6; [catalog] is the content of table [achievements]. HGETALL of a
    missing hash yields null, on which the read of [total_xp] throws;
    [parseInt(x || '0')] reads a missing counter as 0. *)
Definition check_achievements (userId : uuid) (completedAt : string)
    (assessment : Assessment) (timeMetrics : TimeMetrics)
    (finalScores : FinalScores) (catalog : list Achievement)
    : M (list Achievement) :=
  userStats ← gets (fun w => user_stats w !! userId);
  match userStats with
  | None =>
      throw (Throw "TypeError"
                   "Cannot read properties of null (reading 'total_xp')")
  | Some stats =>
      let totalXp := (default 0 (total_xp stats) + xp finalScores)%Z in
      let tasksCompleted := (default 0 (tasks_completed stats) + 1)%Z in
      (* Update stats *)
      modify (set_user_stats
                <[userId := mkUserStats (Some totalXp) (Some tasksCompleted)
                                        (Some completedAt)]>);;
      award userId assessment timeMetrics totalXp tasksCompleted catalog
  end.

(** The catalog that the schema file inserts. *)
Definition initial_achievements : list Achievement :=
  [ mkAchievement "first_blood" "First Blood";
    mkAchievement "marathon_5" "Marathon";
    mkAchievement "innovator_50" "Innovator";
    mkAchievement "speed_demon" "Speed Demon";
    mkAchievement "perfectionist" "Perfectionist";
    mkAchievement "night_owl" "Night Owl";
    mkAchievement "early_bird" "Early Bird";
    mkAchievement "week_warrior" "Week Warrior" ]%string.

End Assessor.

(** ** Helpers shared by the analytics code *)

(** [Array.prototype.sort] is stable: [precedes a b] says that the comparator
    puts [a] strictly before [b]. *)
Fixpoint insert_before {A} (precedes : A -> A -> bool) (x : A) (l : list A)
    : list A :=
  match l with
  | [] => [x]
  | y :: l' =>
      if precedes y x then y :: insert_before precedes x l' else x :: y :: l'
  end.

Definition stable_sort {A} (precedes : A -> A -> bool) (l : list A) : list A :=
  foldr (insert_before precedes) [] l.

(** A JavaScript object with integer keys: [Object.entries] lists it by
    ascending key. [bump k f o] is [o[k] = f(o[k])]. *)
Fixpoint bump {V} (k : Z) (f : option V -> V) (o : list (Z * V))
    : list (Z * V) :=
  match o with
  | [] => [(k, f None)]
  | (k', v) :: o' =>
      if (k =? k')%Z then (k, f (Some v)) :: o'
      else if (k <? k')%Z then (k, f None) :: (k', v) :: o'
      else (k', v) :: bump k f o'
  end.

Definition member {V} (k : Z) (o : list (Z * V)) : option V :=
  snd <$> List.find (fun kv => (fst kv =? k)%Z) o.

Definition day_ms : Z := 86400000.
Definition hour_ms : Z := 3600000.

(** EXTRACT(HOUR FROM ts) and EXTRACT(DOW FROM ts); day 0 of the epoch was a
    Thursday. *)
Definition hour_of (ms : Z) : Z := ((ms / hour_ms) mod 24)%Z.
Definition dow_of (ms : Z) : Z := ((ms / day_ms + 4) mod 7)%Z.

Definition Qmin (a b : Q) : Q := if Qle_bool a b then a else b.

Definition sum_nat_Q (l : list nat) : Q := inject_Z (Z.of_nat (foldr plus 0%nat l)).

(** ** The pattern analyzer workflow *)

Module MLAnalyzer.

(** A row of the gather-historical-data query: the task, its score when
    there is one, and the two extracted columns. *)
Record Historical := mkHistorical {
  h_task : Task.t;
  h_score : option TaskScore.t;
  completion_hour : Z;
  completion_day : Z
}.

Definition completed_ms (r : Task.t) : Z := default 0%Z (Task.completed_at r).

(** WHERE user_id = userId AND status = 'done'
      AND completed_at > NOW() - INTERVAL '<days> days' *)
Definition recently_done (userId : uuid) (days : Z) (now : Z) (r : Task.t)
    : bool :=
  N.eqb (Task.user_id r) userId
  && Status_eqb (Task.status r) done
  && match Task.completed_at r with
     | Some c => (now - days * day_ms <? c)%Z
     | None => false
     end.

(** Step 1: the last 50 tasks completed within 90 days, newest first. The
    session rows that the step also reads are used by no later step. *)
Definition gather_historical_data (userId : uuid) (w : World)
    : list Historical :=
  map (fun r =>
         mkHistorical r
           (List.find (fun s => N.eqb (TaskScore.task_id s) (Task.id r))
                      (task_scores w))
           (hour_of (completed_ms r)) (dow_of (completed_ms r)))
      (take 50
         (stable_sort (fun a b => (completed_ms b <? completed_ms a)%Z)
            (List.filter (recently_done userId 90 (clock w)) (tasks w)))).

Definition score_field (f : TaskScore.t -> Z) (d : Z) (h : Historical) : Q :=
  inject_Z (JS.or_int (f <$> h_score h) d).

Record CompletionPatterns := mkCompletionPatterns {
  optimalHours : list Pattern.OptimalHour;
  dayStats : list (Z * Pattern.DayStats);
  hourlyStats : list (Z * Pattern.HourStats);
  sampleSize : nat
}.

Definition add_hour (h : Historical) (o : option Pattern.HourStats)
    : Pattern.HourStats :=
  let s := default (Pattern.mkHourStats 0 0 0) o in
  Pattern.mkHourStats (S (Pattern.h_count s))
    (Pattern.avgQuality s + score_field TaskScore.quality 3 h)
    (Pattern.avgSpeed s + score_field TaskScore.speed 3 h).

Definition hour_average (s : Pattern.HourStats) : Pattern.HourStats :=
  let n := inject_Z (Z.of_nat (Pattern.h_count s)) in
  Pattern.mkHourStats (Pattern.h_count s) (Pattern.avgQuality s / n)
                      (Pattern.avgSpeed s / n).

Definition hour_score (s : Pattern.HourStats) : Q :=
  (Pattern.avgQuality s + Pattern.avgSpeed s) / 2.

Definition add_day (h : Historical) (o : option Pattern.DayStats)
    : Pattern.DayStats :=
  let s := default (Pattern.mkDayStats 0 0) o in
  Pattern.mkDayStats (S (Pattern.d_count s))
    (Pattern.avgProductivity s + score_field TaskScore.overall_score 50 h).

Definition day_average (s : Pattern.DayStats) : Pattern.DayStats :=
  Pattern.mkDayStats (Pattern.d_count s)
    (Pattern.avgProductivity s / inject_Z (Z.of_nat (Pattern.d_count s))).

(** Step 2 *)
Definition analyze_completion_patterns (recentTasks : list Historical)
    : option CompletionPatterns :=
  if (length recentTasks <? 5)%nat then None
  else
    (* Time-of-day analysis *)
    let hourlyStats :=
      fold_left (fun o h => bump (completion_hour h) (add_hour h) o)
                recentTasks [] in
    let hourlyStats := map (fun kv => (fst kv, hour_average (snd kv))) hourlyStats in
    (* Optimal hours: high quality and speed, sufficient sample size *)
    let optimalHours :=
      map (fun kv => Pattern.mkOptimalHour (fst kv) (snd kv))
        (take 3
           (stable_sort
              (fun a b => JS.Qltb (hour_score (snd b)) (hour_score (snd a)))
              (List.filter (fun kv => (2 <=? Pattern.h_count (snd kv))%nat)
                           hourlyStats))) in
    (* Day-of-week analysis *)
    let dayStats :=
      fold_left (fun o h => bump (completion_day h) (add_day h) o)
                recentTasks [] in
    let dayStats := map (fun kv => (fst kv, day_average (snd kv))) dayStats in
    Some (mkCompletionPatterns optimalHours dayStats hourlyStats
                               (length recentTasks)).

(** The two hour columns are DECIMAL: read back they are strings, truthy
    whenever the column is not NULL, and the division takes their values. *)
Definition add_difficulty (h : Historical) (o : option Pattern.DifficultyGroup)
    : Pattern.DifficultyGroup :=
  let g := default (Pattern.mkDifficultyGroup 0 0 (JS.Fin 0) 0 0) o in
  let t := h_task h in
  Pattern.mkDifficultyGroup (S (Pattern.g_count g))
    (Pattern.avgCompletionRate g)
    (match Task.estimated_hours t, Task.actual_hours t with
     | Some estimated, Some actual =>
         JS.add (Pattern.avgTimeAccuracy g)
                (JS.min (JS.div estimated actual) 2)      (* cap at 2x *)
     | _, _ => Pattern.avgTimeAccuracy g
     end)
    (Pattern.avgSatisfaction g
     + inject_Z (JS.or_int (h_score h ≫= TaskScore.user_satisfaction) 3))
    (Pattern.confidence g).

Definition difficulty_average (g : Pattern.DifficultyGroup)
    : Pattern.DifficultyGroup :=
  let n := inject_Z (Z.of_nat (Pattern.g_count g)) in
  Pattern.mkDifficultyGroup (Pattern.g_count g) (Pattern.avgCompletionRate g)
    (JS.over (Pattern.avgTimeAccuracy g) n) (Pattern.avgSatisfaction g / n)
    (Qmin (n / 5) 1).

(** Step 3; the returned object is always truthy. *)
Definition analyze_complexity_patterns (recentTasks : list Historical)
    : list (Z * Pattern.DifficultyGroup) :=
  map (fun kv => (fst kv, difficulty_average (snd kv)))
    (fold_left
       (fun o h =>
          bump (JS.or_int (TaskScore.difficulty <$> h_score h) 3)
               (add_difficulty h) o)
       recentTasks []).

(** Step 4 *)
Definition generate_predictions (completionPatterns : option CompletionPatterns)
    (now : Z) : option Pattern.Predictions :=
  match completionPatterns with
  | None => None
  | Some cp =>
      let currentHour := hour_of now in
      let currentDay := dow_of now in
      let nextOptimalSlots :=
        stable_sort
          (fun a b => (Pattern.hoursFromNow a <? Pattern.hoursFromNow b)%Z)
          (map (fun s =>
                  Pattern.mkSlot s
                    (Z.rem (Pattern.hour s - currentHour + 24) 24)
                    (hour_score (Pattern.oh_stats s)))
               (optimalHours cp)) in
      Some (Pattern.mkPredictions nextOptimalSlots
              (JS.or_num (Pattern.avgProductivity <$> member currentDay (dayStats cp))
                         50)
              (head nextOptimalSlots))
  end.

(** Step 5 *)
Definition update_patterns (userId : uuid)
    (completionPatterns : option CompletionPatterns)
    (complexityPatterns : list (Z * Pattern.DifficultyGroup))
    (predictions : option Pattern.Predictions) : M unit :=
  now ← gets clock;
  match completionPatterns with
  | Some cp =>
      TaskManager.storePattern userId "optimal_scheduling"
        (Pattern.Scheduling (optimalHours cp) (dayStats cp) now predictions)
        (Qmin (inject_Z (Z.of_nat (sampleSize cp)) / 20) 1)
  | None => mret tt
  end;;
  TaskManager.storePattern userId "complexity_handling"
    (Pattern.Complexity complexityPatterns now) (8 # 10).

(** Step 7 *)
Definition store_insights (userId : uuid)
    (completionPatterns : option CompletionPatterns)
    (insights : list Pattern.Insight) : M unit :=
  now ← gets clock;
  match insights with
  | [] => mret tt
  | _ :: _ =>
      TaskManager.storePattern userId "ai_insights"
        (Pattern.Insights insights now
           (default 0%nat (sampleSize <$> completionPatterns)))
        (7 # 10);;
      (* Emit insights ready event *)
      Redis.xadd Redis.events_ml_key
        (Redis.Misplaced (INSIGHTS_GENERATED userId (length insights) now))
        None
  end.

(** Step 8: SETEX user:<id>:recommendations 3600 ... *)
Definition cache_recommendations (userId : uuid)
    (completionPatterns : option CompletionPatterns)
    (complexityPatterns : list (Z * Pattern.DifficultyGroup))
    (predictions : option Pattern.Predictions)
    (insights : list Pattern.Insight) : M unit :=
  now ← gets clock;
  modify (set_recommendations
            <[userId :=
                (3600%Z,
                 mkRecommendations
                   (default [] (Pattern.nextOptimalSlots <$> predictions))
                   insights
                   ((fun cp => (optimalHours cp, dayStats cp, hourlyStats cp,
                                sampleSize cp)) <$> completionPatterns)
                   complexityPatterns now)]>).

Record Result := mkResult {
  patternsAnalyzed : list string;
  insightsGenerated : nat;
  predictions : option (option Z * Q)
}.

(** The workflow; [advise] is the parsed list of insights obtained for the
    computed patterns. The value of step 2 is returned next to the response
    so that it can be observed. *)
Definition POST (userId : uuid)
    (advise : CompletionPatterns -> list (Z * Pattern.DifficultyGroup)
              -> list Pattern.Insight)
    : M (option CompletionPatterns * Result) :=
  recentTasks ← gets (gather_historical_data userId);
  let completionPatterns := analyze_completion_patterns recentTasks in
  let complexityPatterns := analyze_complexity_patterns recentTasks in
  now ← gets clock;
  let predictions := generate_predictions completionPatterns now in
  update_patterns userId completionPatterns complexityPatterns predictions;;
  let insights :=
    match completionPatterns with
    | Some cp => advise cp complexityPatterns
    | None => []
    end in
  store_insights userId completionPatterns insights;;
  cache_recommendations userId completionPatterns complexityPatterns
                        predictions insights;;
  mret (completionPatterns,
        mkResult
          (match completionPatterns with
           | Some _ => ["completion_timing"%string]
           | None => []
           end
           ++ ["complexity_handling"%string])
          (length insights)
          ((fun p => (Pattern.hour <$> (Pattern.slot <$> Pattern.recommendation p),
                      Pattern.currentProductivity p)) <$> predictions)).

End MLAnalyzer.

(** ** Calendar analytics *)

Inductive Trend := up | down | stable.

(** The GET route of the calendar analytics API: velocity trend. *)
Module CalendarAnalytics.

(** A row of the trend query: a calendar day (days since the epoch) and the
    number of tasks completed on it. *)
Record TrendRow := mkTrendRow {
  date : Z;
  daily_count : nat
}.

Definition completed_since (userId : uuid) (since : Z) (r : Task.t) : bool :=
  N.eqb (Task.user_id r) userId
  && Status_eqb (Task.status r) done
  && match Task.completed_at r with
     | Some c => (since <=? c)%Z
     | None => false
     end.

(** SELECT DATE(completed_at) as date, COUNT( * ) as daily_count FROM tasks
    WHERE user_id = userId AND status = 'done' AND completed_at >= since
    GROUP BY DATE(completed_at) ORDER BY date *)
Definition trend_tasks (userId : uuid) (since : Z) (w : World)
    : list TrendRow :=
  map (fun kv => mkTrendRow (fst kv) (snd kv))
    (fold_left
       (fun o r =>
          bump (MLAnalyzer.completed_ms r / day_ms)%Z
               (fun c => S (default 0%nat c)) o)
       (List.filter (completed_since userId since) (tasks w)) []).

(** The number of decimal digits of a count. *)
Fixpoint digits_from (fuel : nat) (n : Z) : Z :=
  match fuel with
  | O => 1
  | S fuel' => if (n <? 10)%Z then 1 else (1 + digits_from fuel' (n / 10))%Z
  end.

Definition digits (n : nat) : Z := digits_from n (Z.of_nat n).

(** [sum + t.daily_count]: COUNT( * ) is read back as a string of digits,
    so [+] appends it to the digits of [sum]. Started from the number 0 the
    result reads "0", then the counts one after the other. *)
Definition appended (sum : Z) (daily_count : nat) : Z :=
  (sum * 10 ^ digits daily_count + Z.of_nat daily_count)%Z.

(** [rows.length > 0 ? rows.reduce((sum, t) => sum + t.daily_count, 0) /
    rows.length : 0]: the division reads the string of digits as a
    number. *)
Definition average (rows : list TrendRow) : Q :=
  match rows with
  | [] => 0
  | _ :: _ =>
      inject_Z (fold_left appended (map daily_count rows) 0%Z)
      / inject_Z (Z.of_nat (length rows))
  end.

(** [new Date(t.date)]: midnight of the day, in milliseconds. *)
Definition date_ms (t : TrendRow) : Z := (date t * day_ms)%Z.

Definition recentTasks (fourWeeksAgo : Z) (trendTasks : list TrendRow)
    : list TrendRow :=
  List.filter (fun t => (fourWeeksAgo <=? date_ms t)%Z) trendTasks.

Definition olderTasks (fourWeeksAgo : Z) (trendTasks : list TrendRow)
    : list TrendRow :=
  List.filter (fun t => (date_ms t <? fourWeeksAgo)%Z) trendTasks.

(** The comparison of the two averages. *)
Definition trend_of (recentAvg olderAvg : Q) : Trend :=
  if JS.Qltb (olderAvg * (115 # 100)) recentAvg then up
  else if JS.Qltb recentAvg (olderAvg * (85 # 100)) then down
  else stable.

Definition velocityTrend (userId : uuid) (w : World) : Trend :=
  let eightWeeksAgo := (clock w - 56 * day_ms)%Z in
  let trendTasks := trend_tasks userId eightWeeksAgo w in
  let fourWeeksAgo := (clock w - 28 * day_ms)%Z in
  trend_of (average (recentTasks fourWeeksAgo trendTasks))
           (average (olderTasks fourWeeksAgo trendTasks)).

(** An entry of the route's ranked [optimalHours]. *)
Record OptimalHour := mkOptimalHour {
  hour : Z;
  performance : Q;
  sampleSize : nat
}.

Record NextSlot := mkNextSlot {
  day : string;
  next_hour : Z;
  confidence : Q
}.

(** [optimalHours.find(slot => slot.hour > currentHour) || optimalHours[0]],
    with the fixed slot when the list is empty. *)
Definition chosen_slot (optimalHours : list OptimalHour) (currentHour : Z)
    : OptimalHour :=
  match optimalHours with
  | [] => mkOptimalHour 9 50 1
  | first :: _ =>
      default first (List.find (fun s => (currentHour <? hour s)%Z) optimalHours)
  end.

(** The [nextOptimalSlot] member of the response. *)
Definition nextOptimalSlot (optimalHours : list OptimalHour) (currentHour : Z)
    : NextSlot :=
  let slot := chosen_slot optimalHours currentHour in
  mkNextSlot (if (currentHour <? hour slot)%Z then "today" else "tomorrow")
             (hour slot)
             (Qmin (inject_Z (Z.of_nat (sampleSize slot)) / 5) 1).

End CalendarAnalytics.

(** The calendar component: [calculateAnalytics] derives a trend of its own
    from the days it displays. *)
Module AnalyticsCalendar.

Record CalendarDay := mkCalendarDay {
  date : Z;
  tasks : list Task.t
}.

(** [metrics.completed] *)
Definition completed (d : CalendarDay) : nat :=
  length (List.filter (fun t => Status_eqb (Task.status t) done) (tasks d)).

(** [days.slice(-14)] *)
Definition recentDays (days : list CalendarDay) : list CalendarDay :=
  drop (length days - 14) days.

Definition week_average (week : list CalendarDay) : Q :=
  sum_nat_Q (map completed week) / 7.

Definition trend (days : list CalendarDay) : Trend :=
  let firstWeek := take 7 (recentDays days) in
  let secondWeek := take 7 (drop 7 (recentDays days)) in
  let firstWeekAvg := week_average firstWeek in
  let secondWeekAvg := week_average secondWeek in
  if JS.Qltb (firstWeekAvg * (11 # 10)) secondWeekAvg then up
  else if JS.Qltb secondWeekAvg (firstWeekAvg * (9 # 10)) then down
  else stable.

(** A task as the component receives it from the route: the row and the
    joined [xp_earned] and [overall_score]. *)
Record DayTask := mkDayTask {
  row : Task.t;
  xp_earned : option Z;
  overall_score : option Z
}.

Record Metrics := mkMetrics {
  planned : nat;
  m_completed : nat;
  completionRate : Q;
  totalXP : Z;
  avgScore : Q
}.

Definition is_done (t : DayTask) : bool := Status_eqb (Task.status (row t)) done.

(** The metrics that [loadCalendarData] derives for one date. *)
Definition metrics (dayTasks : list DayTask) : Metrics :=
  let completed := List.filter is_done dayTasks in
  let totalXP :=
    fold_left (fun sum t => (sum + JS.or_int (xp_earned t) 0)%Z) completed 0%Z in
  let avgScore :=
    if (0 <? length completed)%nat then
      (inject_Z (fold_left (fun sum t => (sum + JS.or_int (overall_score t) 0)%Z)
                           completed 0%Z)
       / inject_Z (Z.of_nat (length completed)))%Q
    else 0%Q in
  mkMetrics (length dayTasks) (length completed)
    (if (0 <? length dayTasks)%nat then
       (inject_Z (Z.of_nat (length completed))
        / inject_Z (Z.of_nat (length dayTasks)) * 100)%Q
     else 0%Q)
    totalXP avgScore.

Inductive DayColor := emerald | amber | rose | zinc.

Definition getDayColor (m : Metrics) : DayColor :=
  if Qle_bool 80 (completionRate m) && (5 <=? totalXP m)%Z then emerald
  else if Qle_bool 60 (completionRate m) || (3 <=? totalXP m)%Z then amber
  else if (0 <? planned m)%nat then rose
  else zinc.

End AnalyticsCalendar.

(** ** The workflow orchestrator *)

Module WorkflowOrchestrator.

Inductive Endpoint := planner | assessor | ml_analyzer.

(** A trigger request: the workflow it addresses and the members of its JSON
    body; a member that is [undefined] is [None]. *)
Record Request := mkRequest {
  url : Endpoint;
  body : list (string * option string)
}.

(** The parsed event: [eventData[fields[i]] = fields[i + 1]] for even [i].
    A trailing key without a value reads as [undefined], like a key that is
    absent, and is left out. *)
Fixpoint parse_into (eventData : gmap string string) (fields : list string)
    : gmap string string :=
  match fields with
  | k :: v :: rest => parse_into (<[k := v]> eventData) rest
  | _ => eventData
  end.

Definition parse (fields : list string) : gmap string string :=
  parse_into ∅ fields.

(** The four trigger methods, as the request each one sends. *)
Definition triggerPlanner (eventData : gmap string string) : Request :=
  mkRequest planner
    [ ("taskId", eventData !! "taskId"); ("userId", eventData !! "userId") ]%string.

Definition triggerAssessor (eventData : gmap string string) : Request :=
  mkRequest assessor
    [ ("taskId", eventData !! "taskId"); ("userId", eventData !! "userId");
      ("completedAt", eventData !! "completedAt") ]%string.

Definition triggerMLAnalysis (eventData : gmap string string) : Request :=
  mkRequest ml_analyzer
    [ ("userId", eventData !! "userId"); ("type", Some "task_completion");
      ("taskId", eventData !! "taskId") ]%string.

Definition triggerDailyAnalysis (eventData : gmap string string) : Request :=
  mkRequest ml_analyzer
    [ ("userId", eventData !! "userId"); ("type", Some "daily_analysis") ]%string.

(** [setupEventHandlers]: the registry, in registration order. *)
Definition handlers : list (string * (gmap string string -> Request)) :=
  [ ("TASK_CREATED", triggerPlanner);
    ("TASK_COMPLETED", triggerAssessor);
    ("TASK_SCORED", triggerMLAnalysis);
    ("DAILY_ANALYSIS", triggerDailyAnalysis) ]%string.

(** [this.handlers.find(h => h.eventType === eventData.type)] *)
Definition find_handler (eventData : gmap string string)
    : option (gmap string string -> Request) :=
  match eventData !! "type"%string with
  | Some type =>
      snd <$> List.find (fun h => String.eqb (fst h) type) handlers
  | None => None
  end.

(** One call of the workflow client inside try/catch: [accepted] tells
    whether the client accepts the request; a refusal is logged and
    swallowed. [sent] is the list of requests accepted so far. *)
Definition send (accepted : Request -> bool) (request : Request)
    (sent : list Request) : list Request :=
  if accepted request then sent ++ [request] else sent.

(** The loop over one batch read from [events:task]: the cursor moves to
    every event id in turn. *)
Definition process_task_events (accepted : Request -> bool)
    (events : list (string * list string)) (lastEventId : string)
    (sent : list Request) : string * list Request :=
  fold_left
    (fun state event =>
       let eventData := parse (snd event) in
       (fst event,
        match find_handler eventData with
        | Some handler => send accepted (handler eventData) (snd state)
        | None => snd state
        end))
    events (lastEventId, sent).

(** The loop over one batch read from [events:ml]. *)
Definition process_ml_events (accepted : Request -> bool)
    (events : list (string * list string)) (sent : list Request)
    : list Request :=
  fold_left
    (fun sent event =>
       let eventData := parse (snd event) in
       match eventData !! "type"%string with
       | Some "TASK_SCORED"%string =>
           send accepted (triggerMLAnalysis eventData) sent
       | _ => sent
       end)
    events sent.

(** [scheduleDailyAnalysis]: one daily-analysis trigger per active user. *)
Definition scheduleDailyAnalysis (accepted : Request -> bool)
    (activeUsers : list string) (sent : list Request) : list Request :=
  fold_left
    (fun sent userId =>
       send accepted (triggerDailyAnalysis {[ "userId"%string := userId ]}) sent)
    activeUsers sent.

End WorkflowOrchestrator.

(** ** The read operations of the task store *)

Module TaskManagerQueries.

(** The filter argument of [getUserTasks]. A [parent_id] of [Some None] is
    the empty string, which asks for the tasks without a parent. *)
Module Filters.
Record t := mk {
  status : option Status;
  parent_id : option (option uuid);
  due_before : option Z;
  tags : option (list string)
}.
End Filters.

(** [tags && filters.tags]: the two arrays have an element in common. *)
Definition overlap (a b : list string) : bool :=
  existsb (fun x => existsb (String.eqb x) b) a.

(** The WHERE clause that [getUserTasks] builds. *)
Definition selected (userId : uuid) (filters : Filters.t) (r : Task.t) : bool :=
  N.eqb (Task.user_id r) userId
  && match Filters.status filters with
     | Some s => Status_eqb (Task.status r) s
     | None => true
     end
  && match Filters.parent_id filters, Task.parent_id r with
     | None, _ => true
     | Some (Some p), Some q => N.eqb q p
     | Some (Some _), None => false
     | Some None, None => true             (* parent_id IS NULL *)
     | Some None, Some _ => false
     end
  && match Filters.due_before filters, Task.due_at r with
     | None, _ => true
     | Some d, Some due => (due <=? d)%Z
     | Some _, None => false
     end
  && match Filters.tags filters with
     | Some ((_ :: _) as wanted) => overlap (Task.tags r) wanted
     | _ => true                            (* [filters.tags?.length] is falsy *)
     end.

(** Rows come back ORDER BY created_at DESC; rows of equal creation time are
    left in table order. *)
Definition getUserTasks (userId : uuid) (filters : Filters.t) (w : World)
    : list Task.t :=
  stable_sort (fun a b => (Task.created_at b <? Task.created_at a)%Z)
    (List.filter (selected userId filters) (tasks w)).




End TaskManagerQueries.

(** ** Reference notions used to state the properties *)

(** The weighted average of [values] under [weights]. *)
Definition weighted_average (weights values : list Q) : Q :=
  (foldr Qplus 0 (zip_with Qmult weights values) / foldr Qplus 0 weights)%Q.

(** [z] is the integer nearest to [x], a half going up. *)
Definition nearest_integer (z : Z) (x : Q) : Prop :=
  (inject_Z z - (1 # 2) <= x /\ x < inject_Z z + (1 # 2))%Q.

(** A dimension score on the 1 to 5 scale. *)
Definition on_scale (q : Q) : Prop := (1 <= q /\ q <= 5)%Q.

(** An additive bonus: [n] when the condition holds, nothing otherwise. *)
Definition bonus (condition : bool) (n : Z) : Z := if condition then n else 0%Z.

(** The speed ratio in the words of the specification: estimated hours
    divided by actual hours, a missing estimate counting as one hour. *)
Definition stated_speed_ratio (task : Task.t) : JS.number :=
  JS.div (default 1%Q (Task.estimated_hours task))
         (Assessor.actualHours (Assessor.time_metrics task)).

(** The conditions under which an achievement is earned, slug by slug. *)
Definition achievement_rule (slug : string) (a : Assessor.Assessment)
    (tm : Assessor.TimeMetrics) (totalXp tasksCompleted : Z) : Prop :=
  (slug = "first_blood"%string /\ tasksCompleted = 1%Z)
  \/ (slug = "innovator_50"%string
      /\ (4 <= Assessor.innovation a)%Q /\ (50 <= totalXp)%Z)
  \/ (slug = "speed_demon"%string
      /\ (4 <= Assessor.speed a)%Q /\ Assessor.wasOnTime tm = true)
  \/ (slug = "perfectionist"%string /\ (5 <= Assessor.quality a)%Q).

(** The mean of the daily counts. *)
Definition mean_daily_count (rows : list CalendarAnalytics.TrendRow) : Q :=
  match rows with
  | [] => 0
  | _ :: _ =>
      sum_nat_Q (map CalendarAnalytics.daily_count rows)
      / inject_Z (Z.of_nat (length rows))
  end.

(** The number of done tasks of the user, completed at or after [since],
    whose completion falls on calendar day [day]. *)
Definition completions_on (userId : uuid) (since day : Z) (w : World) : nat :=
  length
    (List.filter
       (fun r => CalendarAnalytics.completed_since userId since r
                 && (MLAnalyzer.completed_ms r / day_ms =? day)%Z)
       (tasks w)).

(** The grouped counts when completions fall on two days at most: an entry
    for each day that has any. *)
Definition two_days (olderDay recentDay : Z) (older recent : nat)
    : list (Z * nat) :=
  match older with O => [] | S _ => [(olderDay, older)] end
  ++ match recent with O => [] | S _ => [(recentDay, recent)] end.

(** The trend in the words of the specification: up when the recent mean is
    at least 1.15 times the older mean, down when it is at most 0.85 times
    the older mean, stable otherwise. *)
Definition stated_trend (recentAvg olderAvg : Q) : Trend :=
  if Qle_bool (olderAvg * (115 # 100)) recentAvg then up
  else if Qle_bool recentAvg (olderAvg * (85 # 100)) then down
  else stable.

(** The store after the three writes of [createTask] that precede the
    emission of TASK_CREATED. *)
Definition created_world (userId : uuid) (task : Task.t) (w : World) : World :=
  set_user_tasks (Redis.zadd userId (Task.created_at task) (Task.id task))
    (set_task_hash
       (Redis.hset (Task.id task) (list_to_map (TaskManager.task_fields task)))
       (set_next_uuid N.succ (set_tasks (fun rows => rows ++ [task]) w))).

(** The four ways in which the INSERT of [createTask] is rejected. *)
Definition insert_rejected (userId : uuid) (taskData : Partial.t) (w : World)
    : bool :=
  match Partial.title taskData,
        Sql.hours_column (JS.or_null_num (Partial.estimated_hours taskData))
  with
  | Some title, Some estimate =>
      negb (Task.checks (TaskManager.inserted_row (next_uuid w) userId title taskData
                                      estimate (clock w)))
      || negb (existsb (N.eqb userId) (users w))
  | _, _ => true
  end.

(** ** Sample data for the concrete instances *)

Module Sample.

Definition seq_Z (start : Z) (len : nat) : list Z :=
  map (fun k => (start + Z.of_nat k)%Z) (seq 0 len).

(** A fresh task row as the table would hold it. *)
Definition task (id userId : uuid) (parent : option uuid) : Task.t :=
  Task.mk id userId parent "Write the report" (Some "Draft and review"%string)
          todo 3%Z 0%Z None None None None None None [] [] 1000%Z 1000%Z.

(** A store of user 7 holding two root tasks (ids 1 and 2) and one child
    (id 3) of task 2. *)
Definition world : World :=
  mkWorld [7%N] [task 1 7 None; task 2 7 None; task 3 7 (Some 2%N)] [] [] true 4
          5000%Z ∅ ∅ ∅ ∅ ∅ [] [].

(** A judgment that recommends two subtasks, the second depending on the
    first. *)
Definition analysis : Planner.Analysis :=
  Planner.mkAnalysis true (Some "Two distinct phases"%string) (Some 4%Q)
    (Some 3%Q)
    (Some [ Planner.mkSubtask (Some "Outline"%string)
              (Some "Outline agreed"%string) (Some 1%Q) (Some []) (Some []);
            Planner.mkSubtask (Some "Draft"%string)
              (Some "Draft complete"%string) (Some (3 # 2)%Q) None
              (Some [0%Z]) ]).

(** An update that records two hours of work. *)
Definition two_hours : Partial.t :=
  Partial.mk None None None None None None None (Some 2%Q) None None None None
             None None.

(** An update that completes a task at time 4000. *)
Definition complete : Partial.t :=
  Partial.mk None None None (Some done) None None None None None None None
             (Some 4000%Z) None None.

(** Task 1 of [world] once completed: created at 1000, finished two hours
    later, never estimated. *)
Definition unestimated : Task.t :=
  Task.mk 1 7 None "Write the report" (Some "Draft and review"%string)
          done 3%Z 100%Z None None None None None (Some 7201000%Z) [] []
          1000%Z 7201000%Z.

Definition finished_world : World :=
  mkWorld [7%N] [unestimated; task 2 7 None; task 3 7 (Some 2%N)] [] [] true 4
          7300000%Z ∅ ∅ ∅ ∅ ∅ [] [].

(** [n] tasks of user 7, all completed at the same instant. *)
Definition done_tasks (n : nat) (first_id : uuid) (completed : Z)
    : list Task.t :=
  map (fun k =>
         Task.mk (first_id + N.of_nat k) 7 None "Routine" None done 3%Z 100%Z
                 None None None None None (Some completed) [] [] 0%Z completed)
      (seq 0 n).

(** Day 100 of the epoch at noon; 20 completions on day 60 (older half of
    the window) and 23 on day 90 (recent half). *)
Definition busy_world : World :=
  mkWorld [7%N] (done_tasks 20 1 (60 * day_ms + 1000)
           ++ done_tasks 23 21 (90 * day_ms + 1000))
          [] [] true 44 (100 * day_ms + 12 * hour_ms)%Z ∅ ∅ ∅ ∅ ∅ [] [].

(** Four completions on day 60 and five on day 90. *)
Definition rising_world : World :=
  mkWorld [7%N] (done_tasks 4 1 (60 * day_ms + 1000)
           ++ done_tasks 5 5 (90 * day_ms + 1000))
          [] [] true 10 (100 * day_ms + 12 * hour_ms)%Z ∅ ∅ ∅ ∅ ∅ [] [].

(** Two displayed weeks: seven completions in the first, eight in the
    second. *)
Definition two_weeks : list AnalyticsCalendar.CalendarDay :=
  map (fun d => AnalyticsCalendar.mkCalendarDay d (done_tasks 1 1 0)) (seq_Z 0 7)
  ++ AnalyticsCalendar.mkCalendarDay 7 (done_tasks 2 1 0)
  :: map (fun d => AnalyticsCalendar.mkCalendarDay d (done_tasks 1 1 0))
         (seq_Z 8 6).

(** Two assessments of the same task. *)
Definition first_scores : Scores.t :=
  Scores.mk 3 5 5 2 80%Z 13%Z None (Some "first pass"%string).


End Sample.

(** ** Further sample data *)

Module Fixture.

(** The argument of a plain [createTask]. *)
Definition new_task : Partial.t :=
  Partial.mk None (Some "Plan the trip"%string) None None None None None None
             None None None None (Some ["travel"%string]) None.

(** A priority outside the range that the table accepts. *)
Definition bad_priority : Partial.t :=
  Partial.mk None (Some "Plan the trip"%string) None None (Some 9%Z) None None
             None None None None None None None.

(** A filter for the open root tasks. *)
Definition open_roots : TaskManagerQueries.Filters.t :=
  TaskManagerQueries.Filters.mk (Some todo) (Some None) None None.


(** A root task that already carries context. *)
Definition briefed : Task.t :=
  Task.mk 1 7 None "Write the report" (Some "Draft and review"%string)
          todo 3%Z 0%Z (Some 5%Q) None None None None None []
          [("project"%string, JS.JStr "annual")] 1000%Z 1000%Z.

Definition briefed_world : World :=
  mkWorld [7%N] [briefed] [] [] true 2 5000%Z ∅ ∅ ∅ ∅ ∅ [] [].

(** A judgment that declines to split the task. *)
Definition simple_enough : Planner.Analysis :=
  Planner.mkAnalysis false (Some "One sitting is enough"%string) (Some 1%Q)
                     (Some 1%Q) (Some []).

(** A judgment whose second subtask has no title. *)
Definition untitled : Planner.Analysis :=
  Planner.mkAnalysis true (Some "Two distinct phases"%string) (Some 4%Q)
    (Some 3%Q)
    (Some [ Planner.mkSubtask (Some "Outline"%string) None (Some 1%Q) None None;
            Planner.mkSubtask None None (Some 1%Q) None None;
            Planner.mkSubtask (Some "Review"%string) None None None None ]).

(** A judgment that recommends subtasks but gives no complexity. *)
Definition no_complexity : Planner.Analysis :=
  Planner.mkAnalysis true None None (Some 3%Q)
    (Some [ Planner.mkSubtask (Some "Outline"%string) None (Some 1%Q) None None ]).

(** An assessment and what the assessor derives from it for a task that
    was on time. *)
Definition assessment : Assessor.Assessment :=
  Assessor.mkAssessment 3 5 5 2 None None.

Definition on_time : Assessor.TimeMetrics :=
  Assessor.mkTimeMetrics 1 1 (JS.Fin 1) true.

Definition final_scores : Assessor.FinalScores :=
  Assessor.calculate_final_scores assessment on_time [].

(** A task estimated at two hours that took two and a quarter. *)
Definition estimated : Task.t :=
  Task.mk 1 7 None "Write the report" None done 3%Z 100%Z (Some 2%Q) None
          None None (Some 1000%Z) (Some 8101000%Z) [] [] 500%Z 8101000%Z.

(** The same task finished after nine hours. *)
Definition overrun : Task.t :=
  Task.mk 1 7 None "Write the report" None done 3%Z 100%Z (Some 2%Q) None
          None None (Some 1000%Z) (Some 32401000%Z) [] [] 500%Z 32401000%Z.

(** A store where user 7 has been credited once. *)
Definition credited_world : World :=
  mkWorld [7%N] [Sample.task 1 7 None] [] [] true 2 5000%Z ∅ ∅
          {[ 7%N := mkUserStats (Some 40%Z) None None ]} ∅ ∅ [] [].

(** A database created from the schema file as it stands: [task_patterns]
    has a plain index on (user_id, pattern_type) and no unique constraint. *)
Definition as_deployed : World :=
  mkWorld [7%N] (tasks Sample.busy_world) (task_scores Sample.busy_world) [] false
          (next_uuid Sample.busy_world) (clock Sample.busy_world) ∅ ∅ ∅ ∅ ∅ [] [].

(** Advice of one insight, whatever the patterns. *)
Definition one_insight (cp : MLAnalyzer.CompletionPatterns)
    (groups : list (Z * Pattern.DifficultyGroup)) : list Pattern.Insight :=
  [Pattern.mkInsight "scheduling" "Mornings" "Schedule hard tasks early"
                     (8 # 10) "Block 9:00"].

End Fixture.

(** * Properties *)

(** Unfolds the monad operations of a store computation. *)
Ltac run :=
  unfold mbind, M_bind, mret, M_ret, gets, modify, throw in *; cbn beta iota.

(** ** Rounding *)

Lemma Math_round_nearest (x : Q) : nearest_integer (JS.Math_round x) x.
Proof.
  unfold nearest_integer, JS.Math_round.
  pose proof (Qfloor_le (x + (1 # 2))) as Hlo.
  pose proof (Qlt_floor (x + (1 # 2))) as Hhi.
  rewrite inject_Z_plus in Hhi.
  change (inject_Z 1) with 1%Q in Hhi.
  split; lra.
Qed.

Lemma Math_round_mono (x y : Q) :
  (x <= y)%Q -> (JS.Math_round x <= JS.Math_round y)%Z.
Proof.
  intros H. unfold JS.Math_round. apply Qfloor_resp_le. lra.
Qed.

Lemma Math_round_proper (x y : Q) :
  (x == y)%Q -> JS.Math_round x = JS.Math_round y.
Proof.
  intros H. unfold JS.Math_round. apply Qfloor_comp. rewrite H. reflexivity.
Qed.

(** ** The assessor's scores *)

Module AssessorFacts.
Import Assessor.

Lemma overall_unfold (a : Assessment) tm subs :
  overall (calculate_final_scores a tm subs)
  = JS.Math_round
      ((difficulty a * 3 + innovation a * 3 + quality a * 4 + speed a * 2)
       / totalWeight * 20)%Q.
Proof. reflexivity. Qed.

Lemma totalWeight_12 : (totalWeight == 12)%Q.
Proof. reflexivity. Qed.

Lemma scaled_average (a : Assessment) :
  ((difficulty a * 3 + innovation a * 3 + quality a * 4 + speed a * 2)
   / totalWeight * 20
   == weighted_average [3; 3; 4; 2]
        [difficulty a; innovation a; quality a; speed a] * (100 / 5))%Q.
Proof.
  unfold weighted_average. cbn [zip_with foldr]. rewrite totalWeight_12.
  field.
Qed.

(** With integral scores the exact value is a third of an integer. *)
Lemma scaled_thirds (a : Assessment) (d i q s : Z) :
  (difficulty a == inject_Z d)%Q -> (innovation a == inject_Z i)%Q ->
  (quality a == inject_Z q)%Q -> (speed a == inject_Z s)%Q ->
  ((difficulty a * 3 + innovation a * 3 + quality a * 4 + speed a * 2)
   / totalWeight * 20
   == inject_Z (5 * (3 * d + 3 * i + 4 * q + 2 * s)) / 3)%Q.
Proof.
  intros Hd Hi Hq Hs. rewrite Hd, Hi, Hq, Hs, totalWeight_12.
  rewrite !inject_Z_mult, !inject_Z_plus, !inject_Z_mult.
  change (inject_Z 5) with 5%Q. change (inject_Z 3) with 3%Q.
  change (inject_Z 4) with 4%Q. change (inject_Z 2) with 2%Q.
  field.
Qed.

(** C2: with the four dimensions integers on the 1 to 5 scale, as the score
    table holds them, the overall score is the weighted average under the
    weights 3, 3, 4, 2, scaled to 0..100 and rounded to the nearest integer.
    The exact value is at least 1/6 away from every half, so the rounding of
    the double that the code computes yields the same integer. The score
    lies in [0,100]; it depends on the four dimensions only; all fives give
    100 and all ones give 20. *)
Theorem overall_score_spec (a : Assessment) (tm : TimeMetrics)
    (subs : list Task.t) (d i q s : Z) :
  (difficulty a == inject_Z d)%Q -> (innovation a == inject_Z i)%Q ->
  (quality a == inject_Z q)%Q -> (speed a == inject_Z s)%Q ->
  (1 <= d <= 5)%Z -> (1 <= i <= 5)%Z -> (1 <= q <= 5)%Z -> (1 <= s <= 5)%Z ->
  let avg := weighted_average (map snd weights)
               [difficulty a; innovation a; quality a; speed a] in
  map snd weights = [3; 3; 4; 2]%Q
  /\ overall (calculate_final_scores a tm subs)
     = JS.Math_round (avg * (100 / 5))
  /\ nearest_integer (overall (calculate_final_scores a tm subs))
                     (avg * (100 / 5))
  /\ (forall k : Z,
        (1 # 6 <= avg * (100 / 5) - (inject_Z k + (1 # 2)))%Q
        \/ (1 # 6 <= inject_Z k + (1 # 2) - avg * (100 / 5))%Q)
  /\ (0 <= overall (calculate_final_scores a tm subs) <= 100)%Z
  /\ (forall a' tm' subs',
        (difficulty a' == difficulty a)%Q -> (innovation a' == innovation a)%Q ->
        (quality a' == quality a)%Q -> (speed a' == speed a)%Q ->
        overall (calculate_final_scores a' tm' subs')
        = overall (calculate_final_scores a tm subs))
  /\ (forall h i, overall (calculate_final_scores
                             (mkAssessment 5 5 5 5 h i) tm subs) = 100%Z)
  /\ (forall h i, overall (calculate_final_scores
                             (mkAssessment 1 1 1 1 h i) tm subs) = 20%Z).
Proof.
  intros Ed Ei Eq Es Hd Hi Hq Hs avg.
  assert (Heq : overall (calculate_final_scores a tm subs)
                = JS.Math_round (avg * (100 / 5))).
  { rewrite overall_unfold. apply Math_round_proper. apply scaled_average. }
  set (n := (5 * (3 * d + 3 * i + 4 * q + 2 * s))%Z).
  assert (Hthird : (avg * (100 / 5) == inject_Z n * (1 # 3))%Q).
  { subst avg. change (map snd weights) with [3; 3; 4; 2]%Q.
    rewrite <- scaled_average.
    rewrite (scaled_thirds a d i q s Ed Ei Eq Es). fold n. field. }
  assert (Hn : (60 <= n <= 300)%Z) by (subst n; lia).
  clearbody n.
  assert (Havg : (20 <= avg * (100 / 5) /\ avg * (100 / 5) <= 100)%Q).
  { rewrite Hthird. destruct Hn as [Hlo Hhi].
    rewrite Zle_Qle in Hlo, Hhi.
    change (inject_Z 60) with 60%Q in Hlo.
    change (inject_Z 300) with 300%Q in Hhi.
    split; lra. }
  split; [reflexivity|].
  split; [exact Heq|].
  split; [rewrite Heq; apply Math_round_nearest|].
  split.
  { intros k. rewrite Hthird.
    destruct (Z_le_gt_dec (6 * k + 4) (2 * n)) as [Hge | Hlt].
    - left. rewrite Zle_Qle in Hge.
      rewrite inject_Z_plus, !inject_Z_mult in Hge.
      change (inject_Z 2) with 2%Q in Hge.
      change (inject_Z 6) with 6%Q in Hge.
      change (inject_Z 4) with 4%Q in Hge. lra.
    - right. assert (Hle : (2 * n <= 6 * k + 2)%Z) by lia.
      rewrite Zle_Qle in Hle.
      rewrite inject_Z_plus, !inject_Z_mult in Hle.
      change (inject_Z 2) with 2%Q in Hle.
      change (inject_Z 6) with 6%Q in Hle. lra. }
  split.
  { rewrite Heq. destruct Havg as [Hlo Hhi]. split.
    - apply Z.le_trans with (JS.Math_round 20); [discriminate|].
      now apply Math_round_mono.
    - apply Z.le_trans with (JS.Math_round 100); [|discriminate].
      now apply Math_round_mono. }
  split.
  { intros a' tm' subs' Ed' Ei' Eq' Es'. rewrite !overall_unfold.
    apply Math_round_proper. rewrite Ed', Ei', Eq', Es'. reflexivity. }
  split; intros; reflexivity.
Qed.

Lemma overall_score_spec_witness :
  let a := mkAssessment 3 5 5 2 None None in
  let tm := mkTimeMetrics 1 1 (JS.Fin 1) true in
  ((difficulty a == inject_Z 3)%Q /\ (1 <= 3 <= 5)%Z)
  /\ overall (calculate_final_scores a tm []) = 80%Z
  /\ (0 <= overall (calculate_final_scores a tm []) <= 100)%Z.
Proof.
  intros a tm.
  assert (Ed : (difficulty a == inject_Z 3)%Q) by reflexivity.
  assert (Ei : (innovation a == inject_Z 5)%Q) by reflexivity.
  assert (Eq : (quality a == inject_Z 5)%Q) by reflexivity.
  assert (Es : (speed a == inject_Z 2)%Q) by reflexivity.
  assert (H3 : (1 <= 3 <= 5)%Z) by lia.
  assert (H5 : (1 <= 5 <= 5)%Z) by lia.
  assert (H2 : (1 <= 2 <= 5)%Z) by lia.
  split; [tauto|]. split; [reflexivity|].
  exact (proj1 (proj2 (proj2 (proj2 (proj2
           (overall_score_spec a tm [] 3 5 5 2 Ed Ei Eq Es H3 H5 H5 H2)))))).
Defined.

(** C3: the experience points are the rounded tenth of the overall score
    plus four bonuses that add up independently: 3 for innovation at 5 or
    more, 2 for quality at 5 or more, 1 for being on time, 1 for having
    subtasks. With overall 80 and all four conditions met this is 15. *)
Theorem xp_spec (a : Assessment) (tm : TimeMetrics) (subs : list Task.t) :
  let fs := calculate_final_scores a tm subs in
  xp fs = (JS.Math_round (inject_Z (overall fs) / 10)
           + bonus (Qle_bool 5 (innovation a)) 3
           + bonus (Qle_bool 5 (quality a)) 2
           + bonus (wasOnTime tm) 1
           + bonus (negb (Nat.eqb (length subs) 0)) 1)%Z
  /\ (overall fs = 80%Z -> (innovation a == 5)%Q -> (quality a == 5)%Q ->
      wasOnTime tm = true -> subs <> [] ->
      JS.Math_round (inject_Z (overall fs) / 10) = 8%Z
      /\ xp fs = (8 + 3 + 2 + 1 + 1)%Z /\ xp fs = 15%Z).
Proof.
  intros fs.
  assert (Hxp : xp fs = (JS.Math_round (inject_Z (overall fs) / 10)
           + bonus (Qle_bool 5 (innovation a)) 3
           + bonus (Qle_bool 5 (quality a)) 2
           + bonus (wasOnTime tm) 1
           + bonus (negb (Nat.eqb (length subs) 0)) 1)%Z).
  { subst fs. unfold calculate_final_scores. cbn [xp overall].
    destruct (Qle_bool 5 (innovation a)), (Qle_bool 5 (quality a)),
      (wasOnTime tm), subs; cbn [bonus length Nat.ltb Nat.leb Nat.eqb negb];
      lia. }
  split; [exact Hxp|].
  intros Ho Hi Hq Ht Hs. rewrite Hxp, Ho, Ht.
  assert (Qle_bool 5 (innovation a) = true) as ->.
  { apply Qle_bool_iff. rewrite Hi. apply Qle_refl. }
  assert (Qle_bool 5 (quality a) = true) as ->.
  { apply Qle_bool_iff. rewrite Hq. apply Qle_refl. }
  destruct subs as [|t subs']; [congruence|].
  repeat split; reflexivity.
Qed.

Lemma xp_spec_witness :
  let a := mkAssessment 3 5 5 2 None None in
  let tm := mkTimeMetrics 1 1 (JS.Fin 1) true in
  let sub := Sample.task 2%N 1%N (Some 1%N) in
  let fs := calculate_final_scores a tm [sub] in
  (overall fs = 80%Z /\ (innovation a == 5)%Q /\ (quality a == 5)%Q
   /\ wasOnTime tm = true /\ [sub] <> [])
  /\ xp fs = 15%Z.
Proof.
  intros a tm sub fs.
  assert (Ho : overall fs = 80%Z) by reflexivity.
  assert (Hi : (innovation a == 5)%Q) by reflexivity.
  assert (Hq : (quality a == 5)%Q) by reflexivity.
  assert (Ht : wasOnTime tm = true) by reflexivity.
  assert (Hs : [sub] <> []) by discriminate.
  split; [tauto|].
  exact (proj2 (proj2 (proj2 (xp_spec a tm [sub]) Ho Hi Hq Ht Hs))).
Defined.

End AssessorFacts.

(** ** The task store *)

Module TaskManagerFacts.
Import TaskManager.

Lemma find_replace (taskId : uuid) (r r' : Task.t) (rows : list Task.t) :
  List.find (fun x => N.eqb (Task.id x) taskId) rows = Some r ->
  Task.id r' = taskId ->
  List.find (fun x => N.eqb (Task.id x) taskId)
    (map (fun x => if N.eqb (Task.id x) taskId then r' else x) rows)
  = Some r'.
Proof.
  intros Hfind Hid. induction rows as [|x rows IH]; [discriminate|].
  cbn in *. destruct (N.eqb (Task.id x) taskId) eqn:E.
  - cbn. rewrite Hid, N.eqb_refl. reflexivity.
  - cbn. rewrite E. auto.
Qed.

Lemma find_id (taskId : uuid) (r : Task.t) (rows : list Task.t) :
  List.find (fun x => N.eqb (Task.id x) taskId) rows = Some r ->
  Task.id r = taskId.
Proof.
  intros H. apply find_some in H as [_ H]. now apply N.eqb_eq.
Qed.

(** The client call as the sources make it. *)
Lemma xadd_throws (key : Redis.Stream) (fields : Event) (w : World) :
  Redis.xadd key (Redis.Misplaced fields) None w
  = (inl (Throw "TypeError" "Cannot convert undefined or null to object"), w).
Proof. reflexivity. Qed.

(** A readable, non-empty update on a task id that matches no row: the
    cache is written, then the read of [task.user_id] throws. *)
Lemma updateTask_no_row (taskId : uuid) (updates stored : Partial.t)
    (w : World) :
  Partial.entries updates <> [] ->
  Sql.readable updates = true ->
  Sql.as_stored updates = Some stored ->
  Sql.select_task taskId w = None ->
  updateTask taskId updates w
  = (inl (Throw "TypeError"
            "Cannot read properties of undefined (reading 'user_id')"),
     set_task_hash
       (Redis.hset taskId
          (<["updated_at"%string := VTime (clock w)]>
             (list_to_map (Partial.entries updates)))) w).
Proof.
  intros Hne Hread Hst Hsel. unfold updateTask, Sql.update_task. run.
  destruct (Partial.entries updates) as [|e es] eqn:He; [congruence|].
  rewrite Hread, Hst, Hsel. reflexivity.
Qed.

(** A readable, non-empty update of an existing row that the table accepts:
    the row is written, the cache is written, then the emission of
    TASK_UPDATED throws. *)
Lemma updateTask_row (taskId : uuid) (updates stored : Partial.t) (w : World)
    (row : Task.t) :
  Partial.entries updates <> [] ->
  Sql.readable updates = true ->
  Sql.as_stored updates = Some stored ->
  Sql.select_task taskId w = Some row ->
  let row' := Sql.apply_set stored (clock w) row in
  Task.checks row' && Sql.parent_exists row' w = true ->
  updateTask taskId updates w
  = (inl (Throw "TypeError" "Cannot convert undefined or null to object"),
     set_task_hash
       (Redis.hset taskId
          (<["updated_at"%string := VTime (clock w)]>
             (list_to_map (Partial.entries updates))))
       (set_tasks
          (map (fun x => if N.eqb (Task.id x) taskId then row' else x)) w)).
Proof.
  intros Hne Hread Hst Hsel row' Hok.
  unfold updateTask, Sql.update_task. run.
  destruct (Partial.entries updates) as [|e es] eqn:He; [congruence|].
  rewrite Hread, Hst, Hsel. cbn [negb]. fold row'. rewrite Hok.
  reflexivity.
Qed.

Lemma replaced_task_ids (taskId : uuid) (row : Task.t) (rows : list Task.t) :
  Task.id row = taskId ->
  map Task.id (map (fun x => if N.eqb (Task.id x) taskId then row else x) rows)
  = map Task.id rows.
Proof.
  intros Hid. induction rows as [|r rows IH]; [reflexivity|]. cbn.
  rewrite IH. destruct (N.eqb (Task.id r) taskId) eqn:E;
    [apply N.eqb_eq in E; congruence | reflexivity].
Qed.

Lemma hset_updated_at (taskId : uuid) (now : Z) (fields : gmap string Value)
    (m : gmap uuid (gmap string Value)) :
  (Redis.hset taskId (<["updated_at"%string := VTime now]> fields) m !! taskId)
    ≫= (fun h => h !! "updated_at"%string)
  = Some (VTime now).
Proof.
  unfold Redis.hset. rewrite lookup_insert_eq. cbn.
  erewrite lookup_union_Some_l; [reflexivity | apply lookup_insert_eq].
Qed.

(** C4, as the code has it by design: for a non-empty update that the
    server can read and the table accepts, [updateTask] on an existing task
    writes the given members to the row and stamps [updated_at], in the row
    and in the cache mirror. When no row matches, the call fails with a
    TypeError, raised on reading the missing row, and leaves the table as it
    was; no ValidationError exists. *)
Theorem updateTask_spec (taskId : uuid) (updates stored : Partial.t)
    (w : World) :
  Partial.entries updates <> [] ->
  Sql.readable updates = true ->
  Sql.as_stored updates = Some stored ->
  match Sql.select_task taskId w with
  | Some row =>
      let row' := Sql.apply_set stored (clock w) row in
      Task.checks row' && Sql.parent_exists row' w = true ->
      exists result w',
        updateTask taskId updates w = (result, w')
        /\ Sql.select_task taskId w' = Some row'
        /\ Task.updated_at row' = clock w
        /\ (task_hash w' !! taskId) ≫= (fun h => h !! "updated_at"%string)
           = Some (VTime (clock w))
        /\ map Task.id (tasks w') = map Task.id (tasks w)
  | None =>
      exists e w',
        updateTask taskId updates w = (inl e, w')
        /\ error_name e = "TypeError"%string
        /\ error_name e <> "ValidationError"%string
        /\ tasks w' = tasks w
  end.
Proof.
  intros Hne Hread Hst.
  destruct (Sql.select_task taskId w) as [row|] eqn:Hsel.
  - intros row' Hok.
    rewrite (updateTask_row taskId updates stored w row Hne Hread Hst Hsel Hok).
    eexists _, _. split; [reflexivity|].
    assert (Hid : Task.id row' = taskId) by apply (find_id _ _ _ Hsel).
    split; [apply (find_replace _ row); assumption|].
    split; [reflexivity|].
    split; [apply hset_updated_at|].
    apply replaced_task_ids. exact Hid.
  - rewrite (updateTask_no_row taskId updates stored w Hne Hread Hst Hsel).
    eexists _, _. split; [reflexivity|].
    repeat split. discriminate.
Qed.

Lemma updateTask_spec_witness :
  let row' := Sql.apply_set Sample.two_hours 5000 (Sample.task 1 7 None) in
  (Partial.entries Sample.two_hours <> []
   /\ Sql.readable Sample.two_hours = true
   /\ Sql.as_stored Sample.two_hours = Some Sample.two_hours
   /\ Task.checks row' && Sql.parent_exists row' Sample.world = true)
  /\ exists result w',
       updateTask 1%N Sample.two_hours Sample.world = (result, w')
       /\ Sql.select_task 1%N w' = Some row'
       /\ Task.actual_hours row' = Some 2%Q.
Proof.
  intros row'.
  assert (H1 : Partial.entries Sample.two_hours <> []) by discriminate.
  assert (H2 : Sql.readable Sample.two_hours = true) by reflexivity.
  assert (H3 : Sql.as_stored Sample.two_hours = Some Sample.two_hours)
    by reflexivity.
  assert (H4 : Task.checks row' && Sql.parent_exists row' Sample.world = true)
    by reflexivity.
  split; [auto|].
  destruct (updateTask_spec 1%N Sample.two_hours Sample.two_hours Sample.world
              H1 H2 H3 H4) as (result & w' & E & Hsel & _).
  exists result, w'. split; [exact E|]. split; [exact Hsel | reflexivity].
Defined.

(** C4 as stated fails: on a task id that matches no row the error raised is
    a TypeError, not a ValidationError. *)
Lemma updateTask_no_row_not_ValidationError :
  Sql.select_task 99%N Sample.world = None
  /\ ~ (exists e w',
          updateTask 99%N Sample.two_hours Sample.world = (inl e, w')
          /\ error_name e = "ValidationError"%string).
Proof.
  split; [reflexivity|].
  intros (e & w' & E & Hname).
  rewrite (updateTask_no_row 99%N Sample.two_hours Sample.two_hours
             Sample.world) in E;
    [| discriminate | reflexivity | reflexivity | reflexivity].
  injection E as <- _. discriminate.
Qed.

(** *** Scoring *)

Lemma acceptable_row (taskId : uuid) (scores : Scores.t) (now : Z) :
  Sql.acceptable scores = true ->
  exists row,
    Sql.score_row taskId scores now = Some row
    /\ TaskScore.checks row = true
    /\ TaskScore.task_id row = taskId
    /\ TaskScore.scored_at row = now
    /\ (inject_Z (TaskScore.difficulty row) == Scores.difficulty scores)%Q
    /\ (inject_Z (TaskScore.innovation row) == Scores.innovation scores)%Q
    /\ (inject_Z (TaskScore.quality row) == Scores.quality scores)%Q
    /\ (inject_Z (TaskScore.speed row) == Scores.speed scores)%Q
    /\ TaskScore.overall_score row = Scores.overall_score scores
    /\ TaskScore.xp_earned row = Scores.xp_earned scores
    /\ TaskScore.user_satisfaction row
       = JS.or_null_int (Scores.user_satisfaction scores)
    /\ TaskScore.user_notes row
       = match Scores.user_notes scores with
         | Some EmptyString => None
         | notes => notes
         end.
Proof.
  unfold Sql.acceptable, Sql.score_row, Sql.as_integer. cbn.
  destruct (Qeq_bool (Scores.difficulty scores) _) eqn:Ed; [|discriminate].
  destruct (Qeq_bool (Scores.innovation scores) _) eqn:Ei; [|discriminate].
  destruct (Qeq_bool (Scores.quality scores) _) eqn:Eq; [|discriminate].
  destruct (Qeq_bool (Scores.speed scores) _) eqn:Es; [|discriminate].
  cbn. intros Hc. eexists. split; [reflexivity|].
  apply Qeq_bool_iff in Ed, Ei, Eq, Es.
  repeat split; try assumption; cbn; symmetry; assumption.
Qed.

Lemma scores_of_task_replace (taskId : uuid) (row : TaskScore.t)
    (rows : list TaskScore.t) :
  TaskScore.task_id row = taskId ->
  Sql.scores_of_task taskId
    (map (fun r => if N.eqb (TaskScore.task_id r) taskId then row else r) rows)
  = repeat row (length (Sql.scores_of_task taskId rows)).
Proof.
  intros Hid. unfold Sql.scores_of_task.
  induction rows as [|r rows IH]; [reflexivity|]. cbn.
  destruct (N.eqb (TaskScore.task_id r) taskId) eqn:E; cbn.
  - rewrite Hid, N.eqb_refl. cbn. now rewrite IH.
  - rewrite E. exact IH.
Qed.

Lemma has_score_length (taskId : uuid) (rows : list TaskScore.t) :
  Sql.has_score taskId rows = true <->
  (0 < length (Sql.scores_of_task taskId rows))%nat.
Proof.
  unfold Sql.has_score, Sql.scores_of_task.
  induction rows as [|r rows IH]; cbn; [split; [discriminate|lia]|].
  destruct (N.eqb (TaskScore.task_id r) taskId); cbn; [split; [lia|auto]|].
  exact IH.
Qed.

Lemma primary_key_at_most_one (taskId : uuid) (rows : list TaskScore.t) :
  NoDup (map TaskScore.task_id rows) ->
  (length (Sql.scores_of_task taskId rows) <= 1)%nat.
Proof.
  unfold Sql.scores_of_task.
  induction rows as [|r rows IH]; cbn; [lia|].
  intros Hnd. apply NoDup_cons in Hnd as [Hnotin Hnd].
  destruct (N.eqb (TaskScore.task_id r) taskId) eqn:E; cbn; [|auto].
  apply N.eqb_eq in E.
  destruct (List.filter _ rows) as [|r' l] eqn:F; [cbn; lia|].
  exfalso. apply Hnotin.
  assert (Hin : In r' (List.filter
                         (fun r => N.eqb (TaskScore.task_id r) taskId) rows))
    by (rewrite F; left; reflexivity).
  apply filter_In in Hin as [Hin Heq]. apply N.eqb_eq in Heq.
  apply list_elem_of_In. apply in_map_iff. exists r'. split; congruence.
Qed.

Lemma map_replace_ids (taskId : uuid) (row : TaskScore.t)
    (rows : list TaskScore.t) :
  TaskScore.task_id row = taskId ->
  map TaskScore.task_id
    (map (fun r => if N.eqb (TaskScore.task_id r) taskId then row else r) rows)
  = map TaskScore.task_id rows.
Proof.
  intros Hid. induction rows as [|r rows IH]; [reflexivity|]. cbn.
  rewrite IH. destruct (N.eqb (TaskScore.task_id r) taskId) eqn:E;
    [apply N.eqb_eq in E; congruence | reflexivity].
Qed.

(** One upsert leaves exactly one row for the task, whatever was there. *)
Lemma upsert_rows_one (taskId : uuid) (row : TaskScore.t)
    (rows : list TaskScore.t) :
  TaskScore.task_id row = taskId ->
  NoDup (map TaskScore.task_id rows) ->
  Sql.scores_of_task taskId (Sql.upsert_rows taskId row rows) = [row]
  /\ NoDup (map TaskScore.task_id (Sql.upsert_rows taskId row rows))
  /\ (Sql.has_score taskId rows = true ->
      length (Sql.upsert_rows taskId row rows) = length rows).
Proof.
  intros Hid Hnd. unfold Sql.upsert_rows.
  pose proof (primary_key_at_most_one taskId rows Hnd) as Hle.
  destruct (Sql.has_score taskId rows) eqn:Hs.
  - apply has_score_length in Hs.
    rewrite scores_of_task_replace by assumption.
    replace (length (Sql.scores_of_task taskId rows)) with 1%nat by lia.
    rewrite map_replace_ids by assumption.
    repeat split; [assumption|]. intros _. apply length_map.
  - assert (Hz : length (Sql.scores_of_task taskId rows) = 0%nat).
    { destruct (length (Sql.scores_of_task taskId rows)) eqn:L; [reflexivity|].
      assert (Sql.has_score taskId rows = true)
        by (apply has_score_length; lia). congruence. }
    apply length_zero_iff_nil in Hz.
    unfold Sql.scores_of_task in *. rewrite List.filter_app, Hz. cbn.
    rewrite Hid, N.eqb_refl. split; [reflexivity|]. split; [|discriminate].
    rewrite map_app. cbn. apply NoDup_app. split; [assumption|].
    split; [|apply NoDup_singleton].
    intros x Hx Hx'. apply list_elem_of_In in Hx'. destruct Hx' as [<-|[]].
    apply list_elem_of_In, in_map_iff in Hx as (r & Hr & Hin).
    assert (In r (List.filter
                    (fun r => N.eqb (TaskScore.task_id r) taskId) rows)).
    { apply filter_In. split; [assumption|]. apply N.eqb_eq. congruence. }
    rewrite Hz in H. contradiction.
Qed.

(** What one call of [scoreTask] with scores that the table accepts does on
    an existing task: the row is upserted, the XP is credited, then the
    emission of TASK_SCORED throws. *)
Lemma scoreTask_step (taskId : uuid) (scores : Scores.t) (w : World)
    (task : Task.t) :
  Sql.select_task taskId w = Some task ->
  Sql.acceptable scores = true ->
  exists row,
    Sql.score_row taskId scores (clock w) = Some row
    /\ scoreTask taskId scores w
       = (inl (Throw "TypeError" "Cannot convert undefined or null to object"),
          set_user_stats
            (Redis.hincrby_total_xp (Task.user_id task)
                                    (Scores.xp_earned scores))
            (set_task_scores (Sql.upsert_rows taskId row) w)).
Proof.
  intros Hsel Hacc.
  destruct (acceptable_row taskId scores (clock w) Hacc)
    as (row & Hrow & Hchk & _).
  exists row. split; [exact Hrow|].
  unfold scoreTask, Sql.upsert_score. run.
  rewrite Hrow, Hchk. cbn. rewrite Hsel. cbn.
  unfold Sql.select_task in *. cbn. rewrite Hsel. reflexivity.
Qed.

Lemma hincrby_total_xp_get (key : uuid) (n : Z) (m : gmap uuid UserStats) :
  Redis.get_total_xp key (Redis.hincrby_total_xp key n m)
  = (Redis.get_total_xp key m + n)%Z.
Proof.
  unfold Redis.get_total_xp, Redis.hincrby_total_xp.
  rewrite lookup_insert_eq. reflexivity.
Qed.

Lemma scoreTask_twice (taskId : uuid) (s1 s2 : Scores.t) (w : World)
    (now2 : Z) (task : Task.t) :
  Sql.select_task taskId w = Some task ->
  Sql.acceptable s1 = true -> Sql.acceptable s2 = true ->
  exists row1 row2 e1 e2 w1 w2,
    Sql.score_row taskId s1 (clock w) = Some row1
    /\ Sql.score_row taskId s2 now2 = Some row2
    /\ scoreTask taskId s1 w = (inl e1, w1)
    /\ scoreTask taskId s2 (set_clock now2 w1) = (inl e2, w2)
    /\ error_name e1 = "TypeError"%string
    /\ error_name e2 = "TypeError"%string
    /\ task_scores w1 = Sql.upsert_rows taskId row1 (task_scores w)
    /\ task_scores w2 = Sql.upsert_rows taskId row2 (task_scores w1)
    /\ user_stats w1
       = Redis.hincrby_total_xp (Task.user_id task) (Scores.xp_earned s1)
                                (user_stats w)
    /\ user_stats w2
       = Redis.hincrby_total_xp (Task.user_id task) (Scores.xp_earned s2)
                                (user_stats w1)
    /\ events_task w1 = events_task w
    /\ events_task w2 = events_task w
    /\ events_ml w2 = events_ml w.
Proof.
  intros Hsel H1 H2.
  destruct (scoreTask_step taskId s1 w task Hsel H1) as (row1 & Hr1 & E1).
  set (w1 := set_user_stats
               (Redis.hincrby_total_xp (Task.user_id task)
                                       (Scores.xp_earned s1))
               (set_task_scores (Sql.upsert_rows taskId row1) w)) in *.
  assert (Hsel' : Sql.select_task taskId (set_clock now2 w1) = Some task)
    by exact Hsel.
  destruct (scoreTask_step taskId s2 (set_clock now2 w1) task Hsel' H2)
    as (row2 & Hr2 & E2).
  exists row1, row2. eexists _, _, _, _.
  split; [exact Hr1|]. split; [exact Hr2|]. split; [exact E1|].
  split; [exact E2|]. repeat split.
Qed.



(** C6 on the code: a call of [scoreTask] on an existing task, with scores
    the table accepts, adds its [xp_earned] to the owner's [total_xp], also
    when the task already has a score row, so that after two calls the
    counter has grown by both amounts while [task_scores] holds one row for
    the task. The TASK_SCORED event is not emitted: the call of the stream
    client throws, the event stream stays as it was and [scoreTask] ends in
    a TypeError. *)
Theorem scoreTask_credits_without_event (taskId : uuid) (s1 s2 : Scores.t)
    (w : World) (now2 : Z) (task : Task.t) :
  Sql.select_task taskId w = Some task ->
  Sql.acceptable s1 = true -> Sql.acceptable s2 = true ->
  NoDup (map TaskScore.task_id (task_scores w)) ->
  let owner := Task.user_id task in
  exists e1 w1 e2 w2,
    scoreTask taskId s1 w = (inl e1, w1)
    /\ scoreTask taskId s2 (set_clock now2 w1) = (inl e2, w2)
    /\ error_name e1 = "TypeError"%string
    /\ error_name e2 = "TypeError"%string
    /\ Redis.get_total_xp owner (user_stats w1)
       = (Redis.get_total_xp owner (user_stats w) + Scores.xp_earned s1)%Z
    /\ Redis.get_total_xp owner (user_stats w2)
       = (Redis.get_total_xp owner (user_stats w)
          + Scores.xp_earned s1 + Scores.xp_earned s2)%Z
    /\ length (Sql.scores_of_task taskId (task_scores w2)) = 1%nat
    /\ events_task w1 = events_task w
    /\ events_task w2 = events_task w
    /\ events_ml w2 = events_ml w.
Proof.
  intros Hsel H1 H2 Hnd owner.
  destruct (scoreTask_twice taskId s1 s2 w now2 task Hsel H1 H2)
    as (row1 & row2 & e1 & e2 & w1 & w2 & Hr1 & Hr2 & E1 & E2 & He1 & He2
        & Hs1 & Hs2 & Hx1 & Hx2 & Hev1 & Hev2 & Hml).
  destruct (acceptable_row taskId s1 (clock w) H1)
    as (r1 & Hr1' & _ & Hid1 & _).
  destruct (acceptable_row taskId s2 now2 H2)
    as (r2 & Hr2' & _ & Hid2 & _).
  assert (r1 = row1) by congruence. assert (r2 = row2) by congruence.
  subst r1 r2.
  destruct (upsert_rows_one taskId row1 (task_scores w) Hid1 Hnd)
    as (Hone1 & Hnd1 & _).
  rewrite <- Hs1 in Hone1, Hnd1.
  destruct (upsert_rows_one taskId row2 (task_scores w1) Hid2 Hnd1)
    as (Hone2 & _ & _).
  rewrite <- Hs2 in Hone2.
  exists e1, w1, e2, w2. fold owner in Hx1, Hx2.
  split; [exact E1|]. split; [exact E2|].
  split; [exact He1|]. split; [exact He2|].
  split; [rewrite Hx1; apply hincrby_total_xp_get|].
  split; [rewrite Hx2, Hx1, !hincrby_total_xp_get; reflexivity|].
  split; [rewrite Hone2; reflexivity|].
  split; [exact Hev1|]. split; [exact Hev2 | exact Hml].
Qed.

Lemma scoreTask_credits_without_event_witness :
  (Sql.select_task 1 Sample.world = Some (Sample.task 1 7 None)
   /\ Sql.acceptable Sample.first_scores = true
   /\ NoDup (map TaskScore.task_id (task_scores Sample.world)))
  /\ exists e1 w1 e2 w2,
       scoreTask 1 Sample.first_scores Sample.world = (inl e1, w1)
       /\ scoreTask 1 Sample.first_scores (set_clock 6000 w1) = (inl e2, w2)
       /\ Redis.get_total_xp 7 (user_stats w2) = 26%Z
       /\ events_task w2 = [].
Proof.
  assert (Hsel : Sql.select_task 1 Sample.world = Some (Sample.task 1 7 None))
    by reflexivity.
  assert (H1 : Sql.acceptable Sample.first_scores = true) by reflexivity.
  assert (Hnd : NoDup (map TaskScore.task_id (task_scores Sample.world)))
    by constructor.
  split; [tauto|].
  destruct (scoreTask_credits_without_event 1 Sample.first_scores
              Sample.first_scores Sample.world 6000 _ Hsel H1 H1 Hnd)
    as (e1 & w1 & e2 & w2 & E1 & E2 & _ & _ & _ & Hxp & _ & _ & Hev & _).
  exists e1, w1, e2, w2. repeat split; assumption.
Defined.

(** Whatever its arguments, [updateTask] ends in an error and emits
    nothing; a rejection by the database leaves the store as it was. *)
Lemma updateTask_cases (taskId : uuid) (updates : Partial.t) (w : World) :
  exists e w',
    updateTask taskId updates w = (inl e, w')
    /\ (error_name e = "NeonDbError"%string \/ error_name e = "TypeError"%string)
    /\ (error_name e = "NeonDbError"%string -> w' = w)
    /\ (Sql.as_stored updates = None -> error_name e = "NeonDbError"%string)
    /\ map Task.id (tasks w') = map Task.id (tasks w)
    /\ task_scores w' = task_scores w
    /\ user_stats w' = user_stats w
    /\ events_task w' = events_task w
    /\ events_ml w' = events_ml w.
Proof.
  destruct (Partial.entries updates) as [|x xs] eqn:Hent.
  { unfold updateTask, Sql.update_task. run. rewrite Hent.
    eexists _, _. split; [reflexivity|]. cbn. repeat split; auto. }
  assert (Hne : Partial.entries updates <> []) by congruence.
  destruct (Sql.readable updates) eqn:Hread.
  2:{ unfold updateTask, Sql.update_task. run. rewrite Hent, Hread.
      eexists _, _. split; [reflexivity|]. cbn. repeat split; auto. }
  destruct (Sql.as_stored updates) as [stored|] eqn:Hst.
  2:{ unfold updateTask, Sql.update_task. run. rewrite Hent, Hread, Hst.
      eexists _, _. split; [reflexivity|]. cbn. repeat split; auto. }
  destruct (Sql.select_task taskId w) as [row|] eqn:Hsel.
  2:{ rewrite (updateTask_no_row taskId updates stored w Hne Hread Hst Hsel).
      eexists _, _. split; [reflexivity|]. cbn.
      repeat split; auto; discriminate. }
  destruct (Task.checks (Sql.apply_set stored (clock w) row)
            && Sql.parent_exists (Sql.apply_set stored (clock w) row) w)
    eqn:Hok.
  - rewrite (updateTask_row taskId updates stored w row Hne Hread Hst Hsel Hok).
    eexists _, _. split; [reflexivity|]. cbn.
    split; [now right|]. split; [discriminate|]. split; [discriminate|].
    split; [|repeat split].
    apply replaced_task_ids. apply (find_id _ _ _ Hsel).
  - unfold updateTask, Sql.update_task. run.
    rewrite Hent, Hread, Hst, Hsel. cbn [negb]. rewrite Hok.
    eexists _, _. split; [reflexivity|]. cbn. repeat split; auto.
Qed.

(** [createTask] on data the table accepts: the row, the cache mirror and
    the index entry are written, then the emission throws. *)
Lemma createTask_stored (userId : uuid) (taskData : Partial.t) (w : World)
    (title : string) (estimate : option Q) :
  Partial.title taskData = Some title ->
  Sql.hours_column (JS.or_null_num (Partial.estimated_hours taskData))
  = Some estimate ->
  let task := inserted_row (next_uuid w) userId title taskData estimate
                           (clock w) in
  Task.checks task = true ->
  existsb (N.eqb userId) (users w) = true ->
  createTask userId taskData w
  = (inl (Throw "TypeError" "Cannot convert undefined or null to object"),
     created_world userId task w).
Proof.
  intros Ht He task Hc Hu. unfold createTask. run.
  rewrite Ht, He. fold task. rewrite Hc, Hu. reflexivity.
Qed.

Lemma createTask_rejected (userId : uuid) (taskData : Partial.t) (w : World) :
  insert_rejected userId taskData w = true ->
  exists e, createTask userId taskData w = (inl e, w)
            /\ error_name e = "NeonDbError"%string.
Proof.
  unfold insert_rejected, createTask. run.
  destruct (Partial.title taskData) as [title|];
    [|intros _; eexists; split; reflexivity].
  destruct (Sql.hours_column _) as [estimate|];
    [|intros _; eexists; split; reflexivity].
  destruct (Task.checks _); cbn;
    [|intros _; eexists; split; reflexivity].
  destruct (existsb _ _); cbn; [discriminate|].
  intros _; eexists; split; reflexivity.
Qed.

(** Whatever its argument, [createTask] ends in an error: rejected by the
    database with nothing written, or thrown by the emission after the row,
    the cache entry and the index entry were written. *)
Lemma createTask_cases (userId : uuid) (taskData : Partial.t) (w : World) :
  exists e w',
    createTask userId taskData w = (inl e, w')
    /\ ((error_name e = "NeonDbError"%string /\ w' = w)
        \/ (error_name e = "TypeError"%string
            /\ exists title estimate,
                 Partial.title taskData = Some title
                 /\ w' = created_world userId
                           (inserted_row (next_uuid w) userId title taskData
                                         estimate (clock w)) w)).
Proof.
  destruct (insert_rejected userId taskData w) eqn:Hr.
  - destruct (createTask_rejected _ _ _ Hr) as (e & E & He).
    exists e, w. split; [exact E | now left].
  - unfold insert_rejected in Hr.
    destruct (Partial.title taskData) as [title|] eqn:Ht; [|discriminate].
    destruct (Sql.hours_column _) as [estimate|] eqn:He; [|discriminate].
    apply orb_false_iff in Hr as [Hc Hu].
    apply negb_false_iff in Hc, Hu.
    rewrite (createTask_stored _ _ _ _ _ Ht He Hc Hu).
    eexists _, _. split; [reflexivity|]. right.
    split; [reflexivity|]. exists title, estimate. split; reflexivity.
Qed.

End TaskManagerFacts.

(** ** The planner *)

Module PlannerFacts.
Import TaskManager Planner.
Import TaskManagerFacts.

(** C1 at a concrete input: root task 1 is planned into two subtasks. The
    row that [createTask] writes for each of them carries the planned order,
    the dependencies and the parent's complexity in its context, in array
    order, but its [parent_id] is NULL instead of 1. The workflow itself
    stops in the first [createTask], whose emission throws after the row is
    stored: one subtask row exists, it is no child of task 1, the parent is
    not updated and nothing reaches the event stream. *)
Theorem planner_subtasks_have_no_parent :
  let subs := default [] (subtasks Sample.analysis) in
  let written :=
    concat
      (imap (fun index subtask =>
               drop (length (tasks Sample.world))
                 (tasks (createTask 7 (subtask_data 1 Sample.analysis index
                                                    subtask)
                                    Sample.world).2))
            subs) in
  let r := POST 1 7 (fun _ => Sample.analysis) Sample.world in
  let created := drop (length (tasks Sample.world)) (tasks r.2) in
  map Task.title written = ["Outline"; "Draft"]%string
  /\ map (fun t => JS.get "plannedOrder" (Task.context t)) written
     = [Some (JS.JNum 0); Some (JS.JNum 1)]
  /\ map (fun t => JS.get "dependencies" (Task.context t)) written
     = [Some (JS.JArr []); Some (JS.JArr [JS.JNum 0])]
  /\ map (fun t => JS.get "parentComplexity" (Task.context t)) written
     = [Some (JS.JNum 4); Some (JS.JNum 4)]
  /\ map Task.parent_id written = [None; None]
  /\ map Task.parent_id written <> [Some 1%N; Some 1%N]
  /\ r.1 = inl (Throw "TypeError" "Cannot convert undefined or null to object")
  /\ map Task.title created = ["Outline"]%string
  /\ map Task.parent_id created = [None]
  /\ Assessor.select_subtasks 1 r.2 = []
  /\ Sql.select_task 1 r.2 = Sql.select_task 1 Sample.world
  /\ events_task r.2 = [].
Proof.
  vm_compute. repeat split. discriminate.
Qed.

(** C7: on a task that has a parent, and on a task id that matches no row,
    the planner returns the skipped result and leaves every store as it
    was: no subtask is created and nothing is written. *)
Theorem planner_skips (taskId userId : uuid) (analyze : Task.t -> Analysis)
    (w : World) :
  (Sql.select_task taskId w = None
   \/ exists task p, Sql.select_task taskId w = Some task
                     /\ Task.parent_id task = Some p) ->
  POST taskId userId analyze w = (inr (Skipped "Not a root task"), w).
Proof.
  intros [Hnone | (task & p & Hsel & Hpar)]; unfold POST; run.
  - rewrite Hnone. reflexivity.
  - rewrite Hsel, Hpar. reflexivity.
Qed.

Lemma planner_skips_witness :
  (exists task p, Sql.select_task 3 Sample.world = Some task
                  /\ Task.parent_id task = Some p)
  /\ Sql.select_task 99 Sample.world = None
  /\ POST 3 7 (fun _ => Sample.analysis) Sample.world
     = (inr (Skipped "Not a root task"), Sample.world)
  /\ POST 99 7 (fun _ => Sample.analysis) Sample.world
     = (inr (Skipped "Not a root task"), Sample.world).
Proof.
  assert (H3 : exists task p, Sql.select_task 3 Sample.world = Some task
                              /\ Task.parent_id task = Some p)
    by (exists (Sample.task 3 7 (Some 2%N)), 2%N; split; reflexivity).
  assert (H99 : Sql.select_task 99 Sample.world = None) by reflexivity.
  split; [exact H3|]. split; [exact H99|]. split.
  - exact (planner_skips 3 7 _ Sample.world (or_intror H3)).
  - exact (planner_skips 99 7 _ Sample.world (or_introl H99)).
Defined.

End PlannerFacts.

(** ** The assessor's time metrics *)

Module TimeMetricsFacts.
Import Assessor.
Import TaskManagerFacts.

(** C8 as stated fails: with no estimate and two hours of actual work the
    stated ratio is 1/2, which is not on time, while the code sets the ratio
    to 1 and reports the task as on time. *)
Lemma speed_ratio_without_estimate :
  let t := Sample.unestimated in
  let m := time_metrics t in
  Task.estimated_hours t = None
  /\ (actualHours m == 2)%Q
  /\ JS.ge (stated_speed_ratio t) (8 # 10) = false
  /\ speedRatio m = JS.Fin 1
  /\ wasOnTime m = true
  /\ speedRatio m <> stated_speed_ratio t.
Proof.
  vm_compute. repeat split; discriminate.
Qed.

Lemma Qeq_bool_false (a b : Q) : ~ (a == b)%Q -> Qeq_bool a b = false.
Proof.
  intros H. destruct (Qeq_bool a b) eqn:E; [|reflexivity].
  apply Qeq_bool_iff in E. contradiction.
Qed.

Lemma Qle_bool_false (a b : Q) : (b < a)%Q -> Qle_bool a b = false.
Proof.
  intros H. destruct (Qle_bool a b) eqn:E; [|reflexivity].
  apply Qle_bool_iff in E. lra.
Qed.

(** The update of the calculate-time-metrics step reaches the row: the
    hours are stored as the column rounds them. *)
Lemma actual_hours_written (taskId : uuid) (task : Task.t) (w : World)
    (actual hours : Q) :
  Sql.select_task taskId w = Some task ->
  Task.checks task && Sql.parent_exists task w = true ->
  Sql.decimal_5_2 actual = Some hours ->
  exists e w',
    TaskManager.updateTask taskId
      (Partial.mk None None None None None None None (Some actual)
                  None None None None None None) w
    = (inl e, w')
    /\ error_name e = "TypeError"%string
    /\ (Sql.select_task taskId w' ≫= Task.actual_hours) = Some hours
    /\ map Task.id (tasks w') = map Task.id (tasks w)
    /\ events_task w' = events_task w.
Proof.
  intros Hsel Hok Hfit.
  set (updates := Partial.mk None None None None None None None (Some actual)
                             None None None None None None).
  set (stored := Partial.mk None None None None None None None (Some hours)
                            None None None None None None).
  assert (Hst : Sql.as_stored updates = Some stored).
  { unfold Sql.as_stored, updates. cbn. rewrite Hfit. reflexivity. }
  assert (Hok' : Task.checks (Sql.apply_set stored (clock w) task)
                 && Sql.parent_exists (Sql.apply_set stored (clock w) task) w
                 = true).
  { destruct task. exact Hok. }
  rewrite (updateTask_row taskId updates stored w task
             ltac:(discriminate) eq_refl Hst Hsel Hok').
  eexists _, _. split; [reflexivity|]. split; [reflexivity|].
  assert (Hid : Task.id (Sql.apply_set stored (clock w) task) = taskId)
    by apply (find_id _ _ _ Hsel).
  split.
  { unfold Sql.select_task in *. cbn [tasks set_task_hash set_tasks].
    erewrite find_replace by eassumption. reflexivity. }
  split; [apply replaced_task_ids; exact Hid | reflexivity].
Qed.

(** C8, as the code has it by design, for a task whose estimate is a value
    of its DECIMAL(5,2) column and whose actual hours fit that column: the
    actual duration is the completion time minus the start time (the
    creation time when there is no start time); with an estimate, also one
    of zero hours, the speed ratio is the estimate divided by the actual
    hours; without one the ratio itself is 1 and the task is on time (the
    reported estimate defaults to 1 hour); a ratio above 0.8 is on time and
    a ratio below 0.8 is not; the actual hours, rounded to the two decimals
    of their column, are written to the task row. *)
Theorem time_metrics_spec (taskId : uuid) (task : Task.t) (w : World)
    (hours : Q) :
  Sql.select_task taskId w = Some task ->
  Task.checks task && Sql.parent_exists task w = true ->
  Sql.held Sql.decimal_5_2 (Task.estimated_hours task) = true ->
  let m := time_metrics task in
  Sql.decimal_5_2 (actualHours m) = Some hours ->
  (forall c, Task.completed_at task = Some c ->
     (actualHours m
      == inject_Z (c - default (Task.created_at task) (Task.started_at task))
         / 3600000)%Q)
  /\ (forall e, Task.estimated_hours task = Some e ->
        estimatedHours m = e
        /\ speedRatio m = JS.div e (actualHours m)
        /\ (~ (actualHours m == 0)%Q ->
            speedRatio m = JS.Fin (e / actualHours m)))
  /\ (Task.estimated_hours task = None ->
        estimatedHours m = 1%Q /\ speedRatio m = JS.Fin 1
        /\ wasOnTime m = true)
  /\ (forall q, speedRatio m = JS.Fin q ->
        ((8 # 10 < q)%Q -> wasOnTime m = true)
        /\ ((q < 8 # 10)%Q -> wasOnTime m = false))
  /\ (speedRatio m = JS.PosInf -> wasOnTime m = true)
  /\ (speedRatio m = JS.NegInf \/ speedRatio m = JS.NaN ->
      wasOnTime m = false)
  /\ exists result w',
       calculate_time_metrics taskId task w = (result, w')
       /\ (Sql.select_task taskId w' ≫= Task.actual_hours) = Some hours.
Proof.
  intros Hsel Hok _ m Hfit.
  split.
  { intros c Hc. subst m. unfold time_metrics. cbn [actualHours].
    rewrite Hc. apply Qeq_refl. }
  split.
  { intros e He. subst m. unfold time_metrics.
    cbn [estimatedHours speedRatio actualHours]. rewrite He.
    split; [reflexivity|]. split; [reflexivity|].
    intros Ha. unfold JS.div. cbn [default] in *.
    rewrite Qeq_bool_false by exact Ha. reflexivity. }
  split.
  { intros Hf. subst m. unfold time_metrics.
    cbn [estimatedHours speedRatio wasOnTime]. rewrite Hf. repeat split. }
  split.
  { intros q Hq. change (wasOnTime m) with (JS.ge (speedRatio m) (8 # 10)).
    rewrite Hq. cbn. split; intros H.
    - apply Qle_bool_iff. lra.
    - apply Qle_bool_false. exact H. }
  split.
  { intros Hq. change (wasOnTime m) with (JS.ge (speedRatio m) (8 # 10)).
    rewrite Hq. reflexivity. }
  split.
  { intros Hq. change (wasOnTime m) with (JS.ge (speedRatio m) (8 # 10)).
    destruct Hq as [-> | ->]; reflexivity. }
  destruct (actual_hours_written taskId task w (actualHours m) hours
              Hsel Hok Hfit) as (e & w' & E & _ & Hh & _).
  unfold calculate_time_metrics. fold m. run. rewrite E.
  eexists _, _. split; [reflexivity | exact Hh].
Qed.

Lemma time_metrics_spec_witness :
  let t := Sample.unestimated in
  (Sql.select_task 1 Sample.finished_world = Some t
   /\ Task.checks t && Sql.parent_exists t Sample.finished_world = true
   /\ Sql.held Sql.decimal_5_2 (Task.estimated_hours t) = true
   /\ Sql.decimal_5_2 (actualHours (time_metrics t)) = Some 2%Q)
  /\ speedRatio (time_metrics t) = JS.Fin 1
  /\ exists result w',
       calculate_time_metrics 1 t Sample.finished_world = (result, w')
       /\ (Sql.select_task 1 w' ≫= Task.actual_hours) = Some 2%Q.
Proof.
  intros t.
  assert (Hsel : Sql.select_task 1 Sample.finished_world = Some t)
    by reflexivity.
  assert (Hok : Task.checks t && Sql.parent_exists t Sample.finished_world
                = true) by reflexivity.
  assert (Hheld : Sql.held Sql.decimal_5_2 (Task.estimated_hours t) = true)
    by reflexivity.
  assert (Hfit : Sql.decimal_5_2 (actualHours (time_metrics t)) = Some 2%Q)
    by reflexivity.
  split; [tauto|].
  destruct (time_metrics_spec 1 t Sample.finished_world 2 Hsel Hok Hheld Hfit)
    as (_ & _ & Hnone & _ & _ & _ & Hw).
  split; [apply Hnone; reflexivity | exact Hw].
Defined.

End TimeMetricsFacts.

(** ** The pattern analyzer *)

Module MLAnalyzerFacts.
Import MLAnalyzer.
Import TaskManagerFacts.





(** With enough history the same run does write the pattern: 43 completed
    tasks give one optimal-scheduling row of confidence 1. *)
Example enough_tasks_scheduling_pattern :
  let r := POST 7 (fun _ _ => []) Sample.busy_world in
  length (gather_historical_data 7 Sample.busy_world) = 43%nat
  /\ map Pattern.pattern_type (task_patterns r.2)
     = ["optimal_scheduling"; "complexity_handling"]%string
  /\ map (fun x => Qeq_bool (Pattern.confidence_score x) 1) (task_patterns r.2)
     = [true; false].
Proof.
  vm_compute. repeat split.
Qed.

End MLAnalyzerFacts.

(** ** Calendar analytics *)

Module CalendarFacts.
Import CalendarAnalytics.

Lemma Qltb_lt (a b : Q) : JS.Qltb a b = true <-> (a < b)%Q.
Proof.
  unfold JS.Qltb. rewrite negb_true_iff. split.
  - intros H. apply Qnot_le_lt. intros Hle.
    apply Qle_bool_iff in Hle. congruence.
  - intros H. destruct (Qle_bool b a) eqn:E; [|reflexivity].
    apply Qle_bool_iff in E. exfalso. exact (Qlt_not_le _ _ H E).
Qed.

Lemma Qltb_ge (a b : Q) : JS.Qltb a b = false <-> (b <= a)%Q.
Proof.
  unfold JS.Qltb. rewrite negb_false_iff. apply Qle_bool_iff.
Qed.

Lemma sum_nat_Q_nonneg (l : list nat) : (0 <= sum_nat_Q l)%Q.
Proof.
  unfold sum_nat_Q. change 0%Q with (inject_Z 0). rewrite <- Zle_Qle. lia.
Qed.

Lemma digits_from_positive (fuel : nat) (n : Z) : (1 <= digits_from fuel n)%Z.
Proof.
  revert n. induction fuel as [|fuel IH]; intros n; cbn; [lia|].
  destruct (n <? 10)%Z; [lia|]. specialize (IH (n / 10)%Z). lia.
Qed.

Lemma appended_bounds (sum : Z) (c : nat) :
  (0 <= sum)%Z -> (sum + Z.of_nat c <= appended sum c)%Z.
Proof.
  intros Hs. unfold appended, digits.
  pose proof (digits_from_positive c (Z.of_nat c)) as Hd.
  assert (Hp : (1 <= 10 ^ digits_from c (Z.of_nat c))%Z)
    by (apply Z.lt_pred_le, Z.pow_pos_nonneg; lia).
  nia.
Qed.

Lemma appended_first (c : nat) : appended 0 c = Z.of_nat c.
Proof.
  unfold appended. lia.
Qed.

Lemma fold_appended_bounds (counts : list nat) (sum : Z) :
  (0 <= sum)%Z ->
  (sum + Z.of_nat (foldr plus 0%nat counts) <= fold_left appended counts sum)%Z.
Proof.
  revert sum. induction counts as [|c counts IH]; intros sum Hs; cbn; [lia|].
  pose proof (appended_bounds sum c Hs) as Ha.
  specialize (IH (appended sum c) ltac:(lia)). lia.
Qed.

(** The average of a half is never negative. *)
Lemma average_nonneg (rows : list TrendRow) : (0 <= average rows)%Q.
Proof.
  destruct rows as [|r rows]; [apply Qle_refl|].
  unfold average. apply Qle_shift_div_l.
  - change 0%Q with (inject_Z 0). rewrite <- Zlt_Qlt. cbn [length]. lia.
  - rewrite Qmult_0_l. change 0%Q with (inject_Z 0). rewrite <- Zle_Qle.
    pose proof (fold_appended_bounds (map daily_count (r :: rows)) 0
                  ltac:(lia)). lia.
Qed.

(** The average of a half with a single day is the count of that day. *)
Lemma average_single (t : TrendRow) :
  (average [t] == inject_Z (Z.of_nat (daily_count t)))%Q.
Proof.
  unfold average. cbn [map fold_left length]. rewrite appended_first.
  change (inject_Z (Z.of_nat 1)) with 1%Q. field.
Qed.

(** The comparison of the two means, case by case. *)
Lemma trend_of_cases (recentAvg olderAvg : Q) :
  (0 <= olderAvg)%Q ->
  (trend_of recentAvg olderAvg = up <-> (olderAvg * (115 # 100) < recentAvg)%Q)
  /\ (trend_of recentAvg olderAvg = down
      <-> (recentAvg < olderAvg * (85 # 100))%Q)
  /\ (trend_of recentAvg olderAvg = stable
      <-> (olderAvg * (85 # 100) <= recentAvg
           /\ recentAvg <= olderAvg * (115 # 100))%Q).
Proof.
  intros Hpos. unfold trend_of.
  destruct (JS.Qltb (olderAvg * (115 # 100)) recentAvg) eqn:Eup.
  - apply Qltb_lt in Eup.
    repeat split; try discriminate; auto; intros; exfalso; lra.
  - apply Qltb_ge in Eup.
    destruct (JS.Qltb recentAvg (olderAvg * (85 # 100))) eqn:Edown.
    + apply Qltb_lt in Edown.
      repeat split; try discriminate; auto; intros; exfalso; lra.
    + apply Qltb_ge in Edown.
      repeat split; try discriminate; auto; intros; exfalso; lra.
Qed.

(** Every row of the trend query falls in exactly one half of the window. *)
Lemma window_halves (fourWeeksAgo : Z) (t : TrendRow) :
  (fourWeeksAgo <=? date_ms t)%Z = negb (date_ms t <? fourWeeksAgo)%Z.
Proof.
  destruct (Z.leb_spec fourWeeksAgo (date_ms t)),
    (Z.ltb_spec (date_ms t) fourWeeksAgo); cbn; lia.
Qed.

(** C10 as stated fails. At the boundary: with a recent mean of 23 and an
    older mean of 20 the ratio is exactly 1.15, which the stated rule calls
    up, and the route reports stable. In the calendar component: with seven
    completions in the earlier displayed week and eight in the later one the
    ratio of the daily means is 8/7, which the stated rule calls stable, and
    calculateAnalytics reports up. *)
Lemma velocity_trend_boundary :
  let w := Sample.busy_world in
  let rows := trend_tasks 7 (clock w - 56 * day_ms) w in
  rows = [mkTrendRow 60 20; mkTrendRow 90 23]
  /\ (average (recentTasks (clock w - 28 * day_ms) rows) == 23)%Q
  /\ (average (olderTasks (clock w - 28 * day_ms) rows) == 20)%Q
  /\ (23 == 20 * (115 # 100))%Q
  /\ stated_trend 23 20 = up
  /\ velocityTrend 7 w = stable
  /\ velocityTrend 7 w <> stated_trend 23 20
  /\ stated_trend (8 # 7) (7 # 7) = stable
  /\ AnalyticsCalendar.trend Sample.two_weeks = up
  /\ AnalyticsCalendar.trend Sample.two_weeks <> stated_trend (8 # 7) (7 # 7).
Proof.
  vm_compute. repeat split; discriminate.
Qed.

(** The comparison of the calendar component, on the numbers of completions
    of the two weeks. *)
Lemma component_trend_cases (days : list AnalyticsCalendar.CalendarDay) :
  let recent := AnalyticsCalendar.recentDays days in
  let first := foldr plus 0%nat
                 (map AnalyticsCalendar.completed (take 7 recent)) in
  let second := foldr plus 0%nat
                  (map AnalyticsCalendar.completed (take 7 (drop 7 recent))) in
  (11 * first < 10 * second -> AnalyticsCalendar.trend days = up)
  /\ (10 * second < 9 * first -> AnalyticsCalendar.trend days = down)
  /\ (9 * first < 10 * second < 11 * first ->
      AnalyticsCalendar.trend days = stable).
Proof.
  intros recent first second.
  unfold AnalyticsCalendar.trend, AnalyticsCalendar.week_average, sum_nat_Q.
  fold recent. fold first. fold second.
  assert (H7 : forall x : Q, (x / 7 == x * (1 # 7))%Q)
    by (intros x; field).
  set (a := inject_Z (Z.of_nat first)). set (b := inject_Z (Z.of_nat second)).
  assert (Hab : forall p q : Z,
             (p * Z.of_nat first < q * Z.of_nat second)%Z ->
             (inject_Z p * a < inject_Z q * b)%Q).
  { intros p q H. unfold a, b. rewrite <- !inject_Z_mult, <- Zlt_Qlt.
    exact H. }
  assert (Hba : forall p q : Z,
             (p * Z.of_nat second < q * Z.of_nat first)%Z ->
             (inject_Z p * b < inject_Z q * a)%Q).
  { intros p q H. unfold a, b. rewrite <- !inject_Z_mult, <- Zlt_Qlt.
    exact H. }
  split; [|split].
  - intros H. specialize (Hab 11%Z 10%Z ltac:(lia)).
    change (inject_Z 11) with 11%Q in Hab.
    change (inject_Z 10) with 10%Q in Hab.
    assert (JS.Qltb (a / 7 * (11 # 10)) (b / 7) = true) as ->;
      [|reflexivity].
    apply Qltb_lt. rewrite !H7. lra.
  - intros H. specialize (Hba 10%Z 9%Z ltac:(lia)).
    change (inject_Z 9) with 9%Q in Hba.
    change (inject_Z 10) with 10%Q in Hba.
    assert (JS.Qltb (a / 7 * (11 # 10)) (b / 7) = false) as ->.
    { apply Qltb_ge. rewrite !H7.
      assert (0 <= a)%Q
        by (unfold a; change 0%Q with (inject_Z 0); rewrite <- Zle_Qle; lia).
      lra. }
    assert (JS.Qltb (b / 7) (a / 7 * (9 # 10)) = true) as ->; [|reflexivity].
    apply Qltb_lt. rewrite !H7. lra.
  - intros [H1 H2].
    specialize (Hab 9%Z 10%Z ltac:(lia)). specialize (Hba 10%Z 11%Z ltac:(lia)).
    change (inject_Z 9) with 9%Q in Hab.
    change (inject_Z 10) with 10%Q in Hab, Hba.
    change (inject_Z 11) with 11%Q in Hba.
    assert (JS.Qltb (a / 7 * (11 # 10)) (b / 7) = false) as ->.
    { apply Qltb_ge. rewrite !H7. lra. }
    assert (JS.Qltb (b / 7) (a / 7 * (9 # 10)) = false) as ->; [|reflexivity].
    apply Qltb_ge. rewrite !H7. lra.
Qed.

(** Grouping by day when the completions fall on two days at most. *)
Lemma bump_two_days (olderDay recentDay : Z) (older recent : nat) :
  (olderDay < recentDay)%Z ->
  bump olderDay (fun c => S (default 0%nat c))
       (two_days olderDay recentDay older recent)
  = two_days olderDay recentDay (S older) recent
  /\ bump recentDay (fun c => S (default 0%nat c))
          (two_days olderDay recentDay older recent)
     = two_days olderDay recentDay older (S recent).
Proof.
  intros Hlt. unfold two_days.
  assert (E1 : (olderDay =? recentDay)%Z = false) by (apply Z.eqb_neq; lia).
  assert (E2 : (recentDay =? olderDay)%Z = false) by (apply Z.eqb_neq; lia).
  assert (E3 : (olderDay <? recentDay)%Z = true) by (apply Z.ltb_lt; lia).
  assert (E4 : (recentDay <? olderDay)%Z = false) by (apply Z.ltb_ge; lia).
  destruct older, recent; cbn;
    rewrite ?Z.eqb_refl, ?E1, ?E2, ?E3, ?E4; cbn;
    rewrite ?Z.eqb_refl; split; reflexivity.
Qed.

Lemma fold_two_days (key : Task.t -> Z) (olderDay recentDay : Z)
    (l : list Task.t) :
  (olderDay < recentDay)%Z ->
  (forall r, In r l -> key r = olderDay \/ key r = recentDay) ->
  forall older recent,
    fold_left (fun o r => bump (key r) (fun c => S (default 0%nat c)) o) l
              (two_days olderDay recentDay older recent)
    = two_days olderDay recentDay
        (older + length (List.filter (fun r => (key r =? olderDay)%Z) l))
        (recent + length (List.filter (fun r => (key r =? recentDay)%Z) l)).
Proof.
  intros Hlt. induction l as [|r l IH]; intros Hkeys older recent.
  - cbn. now rewrite !Nat.add_0_r.
  - cbn [fold_left List.filter].
    destruct (bump_two_days olderDay recentDay older recent Hlt) as [Bo Br].
    destruct (Hkeys r (or_introl eq_refl)) as [E | E]; rewrite E.
    + rewrite Bo, IH by (intros; apply Hkeys; now right).
      rewrite Z.eqb_refl.
      assert ((olderDay =? recentDay)%Z = false) as ->
        by (apply Z.eqb_neq; lia).
      cbn [length]. f_equal; lia.
    + rewrite Br, IH by (intros; apply Hkeys; now right).
      rewrite Z.eqb_refl.
      assert ((recentDay =? olderDay)%Z = false) as ->
        by (apply Z.eqb_neq; lia).
      cbn [length]. f_equal; lia.
Qed.

Lemma filter_both {A : Type} (P Q : A -> bool) (l : list A) :
  List.filter Q (List.filter P l) = List.filter (fun x => P x && Q x) l.
Proof.
  induction l as [|x l IH]; [reflexivity|]. cbn.
  destruct (P x); cbn; [|exact IH]. destruct (Q x); now rewrite IH.
Qed.

(** The rows of the trend query in that case. *)
Lemma trend_tasks_two_days (userId : uuid) (since : Z) (w : World)
    (olderDay recentDay : Z) :
  (olderDay < recentDay)%Z ->
  (forall r, In r (tasks w) -> completed_since userId since r = true ->
     (MLAnalyzer.completed_ms r / day_ms)%Z = olderDay
     \/ (MLAnalyzer.completed_ms r / day_ms)%Z = recentDay) ->
  trend_tasks userId since w
  = map (fun kv => mkTrendRow (fst kv) (snd kv))
        (two_days olderDay recentDay
           (completions_on userId since olderDay w)
           (completions_on userId since recentDay w)).
Proof.
  intros Hlt Hdays. unfold trend_tasks. f_equal.
  change (@nil (Z * nat)) with (two_days olderDay recentDay 0 0).
  rewrite (fold_two_days (fun r => (MLAnalyzer.completed_ms r / day_ms)%Z)
             olderDay recentDay _ Hlt).
  - rewrite !filter_both. reflexivity.
  - intros r Hr. apply filter_In in Hr as [Hin Hc]. now apply Hdays.
Qed.

(** C10, as the code has it by design. The route: the trend query counts
    the done tasks of the user completed within the last 56 days, by
    calendar day; a day belongs to the recent half when it starts at or
    after the instant 28 days ago. When the completions of each half fall on
    a single day, so that the mean of a half is the count of its day, the
    trend is up when the recent mean is more than 1.15 times the older one,
    down when it is less than 0.85 times the older one, and stable when it
    lies strictly between the two; ratios 1.25, 0.75 and 1 give up, down and
    stable. The table is taken to have fewer than 2^40 rows, so that the
    counts are exact and a comparison away from equality is not affected by
    the rounding of the products. The calendar component: calculateAnalytics
    compares the completions of the last 7 displayed days with those of the
    7 days before, with the factors 1.1 and 0.9 in the same way. *)
Theorem velocity_trend_spec (userId : uuid) (w : World)
    (olderDay recentDay : Z) (days : list AnalyticsCalendar.CalendarDay) :
  let since := (clock w - 56 * day_ms)%Z in
  let fourWeeksAgo := (clock w - 28 * day_ms)%Z in
  let rows := trend_tasks userId since w in
  let older := completions_on userId since olderDay w in
  let recent := completions_on userId since recentDay w in
  (forall r, In r (tasks w) -> completed_since userId since r = true ->
     (MLAnalyzer.completed_ms r / day_ms)%Z = olderDay
     \/ (MLAnalyzer.completed_ms r / day_ms)%Z = recentDay) ->
  (olderDay * day_ms < fourWeeksAgo <= recentDay * day_ms)%Z ->
  (Z.of_nat (length (tasks w)) < 2 ^ 40)%Z ->
  (forall r, completed_since userId since r = true
             <-> Task.user_id r = userId /\ Task.status r = done
                 /\ exists c, Task.completed_at r = Some c
                              /\ (clock w - 56 * day_ms <= c)%Z)
  /\ (average (olderTasks fourWeeksAgo rows) == inject_Z (Z.of_nat older))%Q
  /\ (average (recentTasks fourWeeksAgo rows) == inject_Z (Z.of_nat recent))%Q
  /\ (23 * older < 20 * recent -> velocityTrend userId w = up)
  /\ (20 * recent < 17 * older -> velocityTrend userId w = down)
  /\ (17 * older < 20 * recent < 23 * older ->
      velocityTrend userId w = stable)
  /\ (0 < older ->
      (4 * recent = 5 * older -> velocityTrend userId w = up)
      /\ (4 * recent = 3 * older -> velocityTrend userId w = down)
      /\ (recent = older -> velocityTrend userId w = stable))
  /\ (let shown := AnalyticsCalendar.recentDays days in
      let first := foldr plus 0%nat
                     (map AnalyticsCalendar.completed (take 7 shown)) in
      let second :=
        foldr plus 0%nat
          (map AnalyticsCalendar.completed (take 7 (drop 7 shown))) in
      shown = drop (length days - 14) days
      /\ (11 * first < 10 * second -> AnalyticsCalendar.trend days = up)
      /\ (10 * second < 9 * first -> AnalyticsCalendar.trend days = down)
      /\ (9 * first < 10 * second < 11 * first ->
          AnalyticsCalendar.trend days = stable)).
Proof.
  intros since fourWeeksAgo rows older recent Hdays [Ho Hr] _.
  assert (Hlt : (olderDay < recentDay)%Z) by (unfold day_ms in *; lia).
  assert (Hrows : rows = map (fun kv => mkTrendRow (fst kv) (snd kv))
                             (two_days olderDay recentDay older recent))
    by (apply trend_tasks_two_days; assumption).
  assert (Eo : (olderDay * day_ms <? fourWeeksAgo)%Z = true)
    by (apply Z.ltb_lt; exact Ho).
  assert (Eo' : (fourWeeksAgo <=? olderDay * day_ms)%Z = false)
    by (apply Z.leb_gt; exact Ho).
  assert (Er : (fourWeeksAgo <=? recentDay * day_ms)%Z = true)
    by (apply Z.leb_le; exact Hr).
  assert (Er' : (recentDay * day_ms <? fourWeeksAgo)%Z = false)
    by (apply Z.ltb_ge; exact Hr).
  assert (Holder : (average (olderTasks fourWeeksAgo rows)
                    == inject_Z (Z.of_nat older))%Q).
  { rewrite Hrows. unfold two_days, olderTasks, date_ms.
    destruct older, recent; cbn [map app List.filter date fst snd];
      rewrite ?Eo, ?Er'; try apply average_single; reflexivity. }
  assert (Hrecent : (average (recentTasks fourWeeksAgo rows)
                     == inject_Z (Z.of_nat recent))%Q).
  { rewrite Hrows. unfold two_days, recentTasks, date_ms.
    destruct older, recent; cbn [map app List.filter date fst snd];
      rewrite ?Eo', ?Er; try apply average_single; reflexivity. }
  assert (Htrend : velocityTrend userId w
                   = trend_of (average (recentTasks fourWeeksAgo rows))
                              (average (olderTasks fourWeeksAgo rows)))
    by reflexivity.
  destruct (trend_of_cases (average (recentTasks fourWeeksAgo rows))
              (average (olderTasks fourWeeksAgo rows))
              (average_nonneg _)) as (Hup & Hdown & Hst).
  rewrite <- Htrend in Hup, Hdown, Hst.
  rewrite Holder, Hrecent in Hup, Hdown, Hst.
  assert (Up : 23 * older < 20 * recent -> velocityTrend userId w = up).
  { intros H. apply Hup.
    assert (H' : (23 * Z.of_nat older < 20 * Z.of_nat recent)%Z) by lia.
    rewrite Zlt_Qlt in H'. rewrite !inject_Z_mult in H'.
    change (inject_Z 23) with 23%Q in H'. change (inject_Z 20) with 20%Q in H'.
    lra. }
  assert (Down : 20 * recent < 17 * older -> velocityTrend userId w = down).
  { intros H. apply Hdown.
    assert (H' : (20 * Z.of_nat recent < 17 * Z.of_nat older)%Z) by lia.
    rewrite Zlt_Qlt in H'. rewrite !inject_Z_mult in H'.
    change (inject_Z 17) with 17%Q in H'. change (inject_Z 20) with 20%Q in H'.
    lra. }
  assert (Stable : 17 * older < 20 * recent < 23 * older ->
                   velocityTrend userId w = stable).
  { intros [H1 H2]. apply Hst.
    assert (H1' : (17 * Z.of_nat older < 20 * Z.of_nat recent)%Z) by lia.
    assert (H2' : (20 * Z.of_nat recent < 23 * Z.of_nat older)%Z) by lia.
    rewrite Zlt_Qlt in H1', H2'. rewrite !inject_Z_mult in H1', H2'.
    change (inject_Z 17) with 17%Q in H1'.
    change (inject_Z 23) with 23%Q in H2'.
    change (inject_Z 20) with 20%Q in H1', H2'.
    split; lra. }
  split.
  { intros r. unfold completed_since, since.
    rewrite !andb_true_iff, N.eqb_eq. split.
    - intros [[Hu Hs] Hc]. split; [exact Hu|]. split.
      + destruct (Task.status r); try discriminate; reflexivity.
      + destruct (Task.completed_at r) as [c|]; [|discriminate].
        exists c. split; [reflexivity | now apply Z.leb_le].
    - intros (Hu & Hs & c & Hc & Hle). rewrite Hs, Hc.
      repeat split; [exact Hu | now apply Z.leb_le]. }
  split; [exact Holder|]. split; [exact Hrecent|].
  split; [exact Up|]. split; [exact Down|]. split; [exact Stable|].
  split.
  { intros Hpos. repeat split; intros H.
    - apply Up. lia.
    - apply Down. lia.
    - apply Stable. lia. }
  split; [reflexivity | exact (component_trend_cases days)].
Qed.

Lemma velocity_trend_spec_witness :
  let w := Sample.rising_world in
  ((forall r, In r (tasks w) ->
      completed_since 7 (clock w - 56 * day_ms) r = true ->
      (MLAnalyzer.completed_ms r / day_ms)%Z = 60%Z
      \/ (MLAnalyzer.completed_ms r / day_ms)%Z = 90%Z)
   /\ (60 * day_ms < clock w - 28 * day_ms <= 90 * day_ms)%Z
   /\ (Z.of_nat (length (tasks w)) < 2 ^ 40)%Z)
  /\ completions_on 7 (clock w - 56 * day_ms) 60 w = 4%nat
  /\ completions_on 7 (clock w - 56 * day_ms) 90 w = 5%nat
  /\ velocityTrend 7 w = up
  /\ AnalyticsCalendar.trend Sample.two_weeks = up.
Proof.
  intros w.
  assert (Hdays : forall r, In r (tasks w) ->
            completed_since 7 (clock w - 56 * day_ms) r = true ->
            (MLAnalyzer.completed_ms r / day_ms)%Z = 60%Z
            \/ (MLAnalyzer.completed_ms r / day_ms)%Z = 90%Z).
  { intros r Hin _. cbn in Hin.
    repeat (destruct Hin as [<- | Hin]; [vm_compute; auto|]). destruct Hin. }
  assert (Hwin : (60 * day_ms < clock w - 28 * day_ms <= 90 * day_ms)%Z)
    by (vm_compute; split; [reflexivity | discriminate]).
  assert (Hsize : (Z.of_nat (length (tasks w)) < 2 ^ 40)%Z) by reflexivity.
  split; [tauto|].
  destruct (velocity_trend_spec 7 w 60 90 Sample.two_weeks Hdays Hwin Hsize)
    as (_ & _ & _ & _ & _ & _ & Hratio & _ & Hup & _).
  split; [reflexivity|]. split; [reflexivity|].
  split; [apply Hratio; vm_compute; [lia | reflexivity]|].
  apply Hup. vm_compute. lia.
Defined.

(** The counts of the trend query add up to the number of the user's done
    tasks completed inside the window. *)
Lemma bump_count (k : Z) (o : list (Z * nat)) :
  foldr plus 0%nat (map snd (bump k (fun c => S (default 0%nat c)) o))
  = S (foldr plus 0%nat (map snd o)).
Proof.
  induction o as [|[k' v] o IH]; [reflexivity|]. cbn.
  destruct (k =? k')%Z; [reflexivity|].
  destruct (k <? k')%Z; [reflexivity|]. cbn. rewrite IH. lia.
Qed.

Lemma trend_tasks_total (userId : uuid) (since : Z) (w : World) :
  foldr plus 0%nat (map daily_count (trend_tasks userId since w))
  = length (List.filter (completed_since userId since) (tasks w)).
Proof.
  unfold trend_tasks. rewrite map_map. cbn [daily_count].
  change (fun x : Z * nat => x.2) with (@snd Z nat).
  generalize (List.filter (completed_since userId since) (tasks w)).
  intros l.
  enough (H : forall o,
             foldr plus 0%nat
               (map snd
                  (fold_left
                     (fun o r =>
                        bump (MLAnalyzer.completed_ms r / day_ms)%Z
                             (fun c => S (default 0%nat c)) o) l o))
             = (length l + foldr plus 0%nat (map snd o))%nat).
  { rewrite H. cbn. lia. }
  induction l as [|r l IH]; intros o; [reflexivity|].
  cbn [fold_left length]. rewrite IH, bump_count. lia.
Qed.

End CalendarFacts.

(** ** Sorting and grouping helpers *)

Module SortFacts.

Section Sort.
Context {A : Type} (precedes : A -> A -> bool).

Lemma insert_before_perm (x : A) (l : list A) :
  insert_before precedes x l ≡ₚ x :: l.
Proof.
  induction l as [|y l IH]; [reflexivity|]. cbn.
  destruct (precedes y x); [|reflexivity].
  rewrite IH. apply Permutation_swap.
Qed.

Lemma stable_sort_perm (l : list A) : stable_sort precedes l ≡ₚ l.
Proof.
  induction l as [|x l IH]; [reflexivity|]. cbn.
  rewrite insert_before_perm. now rewrite IH.
Qed.

Lemma stable_sort_In (x : A) (l : list A) :
  In x (stable_sort precedes l) <-> In x l.
Proof.
  rewrite <- !list_elem_of_In. now rewrite stable_sort_perm.
Qed.

Lemma stable_sort_length (l : list A) :
  length (stable_sort precedes l) = length l.
Proof. now rewrite stable_sort_perm. Qed.

Hypothesis asym : forall a b, precedes a b = true -> precedes b a = false.
Hypothesis trans :
  forall a b c,
    precedes b a = false -> precedes c b = false -> precedes c a = false.

Lemma insert_before_sorted (x : A) (l : list A) :
  StronglySorted (fun a b => precedes b a = false) l ->
  StronglySorted (fun a b => precedes b a = false) (insert_before precedes x l).
Proof using asym trans.
  induction 1 as [|y l Hs IH Hall]; cbn.
  - repeat constructor.
  - destruct (precedes y x) eqn:E.
    + constructor; [exact IH|].
      apply Forall_forall. intros z Hz.
      rewrite insert_before_perm in Hz.
      apply elem_of_cons in Hz as [-> | Hz]; [now apply asym|].
      rewrite Forall_forall in Hall. now apply Hall.
    + constructor; [constructor; assumption|].
      constructor; [exact E|].
      rewrite Forall_forall in Hall |- *. intros z Hz.
      apply (trans _ y); [exact E | now apply Hall].
Qed.

Lemma stable_sort_sorted (l : list A) :
  StronglySorted (fun a b => precedes b a = false) (stable_sort precedes l).
Proof using asym trans.
  induction l as [|x l IH]; cbn; [constructor|].
  now apply insert_before_sorted.
Qed.

End Sort.

Lemma StronglySorted_weaken {A : Type} (R R' : A -> A -> Prop) (l : list A) :
  (forall a b, R a b -> R' a b) ->
  StronglySorted R l -> StronglySorted R' l.
Proof.
  intros HR. induction 1 as [|x l Hs IH Hall]; constructor; [exact IH|].
  eapply Forall_impl; [exact Hall | auto].
Qed.

Lemma StronglySorted_take {A : Type} (R : A -> A -> Prop) (n : nat)
    (l : list A) :
  StronglySorted R l -> StronglySorted R (take n l).
Proof.
  intros H. revert n. induction H as [|x l Hs IH Hall]; intros [|n]; cbn;
    try constructor; [apply IH|].
  apply Forall_take. exact Hall.
Qed.

Lemma StronglySorted_map {A B : Type} (R : B -> B -> Prop) (f : A -> B)
    (l : list A) :
  StronglySorted (fun a b => R (f a) (f b)) l -> StronglySorted R (map f l).
Proof.
  induction 1 as [|x l Hs IH Hall]; cbn; constructor; [exact IH|].
  apply Forall_map. exact Hall.
Qed.

Lemma In_take {A : Type} (n : nat) (x : A) (l : list A) :
  In x (take n l) -> In x l.
Proof.
  rewrite <- !list_elem_of_In. apply (subseteq_take n l).
Qed.

(** Grouping by an integer key *)

Lemma bump_keys {V : Type} (k k' : Z) (f : option V -> V) (o : list (Z * V)) :
  In k' (map fst (bump k f o)) <-> k' = k \/ In k' (map fst o).
Proof.
  induction o as [|[k0 v] o IH]; cbn; [intuition congruence|].
  destruct (Z.eqb_spec k k0) as [-> | Hne]; cbn; [intuition congruence|].
  destruct (k <? k0)%Z; cbn; [intuition congruence|]. rewrite IH.
  intuition congruence.
Qed.

Lemma bump_sum {V : Type} (c : V -> nat) (k : Z) (f : option V -> V)
    (o : list (Z * V)) :
  (forall v, c (f (Some v)) = S (c v)) -> c (f None) = 1%nat ->
  foldr plus 0%nat (map (fun kv => c (snd kv)) (bump k f o))
  = S (foldr plus 0%nat (map (fun kv => c (snd kv)) o)).
Proof.
  intros Hsome Hnone. induction o as [|[k0 v] o IH]; cbn; [now rewrite Hnone|].
  destruct (k =? k0)%Z; cbn; [now rewrite Hsome|].
  destruct (k <? k0)%Z; cbn; [now rewrite Hnone|]. rewrite IH. lia.
Qed.

Lemma bump_all {V : Type} (P : Z -> V -> Prop) (k : Z) (f : option V -> V)
    (o : list (Z * V)) :
  (forall v, P k v -> P k (f (Some v))) -> P k (f None) ->
  Forall (fun kv => P (fst kv) (snd kv)) o ->
  Forall (fun kv => P (fst kv) (snd kv)) (bump k f o).
Proof.
  intros Hsome Hnone. induction 1 as [|[k0 v] o Hx Hall IH]; cbn.
  - repeat constructor. exact Hnone.
  - destruct (Z.eqb_spec k k0) as [-> | Hne].
    + constructor; [apply Hsome; exact Hx | exact Hall].
    + destruct (k <? k0)%Z; repeat constructor; assumption.
Qed.

Lemma fold_bump_sum {V H : Type} (c : V -> nat) (key : H -> Z)
    (step : H -> option V -> V) (rows : list H) :
  (forall h v, c (step h (Some v)) = S (c v)) ->
  (forall h, c (step h None) = 1%nat) ->
  forall o,
    foldr plus 0%nat
      (map (fun kv => c (snd kv))
           (fold_left (fun o h => bump (key h) (step h) o) rows o))
    = (length rows + foldr plus 0%nat (map (fun kv => c (snd kv)) o))%nat.
Proof.
  intros Hsome Hnone. induction rows as [|h rows IH]; intros o; [reflexivity|].
  cbn [fold_left length]. rewrite IH, bump_sum by auto. lia.
Qed.

Lemma fold_bump_keys {V H : Type} (key : H -> Z) (step : H -> option V -> V)
    (rows : list H) :
  forall o k,
    In k (map fst (fold_left (fun o h => bump (key h) (step h) o) rows o)) ->
    In k (map fst o) \/ In k (map key rows).
Proof.
  induction rows as [|h rows IH]; intros o k; cbn [fold_left]; [tauto|].
  intros Hk. apply IH in Hk as [Hk | Hk]; [|right; now right].
  apply bump_keys in Hk as [-> | Hk]; [right; now left | now left].
Qed.

Lemma fold_bump_all {V H : Type} (P : Z -> V -> Prop) (key : H -> Z)
    (step : H -> option V -> V) (rows : list H) :
  (forall h v, P (key h) v -> P (key h) (step h (Some v))) ->
  (forall h, P (key h) (step h None)) ->
  forall o,
    Forall (fun kv => P (fst kv) (snd kv)) o ->
    Forall (fun kv => P (fst kv) (snd kv))
           (fold_left (fun o h => bump (key h) (step h) o) rows o).
Proof.
  intros Hsome Hnone. induction rows as [|h rows IH]; intros o Ho; [exact Ho|].
  cbn [fold_left]. apply IH. apply bump_all; auto.
Qed.

End SortFacts.

(** ** The task store: further properties *)

Module TaskStoreFacts.
Import TaskManager TaskManagerQueries.
Import TaskManagerFacts.

Lemma find_other (taskId other : uuid) (r' : Task.t) (rows : list Task.t) :
  Task.id r' = taskId -> other <> taskId ->
  List.find (fun x => N.eqb (Task.id x) other)
    (map (fun x => if N.eqb (Task.id x) taskId then r' else x) rows)
  = List.find (fun x => N.eqb (Task.id x) other) rows.
Proof.
  intros Hid Hne. induction rows as [|x rows IH]; [reflexivity|]. cbn.
  destruct (N.eqb (Task.id x) taskId) eqn:E.
  - apply N.eqb_eq in E. rewrite Hid, E.
    assert (N.eqb taskId other = false) as -> by (apply N.eqb_neq; congruence).
    exact IH.
  - destruct (N.eqb (Task.id x) other); [reflexivity | exact IH].
Qed.

Lemma find_fresh (id : uuid) (row : Task.t) (rows : list Task.t) :
  Task.id row = id ->
  (forall t, In t rows -> Task.id t <> id) ->
  List.find (fun x => N.eqb (Task.id x) id) (rows ++ [row]) = Some row.
Proof.
  intros Hid Hfresh. induction rows as [|x rows IH]; cbn.
  - now rewrite Hid, N.eqb_refl.
  - assert (N.eqb (Task.id x) id = false) as ->.
    { apply N.eqb_neq. apply Hfresh. now left. }
    apply IH. intros t Ht. apply Hfresh. now right.
Qed.

Lemma find_app_other (id other : uuid) (row : Task.t) (rows : list Task.t) :
  Task.id row = id -> other <> id ->
  List.find (fun x => N.eqb (Task.id x) other) (rows ++ [row])
  = List.find (fun x => N.eqb (Task.id x) other) rows.
Proof.
  intros Hid Hne. induction rows as [|x rows IH]; cbn.
  - rewrite Hid. now assert (N.eqb id other = false) as ->
      by (apply N.eqb_neq; congruence).
  - destruct (N.eqb (Task.id x) other); [reflexivity | exact IH].
Qed.

Lemma priority_checks (id userId : uuid) (title : string)
    (taskData : Partial.t) (estimate : option Q) (now : Z) :
  Task.checks (inserted_row id userId title taskData estimate now) = true
  <-> (1 <= JS.or_int (Partial.priority taskData) 3 <= 5)%Z.
Proof.
  unfold Task.checks, inserted_row. cbn.
  rewrite !andb_true_iff, !Z.leb_le. lia.
Qed.

Lemma registered_In (userId : uuid) (l : list uuid) :
  existsb (N.eqb userId) l = true <-> In userId l.
Proof.
  rewrite existsb_exists. split.
  - intros (x & Hx & E). apply N.eqb_eq in E. now subst.
  - intros H. exists userId. split; [exact H | apply N.eqb_refl].
Qed.

(** X1: what createTask leaves behind. For a title, a priority in 1 to 5
    (3 when absent or 0), an estimate that fits its column and a registered
    user, the row is inserted under the generated id with the given user
    and title, status todo, progress 0, the estimate as the column rounds
    it, no parent and the current time; a SELECT by that id finds it, no
    other row is changed, the cache mirror holds the title under the new id
    and the user's index holds the id with the creation time as score.
    The call then fails with a TypeError in the emission of TASK_CREATED:
    nothing reaches the event stream and the caller gets no task. *)
Theorem createTask_stores_then_throws (userId : uuid) (taskData : Partial.t)
    (w : World) (title : string) (estimate : option Q) :
  Partial.title taskData = Some title ->
  (1 <= JS.or_int (Partial.priority taskData) 3 <= 5)%Z ->
  Sql.hours_column (JS.or_null_num (Partial.estimated_hours taskData))
  = Some estimate ->
  In userId (users w) ->
  (forall t, In t (tasks w) -> Task.id t <> next_uuid w) ->
  exists e row w',
    createTask userId taskData w = (inl e, w')
    /\ error_name e = "TypeError"%string
    /\ Task.id row = next_uuid w
    /\ Task.user_id row = userId
    /\ Task.title row = title
    /\ Task.status row = todo
    /\ Task.progress row = 0%Z
    /\ Task.estimated_hours row = estimate
    /\ Task.parent_id row = None
    /\ Task.created_at row = clock w
    /\ Sql.select_task (Task.id row) w' = Some row
    /\ (forall other, other <> Task.id row ->
          Sql.select_task other w' = Sql.select_task other w)
    /\ (task_hash w' !! Task.id row) ≫= (fun h => h !! "title"%string)
       = Some (VStr title)
    /\ (user_tasks w' !! userId) ≫= (fun z => z !! Task.id row)
       = Some (Task.created_at row)
    /\ events_task w' = events_task w.
Proof.
  intros Ht Hp He Hu Hfresh.
  rewrite (createTask_stored userId taskData w title estimate Ht He
             (proj2 (priority_checks _ _ _ _ _ _) Hp)
             (proj2 (registered_In _ _) Hu)).
  eexists _, (inserted_row (next_uuid w) userId title taskData estimate
                           (clock w)), _.
  split; [reflexivity|].
  do 9 (split; [reflexivity|]).
  split.
  { unfold Sql.select_task. cbn. apply find_fresh; [reflexivity|].
    exact Hfresh. }
  split.
  { intros other Hne. unfold Sql.select_task. cbn.
    now apply (find_app_other (next_uuid w)). }
  split.
  { cbn. unfold Redis.hset. rewrite lookup_insert_eq. cbn.
    erewrite lookup_union_Some_l; [reflexivity|]. reflexivity. }
  split; [|reflexivity].
  cbn. unfold Redis.zadd. rewrite lookup_insert_eq. cbn.
  apply lookup_insert_eq.
Qed.

Lemma createTask_stores_then_throws_witness :
  (Partial.title Fixture.new_task = Some "Plan the trip"%string
   /\ (1 <= JS.or_int (Partial.priority Fixture.new_task) 3 <= 5)%Z
   /\ Sql.hours_column
        (JS.or_null_num (Partial.estimated_hours Fixture.new_task))
      = Some None
   /\ In 7%N (users Sample.world)
   /\ (forall t, In t (tasks Sample.world) ->
         Task.id t <> next_uuid Sample.world))
  /\ exists e row w',
       createTask 7 Fixture.new_task Sample.world = (inl e, w')
       /\ error_name e = "TypeError"%string
       /\ Sql.select_task 4 w' = Some row
       /\ Task.title row = "Plan the trip"%string.
Proof.
  assert (H1 : Partial.title Fixture.new_task = Some "Plan the trip"%string)
    by reflexivity.
  assert (H2 : (1 <= JS.or_int (Partial.priority Fixture.new_task) 3 <= 5)%Z)
    by (cbn; lia).
  assert (H3 : Sql.hours_column
                 (JS.or_null_num (Partial.estimated_hours Fixture.new_task))
               = Some None) by reflexivity.
  assert (H4 : In 7%N (users Sample.world)) by (now left).
  assert (H5 : forall t, In t (tasks Sample.world) ->
                 Task.id t <> next_uuid Sample.world).
  { intros t [<- | [<- | [<- | []]]]; discriminate. }
  split; [auto|].
  destruct (createTask_stores_then_throws 7 Fixture.new_task Sample.world
              _ _ H1 H2 H3 H4 H5)
    as (e & row & w' & E & He & Hid & _ & Htitle & _ & _ & _ & _ & _ & Hsel
        & _).
  exists e, row, w'. rewrite Hid in Hsel. auto.
Defined.

(** X2: createTask never hands a task back. It is rejected by the
    database, leaving the whole store, cache and event stream included, as
    it was, exactly when the title is missing, the priority (3 when absent
    or 0) is outside 1 to 5, the estimate does not fit its column (1000
    hours or more after rounding) or the user is not registered. In every
    other case it fails with a TypeError after the row has been
    inserted. *)
Theorem createTask_failure (userId : uuid) (taskData : Partial.t) (w : World) :
  let rejected :=
    Partial.title taskData = None
    \/ ~ (1 <= JS.or_int (Partial.priority taskData) 3 <= 5)%Z
    \/ Sql.hours_column (JS.or_null_num (Partial.estimated_hours taskData))
       = None
    \/ ~ In userId (users w) in
  (forall row w', createTask userId taskData w <> (inr row, w'))
  /\ (rejected ->
      exists e, createTask userId taskData w = (inl e, w)
                /\ error_name e = "NeonDbError"%string)
  /\ (~ rejected ->
      exists e w', createTask userId taskData w = (inl e, w')
                   /\ error_name e = "TypeError"%string
                   /\ length (tasks w') = S (length (tasks w))).
Proof.
  intros rejected.
  assert (Hiff : insert_rejected userId taskData w = true <-> rejected).
  { unfold insert_rejected, rejected.
    destruct (Partial.title taskData) as [title|];
      [|split; [intros _; now left | reflexivity]].
    destruct (Sql.hours_column _) as [estimate|];
      [|split; [intros _; right; right; now left | reflexivity]].
    rewrite orb_true_iff, !negb_true_iff.
    rewrite <- !not_true_iff_false, priority_checks, registered_In.
    split.
    - intros [H | H]; [right; now left | right; right; now right].
    - intros [H | [H | [H | H]]]; try discriminate; [now left | now right]. }
  split; [|split].
  - intros row w' E.
    destruct (createTask_cases userId taskData w) as (e & w1 & E1 & _).
    congruence.
  - intros H. apply createTask_rejected. now apply Hiff.
  - intros H.
    assert (Hr : insert_rejected userId taskData w = false).
    { destruct (insert_rejected userId taskData w) eqn:E; [|reflexivity].
      exfalso. apply H. now apply Hiff. }
    unfold insert_rejected in Hr.
    destruct (Partial.title taskData) as [title|] eqn:Ht; [|discriminate].
    destruct (Sql.hours_column _) as [estimate|] eqn:He; [|discriminate].
    apply orb_false_iff in Hr as [Hc Hu].
    apply negb_false_iff in Hc, Hu.
    rewrite (createTask_stored _ _ _ _ _ Ht He Hc Hu).
    eexists _, _. split; [reflexivity|]. split; [reflexivity|].
    cbn. rewrite length_app. cbn. lia.
Qed.

Lemma createTask_failure_witness :
  ~ (1 <= JS.or_int (Partial.priority Fixture.bad_priority) 3 <= 5)%Z
  /\ exists e, createTask 7 Fixture.bad_priority Sample.world
               = (inl e, Sample.world).
Proof.
  assert (H : ~ (1 <= JS.or_int (Partial.priority Fixture.bad_priority) 3
                 <= 5)%Z) by (cbn; lia).
  split; [exact H|].
  destruct (proj1 (proj2 (createTask_failure 7 Fixture.bad_priority
                            Sample.world))
              (or_intror (or_introl H))) as (e & E & _).
  exists e. exact E.
Defined.

Lemma omap_defined_nil {A : Type} (l : list (string * option A)) :
  omap (fun kv => match kv.2 with Some v => Some (kv.1, v) | None => None end) l
  = [] ->
  forall k o, In (k, o) l -> o = None.
Proof.
  induction l as [|[k' o'] l IH]; cbn; [intros _ k o []|].
  destruct o' as [v|]; [discriminate|]. cbn.
  intros H k o [[= <- <-] | Hin]; [reflexivity | eauto].
Qed.

Lemma entries_nil (updates : Partial.t) :
  Partial.entries updates = [] <-> updates = Partial.empty.
Proof.
  split; [|intros ->; reflexivity].
  intros H. pose proof (omap_defined_nil _ H) as Hall. clear H.
  destruct updates as [a b c d e f g h i j k l m n].
  unfold Partial.all_entries in Hall. cbn [Partial.parent_id Partial.title
    Partial.description Partial.status Partial.priority Partial.progress
    Partial.estimated_hours Partial.actual_hours Partial.due_at
    Partial.scheduled_at Partial.started_at Partial.completed_at Partial.tags
    Partial.context] in Hall.
  assert (Ha : VUuid <$> a = None) by (eapply Hall; cbn; eauto 20).
  assert (Hb : VStr <$> b = None) by (eapply Hall; cbn; eauto 20).
  assert (Hc : VStr <$> c = None) by (eapply Hall; cbn; eauto 20).
  assert (Hd : VStatus <$> d = None) by (eapply Hall; cbn; eauto 20).
  assert (He : VInt <$> e = None) by (eapply Hall; cbn; eauto 20).
  assert (Hf : VInt <$> f = None) by (eapply Hall; cbn; eauto 20).
  assert (Hg : VNum <$> g = None) by (eapply Hall; cbn; eauto 20).
  assert (Hh : VNum <$> h = None) by (eapply Hall; cbn; eauto 20).
  assert (Hi : VTime <$> i = None) by (eapply Hall; cbn; eauto 20).
  assert (Hj : VTime <$> j = None) by (eapply Hall; cbn; eauto 20).
  assert (Hk : VTime <$> k = None) by (eapply Hall; cbn; eauto 20).
  assert (Hl : VTime <$> l = None) by (eapply Hall; cbn; eauto 20).
  assert (Hm : VTags <$> m = None) by (eapply Hall; cbn; eauto 20).
  assert (Hn : VJson <$> n = None) by (eapply Hall; cbn; eauto 20).
  clear Hall.
  destruct a; [discriminate|]. destruct b; [discriminate|].
  destruct c; [discriminate|]. destruct d; [discriminate|].
  destruct e; [discriminate|]. destruct f; [discriminate|].
  destruct g; [discriminate|]. destruct h; [discriminate|].
  destruct i; [discriminate|]. destruct j; [discriminate|].
  destruct k; [discriminate|]. destruct l; [discriminate|].
  destruct m; [discriminate|]. destruct n; [discriminate|].
  reflexivity.
Qed.

(** X3: updateTask with no defined field fails with a database error, for
    every task id, and changes nothing: the SET clause it builds starts with
    a comma. The empty update is the only one whose field list is empty. *)
Theorem updateTask_empty (taskId : uuid) (w : World) :
  exists e,
    updateTask taskId Partial.empty w = (inl e, w)
    /\ error_name e = "NeonDbError"%string
    /\ forall updates, Partial.entries updates = [] -> updates = Partial.empty.
Proof.
  eexists. split; [reflexivity|]. split; [reflexivity|].
  intros updates. apply entries_nil.
Qed.



(** X5: an updateTask that reaches its row changes that row only and ends
    in a TypeError. For a non-empty update that the server can read and
    the table accepts, the written row keeps the id, the owner and the
    creation time; the table keeps its rows in place; every other task,
    every score, the user statistics and the cache entries of other tasks
    are untouched; the emission of TASK_UPDATED throws, so the event stream
    is as it was and the caller gets no row. *)
Theorem updateTask_frame (taskId : uuid) (updates stored : Partial.t)
    (w : World) (row : Task.t) :
  updates <> Partial.empty ->
  Sql.readable updates = true ->
  Sql.as_stored updates = Some stored ->
  Sql.select_task taskId w = Some row ->
  Task.checks (Sql.apply_set stored (clock w) row)
  && Sql.parent_exists (Sql.apply_set stored (clock w) row) w = true ->
  exists e row' w',
    updateTask taskId updates w = (inl e, w')
    /\ error_name e = "TypeError"%string
    /\ Sql.select_task taskId w' = Some row'
    /\ Task.id row' = taskId
    /\ Task.user_id row' = Task.user_id row
    /\ Task.created_at row' = Task.created_at row
    /\ map Task.id (tasks w') = map Task.id (tasks w)
    /\ (forall other, other <> taskId ->
          Sql.select_task other w' = Sql.select_task other w)
    /\ task_scores w' = task_scores w
    /\ user_stats w' = user_stats w
    /\ (forall other, other <> taskId ->
          task_hash w' !! other = task_hash w !! other)
    /\ events_task w' = events_task w.
Proof.
  intros Hne Hread Hst Hsel Hok.
  assert (Hent : Partial.entries updates <> [])
    by (intros H; apply Hne; now apply entries_nil).
  assert (Hid : Task.id row = taskId) by apply (find_id _ _ _ Hsel).
  rewrite (updateTask_row taskId updates stored w row Hent Hread Hst Hsel Hok).
  set (row' := Sql.apply_set stored (clock w) row).
  assert (Hid' : Task.id row' = taskId) by exact Hid.
  eexists _, row', _. split; [reflexivity|]. split; [reflexivity|].
  split; [apply (find_replace _ row); assumption|].
  split; [exact Hid'|]. split; [reflexivity|]. split; [reflexivity|].
  split; [now apply replaced_task_ids|].
  split; [intros other Ho; unfold Sql.select_task; cbn;
          now apply find_other|].
  split; [reflexivity|]. split; [reflexivity|].
  split; [|reflexivity].
  intros other Ho. cbn. unfold Redis.hset.
  now rewrite lookup_insert_ne by congruence.
Qed.

Lemma updateTask_frame_witness :
  (Sample.complete <> Partial.empty
   /\ Sql.readable Sample.complete = true
   /\ Sql.as_stored Sample.complete = Some Sample.complete
   /\ Sql.select_task 1 Sample.world = Some (Sample.task 1 7 None)
   /\ Task.checks (Sql.apply_set Sample.complete (clock Sample.world)
                                 (Sample.task 1 7 None))
      && Sql.parent_exists
           (Sql.apply_set Sample.complete (clock Sample.world)
                          (Sample.task 1 7 None)) Sample.world = true)
  /\ exists e row' w',
       updateTask 1 Sample.complete Sample.world = (inl e, w')
       /\ Sql.select_task 1 w' = Some row'
       /\ Sql.select_task 2 w' = Sql.select_task 2 Sample.world.
Proof.
  assert (H1 : Sample.complete <> Partial.empty) by discriminate.
  assert (Hr : Sql.readable Sample.complete = true) by reflexivity.
  assert (Hs : Sql.as_stored Sample.complete = Some Sample.complete)
    by reflexivity.
  assert (H2 : Sql.select_task 1 Sample.world = Some (Sample.task 1 7 None))
    by reflexivity.
  assert (H3 : Task.checks (Sql.apply_set Sample.complete (clock Sample.world)
                                          (Sample.task 1 7 None))
               && Sql.parent_exists
                    (Sql.apply_set Sample.complete (clock Sample.world)
                                   (Sample.task 1 7 None)) Sample.world
               = true) by reflexivity.
  split; [auto|].
  destruct (updateTask_frame 1 Sample.complete _ Sample.world _ H1 Hr Hs H2 H3)
    as (e & row' & w' & E & _ & Hsel & _ & _ & _ & _ & Hother & _).
  exists e, row', w'. split; [exact E|]. split; [exact Hsel|].
  apply Hother. discriminate.
Defined.

(** X6: scoreTask on a task id that matches no row fails with a database
    error (the score row would reference a missing task) and leaves the
    store unchanged: no XP is credited and no event emitted. *)
Theorem scoreTask_unknown_task (taskId : uuid) (scores : Scores.t) (w : World) :
  Sql.select_task taskId w = None ->
  exists e, scoreTask taskId scores w = (inl e, w)
            /\ error_name e = "NeonDbError"%string.
Proof.
  intros Hsel. unfold scoreTask, Sql.upsert_score. run.
  destruct (Sql.score_row taskId scores (clock w)) as [row|];
    [|eexists; split; reflexivity].
  destruct (TaskScore.checks row); cbn; [|eexists; split; reflexivity].
  rewrite Hsel. cbn. eexists; split; reflexivity.
Qed.

Lemma scoreTask_unknown_task_witness :
  Sql.select_task 99 Sample.world = None
  /\ exists e, scoreTask 99 Sample.first_scores Sample.world
               = (inl e, Sample.world).
Proof.
  assert (H : Sql.select_task 99 Sample.world = None) by reflexivity.
  split; [exact H|].
  destruct (scoreTask_unknown_task 99 Sample.first_scores Sample.world H)
    as (e & E & _).
  exists e. exact E.
Defined.




Lemma Status_eqb_eq (a b : Status) : Status_eqb a b = true <-> a = b.
Proof. destruct a, b; cbn; split; congruence. Qed.

Lemma overlap_iff (a b : list string) :
  overlap a b = true <-> exists tag, In tag a /\ In tag b.
Proof.
  unfold overlap. rewrite existsb_exists. split.
  - intros (x & Hx & Hb). apply existsb_exists in Hb as (y & Hy & E).
    apply String.eqb_eq in E. subst. eauto.
  - intros (tag & Ha & Hb). exists tag. split; [exact Ha|].
    apply existsb_exists. exists tag. split; [exact Hb|].
    apply String.eqb_refl.
Qed.

(** X8: getUserTasks returns exactly the stored tasks of the user that
    pass every filter given: equal status; equal parent, or no parent when
    the parent filter is the empty string; a due date present and not after
    the bound; at least one tag in common with a non-empty tag list (an
    empty tag list filters nothing). The result is ordered newest creation
    first. *)
Theorem getUserTasks_spec (userId : uuid) (filters : Filters.t) (w : World) :
  let result := getUserTasks userId filters w in
  (forall t,
     In t result <->
     In t (tasks w)
     /\ Task.user_id t = userId
     /\ (forall s, Filters.status filters = Some s -> Task.status t = s)
     /\ (forall p, Filters.parent_id filters = Some (Some p) ->
           Task.parent_id t = Some p)
     /\ (Filters.parent_id filters = Some None -> Task.parent_id t = None)
     /\ (forall d, Filters.due_before filters = Some d ->
           exists due, Task.due_at t = Some due /\ (due <= d)%Z)
     /\ (forall wanted, Filters.tags filters = Some wanted -> wanted <> [] ->
           exists tag, In tag (Task.tags t) /\ In tag wanted))
  /\ StronglySorted (fun a b => (Task.created_at b <= Task.created_at a)%Z)
                    result
  /\ (length result <= length (tasks w))%nat.
Proof.
  intros result. split; [|split].
  - intros t. unfold result, getUserTasks.
    rewrite SortFacts.stable_sort_In, filter_In. unfold selected.
    rewrite !andb_true_iff, N.eqb_eq.
    destruct filters as [fs fp fd ft];
      cbn [Filters.status Filters.parent_id Filters.due_before Filters.tags].
    split.
    + intros (Hin & (((Hu & Hs) & Hp) & Hd) & Ht).
      split; [exact Hin|]. split; [exact Hu|].
      split. { intros s [= ->]. now apply Status_eqb_eq. }
      split. { intros p [= ->]. destruct (Task.parent_id t);
               [apply N.eqb_eq in Hp; congruence | discriminate]. }
      split. { intros [= ->]. destruct (Task.parent_id t);
               [discriminate | reflexivity]. }
      split. { intros d [= ->]. destruct (Task.due_at t) as [due|];
               [|discriminate]. exists due. split; [reflexivity|].
               now apply Z.leb_le. }
      intros wanted [= ->] Hne. destruct wanted; [congruence|].
      now apply overlap_iff.
    + intros (Hin & Hu & Hs & Hp & Hp' & Hd & Ht).
      split; [exact Hin|]. repeat split.
      * exact Hu.
      * destruct fs as [s|]; [|reflexivity].
        apply Status_eqb_eq. now apply Hs.
      * destruct fp as [[p|]|]; [| |reflexivity].
        -- rewrite (Hp p eq_refl). apply N.eqb_refl.
        -- now rewrite (Hp' eq_refl).
      * destruct fd as [d|]; [|destruct (Task.due_at t); reflexivity].
        destruct (Hd d eq_refl) as (due & -> & Hle). now apply Z.leb_le.
      * destruct ft as [[|x wanted]|]; [reflexivity| |reflexivity].
        apply overlap_iff. now apply Ht.
  - unfold result, getUserTasks.
    eapply SortFacts.StronglySorted_weaken;
      [|apply SortFacts.stable_sort_sorted].
    + intros a b H. cbn in H. apply Z.ltb_ge in H. exact H.
    + intros a b H. apply Z.ltb_lt in H. apply Z.ltb_ge. lia.
    + intros a b c H1 H2. apply Z.ltb_ge in H1, H2. apply Z.ltb_ge. lia.
  - unfold result, getUserTasks. rewrite SortFacts.stable_sort_length.
    apply List.filter_length_le.
Qed.








End TaskStoreFacts.

(** ** The planner: further properties *)

Module PlannerMoreFacts.
Import TaskManager Planner.
Import TaskManagerFacts.

Lemma find_app_l {A : Type} (P : A -> bool) (l l' : list A) (x : A) :
  List.find P l = Some x -> List.find P (l ++ l') = Some x.
Proof.
  induction l as [|y l IH]; [discriminate|]. cbn.
  destruct (P y); [auto | exact IH].
Qed.

(** X10: a plan with subtasks stops in its first createTask. When the
    judgment asks for subtasks and proposes at least one, the planner on a
    root task fails with the error of createTask for the first subtask:
    rejected by the database with nothing written (no title, an estimate
    that does not fit, an unregistered user), or thrown by the emission of
    TASK_CREATED after that one row is stored. The stored row carries the
    context literal of index 0 and has no parent; no further subtask is
    created, the root task is not updated, and nothing reaches the event
    stream. *)
Theorem planner_stops_at_first_subtask (taskId userId : uuid)
    (analyze : Task.t -> Analysis) (w : World) (task : Task.t)
    (first : Subtask) (rest : list Subtask) :
  Sql.select_task taskId w = Some task ->
  Task.parent_id task = None ->
  needsSubtasks (analyze task) = true ->
  subtasks (analyze task) = Some (first :: rest) ->
  exists e w',
    POST taskId userId analyze w = (inl e, w')
    /\ createTask userId (subtask_data taskId (analyze task) 0 first) w
       = (inl e, w')
    /\ ((error_name e = "NeonDbError"%string /\ w' = w)
        \/ (error_name e = "TypeError"%string
            /\ exists row,
                 tasks w' = tasks w ++ [row]
                 /\ Some (Task.title row) = title first
                 /\ Task.user_id row = userId
                 /\ Task.parent_id row = None
                 /\ Task.context row = subtask_context (analyze task) 0 first))
    /\ Sql.select_task taskId w' = Some task
    /\ events_task w' = events_task w.
Proof.
  intros Hsel Hpar Hneeds Hsubs.
  destruct (createTask_cases userId
              (subtask_data taskId (analyze task) 0 first) w)
    as (e & w' & E & Hcases).
  exists e, w'.
  assert (HPOST : POST taskId userId analyze w = (inl e, w')).
  { unfold POST. run. rewrite Hsel, Hpar, Hneeds, Hsubs.
    unfold create_subtasks. cbn [for_entries]. run. rewrite E. reflexivity. }
  split; [exact HPOST|]. split; [exact E|].
  destruct Hcases as [[He ->] | (He & ttl & estimate & Ht & ->)].
  - split; [now left|]. split; [exact Hsel | reflexivity].
  - split.
    { right. split; [exact He|]. eexists. split; [reflexivity|].
      split; [cbn; now rewrite <- Ht|]. repeat split. }
    split; [|reflexivity].
    unfold Sql.select_task in *. cbn. now apply find_app_l.
Qed.

Lemma planner_stops_at_first_subtask_witness :
  (Sql.select_task 1 Sample.world = Some (Sample.task 1 7 None)
   /\ Task.parent_id (Sample.task 1 7 None) = None
   /\ needsSubtasks Sample.analysis = true)
  /\ exists e w',
       POST 1 7 (fun _ => Sample.analysis) Sample.world = (inl e, w')
       /\ error_name e = "TypeError"%string
       /\ length (tasks w') = 4%nat
       /\ Sql.select_task 1 w' = Some (Sample.task 1 7 None).
Proof.
  assert (H1 : Sql.select_task 1 Sample.world = Some (Sample.task 1 7 None))
    by reflexivity.
  assert (H2 : Task.parent_id (Sample.task 1 7 None) = None) by reflexivity.
  assert (H3 : needsSubtasks Sample.analysis = true) by reflexivity.
  split; [auto|].
  destruct (planner_stops_at_first_subtask 1 7 (fun _ => Sample.analysis)
              Sample.world _ _ _ H1 H2 H3 eq_refl)
    as (e & w' & E & Ec & _ & Hroot & _).
  exists e, w'. split; [exact E|].
  vm_compute in Ec. injection Ec as <- <-.
  split; [reflexivity|]. split; [reflexivity | exact Hroot].
Defined.

(** X11: when the judgment does not ask for subtasks, or proposes none,
    the planner on a root task reports success with 0 subtasks and leaves
    the store untouched; the reason reported is the non-empty reasoning of
    the judgment, and the fixed sentence when the judgment gives none. *)
Theorem planner_declines (taskId userId : uuid) (analyze : Task.t -> Analysis)
    (w : World) (task : Task.t) :
  Sql.select_task taskId w = Some task ->
  Task.parent_id task = None ->
  (needsSubtasks (analyze task) = false
   \/ subtasks (analyze task) = None
   \/ subtasks (analyze task) = Some []) ->
  exists reason,
    POST taskId userId analyze w = (inr (Success 0 None (Some reason)), w)
    /\ (forall given, reasoning (analyze task) = Some given ->
          given <> EmptyString -> reason = given)
    /\ (reasoning (analyze task) = None ->
          reason = "Task doesn't need subtasks"%string).
Proof.
  intros Hsel Hpar Hno. unfold POST. run. rewrite Hsel, Hpar.
  eexists. split.
  { destruct (needsSubtasks (analyze task));
      [destruct (subtasks (analyze task)) as [[|s ss]|]|];
      try reflexivity.
    exfalso. destruct Hno as [H | [H | H]]; discriminate. }
  split.
  - intros given Hg Hne. rewrite Hg. cbn.
    destruct given; [congruence | reflexivity].
  - intros ->. reflexivity.
Qed.

Lemma planner_declines_witness :
  (Sql.select_task 1 Fixture.briefed_world = Some Fixture.briefed
   /\ Task.parent_id Fixture.briefed = None
   /\ needsSubtasks Fixture.simple_enough = false)
  /\ POST 1 7 (fun _ => Fixture.simple_enough) Fixture.briefed_world
     = (inr (Success 0 None (Some "One sitting is enough"%string)),
        Fixture.briefed_world).
Proof.
  assert (H1 : Sql.select_task 1 Fixture.briefed_world = Some Fixture.briefed)
    by reflexivity.
  assert (H2 : Task.parent_id Fixture.briefed = None) by reflexivity.
  assert (H3 : needsSubtasks Fixture.simple_enough = false) by reflexivity.
  split; [auto|].
  destruct (planner_declines 1 7 (fun _ => Fixture.simple_enough)
              Fixture.briefed_world _ H1 H2 (or_introl H3))
    as (reason & E & Hgiven & _).
  rewrite E. rewrite (Hgiven _ eq_refl); [reflexivity | discriminate].
Defined.

End PlannerMoreFacts.

(** ** The assessor: further properties *)

Module AssessorMoreFacts.
Import Assessor.
Import AssessorFacts TaskManagerFacts.

Lemma overall_range (a : Assessment) (tm : TimeMetrics) (subs : list Task.t) :
  on_scale (difficulty a) -> on_scale (innovation a) ->
  on_scale (quality a) -> on_scale (speed a) ->
  (20 <= overall (calculate_final_scores a tm subs) <= 100)%Z.
Proof.
  intros [Hd1 Hd5] [Hi1 Hi5] [Hq1 Hq5] [Hs1 Hs5].
  rewrite overall_unfold.
  set (x := (difficulty a * 3 + innovation a * 3 + quality a * 4
             + speed a * 2)%Q).
  assert (Hx : (x / totalWeight * 20 == x * (5 # 3))%Q).
  { rewrite totalWeight_12. field. }
  rewrite (Math_round_proper _ _ Hx). split.
  - apply Z.le_trans with (JS.Math_round 20); [discriminate|].
    apply Math_round_mono. subst x. lra.
  - apply Z.le_trans with (JS.Math_round 100); [|discriminate].
    apply Math_round_mono. subst x. lra.
Qed.

Lemma xp_unfold (a : Assessment) (tm : TimeMetrics) (subs : list Task.t) :
  xp (calculate_final_scores a tm subs)
  = (JS.Math_round (inject_Z (overall (calculate_final_scores a tm subs)) / 10)
     + bonus (Qle_bool 5 (innovation a)) 3
     + bonus (Qle_bool 5 (quality a)) 2
     + bonus (wasOnTime tm) 1
     + bonus (negb (Nat.eqb (length subs) 0)) 1)%Z.
Proof.
  unfold calculate_final_scores. cbn [xp overall].
  destruct (Qle_bool 5 (innovation a)), (Qle_bool 5 (quality a)),
    (wasOnTime tm), subs; cbn [bonus length Nat.ltb Nat.leb Nat.eqb negb];
    lia.
Qed.

(** X15: with the four dimensions on the 1 to 5 scale, the overall score
    lies between 20 and 100 and the XP between 2 and 17; both XP bounds are
    attained. *)
Theorem xp_range (a : Assessment) (tm : TimeMetrics) (subs : list Task.t) :
  on_scale (difficulty a) -> on_scale (innovation a) ->
  on_scale (quality a) -> on_scale (speed a) ->
  (20 <= overall (calculate_final_scores a tm subs) <= 100)%Z
  /\ (2 <= xp (calculate_final_scores a tm subs) <= 17)%Z
  /\ xp (calculate_final_scores (mkAssessment 1 1 1 1 None None)
           (mkTimeMetrics 1 2 (JS.Fin (1 # 2)) false) []) = 2%Z
  /\ xp (calculate_final_scores (mkAssessment 5 5 5 5 None None)
           (mkTimeMetrics 1 1 (JS.Fin 1) true) [Sample.task 2 7 (Some 1%N)])
     = 17%Z.
Proof.
  intros Hd Hi Hq Hs.
  pose proof (overall_range a tm subs Hd Hi Hq Hs) as [Hlo Hhi].
  split; [split; assumption|]. split; [|split; reflexivity].
  rewrite xp_unfold.
  set (o := overall (calculate_final_scores a tm subs)) in *.
  assert (Hbase : (2 <= JS.Math_round (inject_Z o / 10) <= 10)%Z).
  { split.
    - apply Z.le_trans with (JS.Math_round (inject_Z 20 / 10));
        [discriminate|].
      apply Math_round_mono. apply Qmult_le_compat_r; [|discriminate].
      now rewrite <- Zle_Qle.
    - apply Z.le_trans with (JS.Math_round (inject_Z 100 / 10));
        [|discriminate].
      apply Math_round_mono. apply Qmult_le_compat_r; [|discriminate].
      now rewrite <- Zle_Qle. }
  destruct (Qle_bool 5 (innovation a)), (Qle_bool 5 (quality a)),
    (wasOnTime tm), (negb (Nat.eqb (length subs) 0)); cbn [bonus]; lia.
Qed.

Lemma xp_range_witness :
  (on_scale (difficulty Fixture.assessment)
   /\ on_scale (innovation Fixture.assessment)
   /\ on_scale (quality Fixture.assessment)
   /\ on_scale (speed Fixture.assessment))
  /\ (2 <= xp Fixture.final_scores <= 17)%Z.
Proof.
  assert (Hd : on_scale (difficulty Fixture.assessment)) by (split; discriminate).
  assert (Hi : on_scale (innovation Fixture.assessment)) by (split; discriminate).
  assert (Hq : on_scale (quality Fixture.assessment)) by (split; discriminate).
  assert (Hs : on_scale (speed Fixture.assessment)) by (split; discriminate).
  split; [auto|].
  exact (proj1 (proj2 (xp_range Fixture.assessment Fixture.on_time []
                                Hd Hi Hq Hs))).
Defined.

Lemma Qle_bool_mono (c x y : Q) :
  (x <= y)%Q -> Qle_bool c x = true -> Qle_bool c y = true.
Proof.
  intros Hxy H. apply Qle_bool_iff in H. apply Qle_bool_iff.
  now apply Qle_trans with x.
Qed.

Lemma bonus_mono (b b' : bool) (n : Z) :
  (0 <= n)%Z -> (b = true -> b' = true) -> (bonus b n <= bonus b' n)%Z.
Proof.
  intros Hn H. destruct b; cbn.
  - rewrite (H eq_refl). cbn. lia.
  - destruct b'; cbn; lia.
Qed.

(** X16: the scores are monotone: raising any of the four dimensions,
    with the same time metrics and subtasks, lowers neither the overall
    score nor the XP. *)
Theorem scores_monotone (a b : Assessment) (tm : TimeMetrics)
    (subs : list Task.t) :
  (difficulty a <= difficulty b)%Q -> (innovation a <= innovation b)%Q ->
  (quality a <= quality b)%Q -> (speed a <= speed b)%Q ->
  (overall (calculate_final_scores a tm subs)
   <= overall (calculate_final_scores b tm subs))%Z
  /\ (xp (calculate_final_scores a tm subs)
      <= xp (calculate_final_scores b tm subs))%Z.
Proof.
  intros Hd Hi Hq Hs.
  assert (Ho : (overall (calculate_final_scores a tm subs)
                <= overall (calculate_final_scores b tm subs))%Z).
  { rewrite !overall_unfold. apply Math_round_mono.
    apply Qmult_le_compat_r; [|discriminate].
    apply Qmult_le_compat_r; [|discriminate]. lra. }
  split; [exact Ho|].
  rewrite !xp_unfold.
  assert (Hbase : (JS.Math_round
                     (inject_Z (overall (calculate_final_scores a tm subs)) / 10)
                   <= JS.Math_round
                        (inject_Z (overall (calculate_final_scores b tm subs))
                         / 10))%Z).
  { apply Math_round_mono. apply Qmult_le_compat_r; [|discriminate].
    now rewrite <- Zle_Qle. }
  pose proof (bonus_mono (Qle_bool 5 (innovation a)) (Qle_bool 5 (innovation b))
                3 ltac:(lia) (Qle_bool_mono 5 _ _ Hi)).
  pose proof (bonus_mono (Qle_bool 5 (quality a)) (Qle_bool 5 (quality b))
                2 ltac:(lia) (Qle_bool_mono 5 _ _ Hq)).
  lia.
Qed.

Lemma scores_monotone_witness :
  let low := mkAssessment 2 3 4 2 None None in
  ((difficulty low <= difficulty Fixture.assessment)%Q
   /\ (innovation low <= innovation Fixture.assessment)%Q
   /\ (quality low <= quality Fixture.assessment)%Q
   /\ (speed low <= speed Fixture.assessment)%Q)
  /\ (xp (calculate_final_scores low Fixture.on_time [])
      <= xp Fixture.final_scores)%Z.
Proof.
  intros low.
  assert (Hd : (difficulty low <= difficulty Fixture.assessment)%Q)
    by discriminate.
  assert (Hi : (innovation low <= innovation Fixture.assessment)%Q)
    by discriminate.
  assert (Hq : (quality low <= quality Fixture.assessment)%Q) by discriminate.
  assert (Hs : (speed low <= speed Fixture.assessment)%Q) by discriminate.
  split; [auto|].
  exact (proj2 (scores_monotone low Fixture.assessment Fixture.on_time []
                                Hd Hi Hq Hs)).
Defined.

(** X17: the on-time rule in terms of hours, for a completed task whose
    estimate is a value of its column. With a positive estimate and a
    completion after the start, the task is on time when the actual hours
    are below 1.25 times the estimate and not on time when they are above
    it. A task whose completion time precedes its start is never on time;
    one that took no time at all has an infinite speed ratio and is on
    time; an estimate of zero hours is never on time. *)
Theorem on_time_rule (task : Task.t) (e : Q) (c : Z) :
  Task.estimated_hours task = Some e ->
  Sql.held Sql.decimal_5_2 (Some e) = true ->
  Task.completed_at task = Some c ->
  let start := default (Task.created_at task) (Task.started_at task) in
  let m := time_metrics task in
  ((0 < e)%Q -> (start < c)%Z ->
     ((actualHours m < e * (125 # 100))%Q -> wasOnTime m = true)
     /\ ((e * (125 # 100) < actualHours m)%Q -> wasOnTime m = false))
  /\ ((0 < e)%Q -> (c < start)%Z -> wasOnTime m = false)
  /\ ((0 < e)%Q -> (c = start)%Z ->
        speedRatio m = JS.PosInf /\ wasOnTime m = true)
  /\ ((e == 0)%Q -> wasOnTime m = false).
Proof.
  intros He _ Hc start m.
  assert (Hm : (actualHours m == inject_Z (c - start) / 3600000)%Q).
  { subst m. unfold time_metrics. cbn [actualHours]. rewrite Hc.
    apply Qeq_refl. }
  assert (Hr : speedRatio m = JS.div e (actualHours m)).
  { subst m. unfold time_metrics. cbn [speedRatio actualHours].
    now rewrite He. }
  assert (Hw : wasOnTime m = JS.ge (JS.div e (actualHours m)) (8 # 10)).
  { rewrite <- Hr. reflexivity. }
  assert (Hsign : forall z : Z,
             (inject_Z z / 3600000 == inject_Z z * (1 # 3600000))%Q)
    by (intros z; field).
  split; [|split; [|split]].
  - intros Hpos Hlt.
    assert (Ha : (0 < actualHours m)%Q).
    { rewrite Hm, Hsign. apply Qmult_lt_0_compat; [|reflexivity].
      change 0%Q with (inject_Z 0). rewrite <- Zlt_Qlt. lia. }
    rewrite Hw. unfold JS.div.
    rewrite (TimeMetricsFacts.Qeq_bool_false (actualHours m) 0) by lra.
    cbn [JS.ge].
    assert (He' : (e == e / actualHours m * actualHours m)%Q)
      by (field; lra).
    split; intros H.
    + apply Qle_bool_iff. apply Qle_shift_div_l; [exact Ha | lra].
    + apply TimeMetricsFacts.Qle_bool_false.
      apply Qlt_shift_div_r; [exact Ha | lra].
  - intros Hpos Hlt. rewrite Hw. unfold JS.div.
    assert (Ha : (actualHours m < 0)%Q).
    { rewrite Hm, Hsign.
      assert (inject_Z (c - start) < 0)%Q
        by (change 0%Q with (inject_Z 0); rewrite <- Zlt_Qlt; lia).
      assert (H2 : (0 < - inject_Z (c - start) * (1 # 3600000))%Q)
        by (apply Qmult_lt_0_compat; [lra | reflexivity]).
      lra. }
    rewrite (TimeMetricsFacts.Qeq_bool_false (actualHours m) 0) by lra.
    cbn [JS.ge]. apply TimeMetricsFacts.Qle_bool_false.
    assert (He' : (e / actualHours m == - (e / - actualHours m))%Q)
      by (field; lra).
    assert (H3 : (0 <= e / - actualHours m)%Q).
    { apply Qle_shift_div_l; lra. }
    lra.
  - intros Hpos ->.
    assert (Hz : (actualHours m == 0)%Q).
    { rewrite Hm, Z.sub_diag. reflexivity. }
    rewrite Hw, Hr. unfold JS.div.
    apply Qeq_bool_iff in Hz. rewrite Hz.
    rewrite (TimeMetricsFacts.Qeq_bool_false e 0) by lra.
    assert (Qle_bool 0 e = true) as -> by (apply Qle_bool_iff; lra).
    split; reflexivity.
  - intros Hz. rewrite Hw. unfold JS.div.
    apply Qeq_bool_iff in Hz. rewrite Hz.
    destruct (Qeq_bool (actualHours m) 0); [reflexivity|].
    cbn [JS.ge]. apply TimeMetricsFacts.Qle_bool_false.
    apply Qeq_bool_iff in Hz. rewrite Hz. unfold Qdiv.
    rewrite Qmult_0_l. reflexivity.
Qed.

Lemma on_time_rule_witness :
  (Task.estimated_hours Fixture.estimated = Some 2%Q
   /\ Sql.held Sql.decimal_5_2 (Some 2%Q) = true
   /\ Task.completed_at Fixture.estimated = Some 8101000%Z
   /\ (0 < 2)%Q
   /\ (1000 < 8101000)%Z
   /\ (2 * (125 # 100) < 9 # 1)%Q)
  /\ wasOnTime (time_metrics Fixture.estimated) = true
  /\ wasOnTime (time_metrics Fixture.overrun) = false.
Proof.
  assert (H1 : Task.estimated_hours Fixture.estimated = Some 2%Q)
    by reflexivity.
  assert (Hd : Sql.held Sql.decimal_5_2 (Some 2%Q) = true) by reflexivity.
  assert (H2 : (0 < 2)%Q) by reflexivity.
  assert (H3 : Task.completed_at Fixture.estimated = Some 8101000%Z)
    by reflexivity.
  assert (H4 : (1000 < 8101000)%Z) by lia.
  assert (H5 : (actualHours (time_metrics Fixture.estimated)
                < 2 * (125 # 100))%Q) by reflexivity.
  assert (H6 : (2 * (125 # 100)
                < actualHours (time_metrics Fixture.overrun))%Q)
    by reflexivity.
  split; [repeat split; auto; reflexivity|]. split.
  - exact (proj1 (proj1 (on_time_rule Fixture.estimated 2 8101000 H1 Hd H3)
                        H2 H4) H5).
  - exact (proj2 (proj1 (on_time_rule Fixture.overrun 2 32401000 eq_refl Hd
                           eq_refl) H2 ltac:(cbn; lia)) H6).
Defined.


(** *** Achievements *)

Lemma shouldEarn_rule (s : string) (a : Assessment) (tm : TimeMetrics)
    (totalXp tasksCompleted : Z) :
  shouldEarn s a tm totalXp tasksCompleted = true
  <-> achievement_rule s a tm totalXp tasksCompleted.
Proof.
  unfold shouldEarn, achievement_rule.
  destruct (String.eqb s "first_blood") eqn:E1.
  { apply String.eqb_eq in E1. subst. rewrite Z.eqb_eq. split.
    - intros H. left. now split.
    - intros [[_ H] | [[H _] | [[H _] | [H _]]]];
        [exact H | discriminate..]. }
  destruct (String.eqb s "innovator_50") eqn:E2.
  { apply String.eqb_eq in E2. subst.
    rewrite andb_true_iff, Qle_bool_iff, Z.leb_le. split.
    - intros H. right. left. tauto.
    - intros [[H _] | [[_ H] | [[H _] | [H _]]]];
        [discriminate | exact H | discriminate..]. }
  destruct (String.eqb s "speed_demon") eqn:E3.
  { apply String.eqb_eq in E3. subst.
    rewrite andb_true_iff, Qle_bool_iff. split.
    - intros H. right. right. left. tauto.
    - intros [[H _] | [[H _] | [[_ H] | [H _]]]];
        [discriminate.. | exact H | discriminate]. }
  destruct (String.eqb s "perfectionist") eqn:E4.
  { apply String.eqb_eq in E4. subst. rewrite Qle_bool_iff. split.
    - intros H. right. right. right. tauto.
    - intros [[H _] | [[H _] | [[H _] | [_ H]]]];
        [discriminate.. | exact H]. }
  apply String.eqb_neq in E1, E2, E3, E4. split; [discriminate|].
  intros [[H _] | [[H _] | [[H _] | [H _]]]]; contradiction.
Qed.

(** The loop passes over the entries that are earned already or whose rule
    does not hold. *)
Lemma award_passes (userId : uuid) (a : Assessment) (tm : TimeMetrics)
    (totalXp tasksCompleted : Z) (before rest : list Achievement) (w : World) :
  Forall (fun y => ~ (slug y ∉ default ∅ (achievements w !! userId)
                      /\ achievement_rule (slug y) a tm totalXp
                                          tasksCompleted)) before ->
  award userId a tm totalXp tasksCompleted (before ++ rest) w
  = award userId a tm totalXp tasksCompleted rest w.
Proof.
  induction 1 as [|y before Hy _ IH]; [reflexivity|].
  cbn [app award]. run. unfold Redis.sismember.
  destruct (bool_decide (slug y ∈ default ∅ (achievements w !! userId)))
    eqn:Hin; [exact IH|].
  apply bool_decide_eq_false in Hin.
  destruct (shouldEarn (slug y) a tm totalXp tasksCompleted) eqn:Hs;
    [|exact IH].
  exfalso. apply Hy. split; [exact Hin | now apply shouldEarn_rule].
Qed.

(** X18: the achievements step, for a user whose statistics hash exists.
    It sets the XP total to the stored total plus the XP of this task, the
    count of completed tasks to the stored count plus 1 and the last
    completion to the given time. An entry of the catalog is open when the
    user has not earned it and its rule holds for the new totals:
    first_blood on the first completed task, innovator_50 with innovation
    at least 4 and 50 XP in total, speed_demon with speed at least 4 on
    time, perfectionist with quality 5. With no open entry the step returns
    an empty list and changes nothing else. Otherwise it records the first
    open entry as earned and then fails with a TypeError in the emission of
    ACHIEVEMENT_UNLOCKED: no later entry is looked at, nothing reaches the
    event stream and no list is returned. *)
Theorem check_achievements_spec (userId : uuid) (completedAt : string)
    (a : Assessment) (tm : TimeMetrics) (fs : FinalScores)
    (catalog : list Achievement) (w : World) (stats : UserStats) :
  user_stats w !! userId = Some stats ->
  let totalXp := (default 0 (total_xp stats) + xp fs)%Z in
  let tasksCompleted := (default 0 (tasks_completed stats) + 1)%Z in
  let open y :=
    slug y ∉ default ∅ (achievements w !! userId)
    /\ achievement_rule (slug y) a tm totalXp tasksCompleted in
  let counted :=
    set_user_stats
      <[userId := mkUserStats (Some totalXp) (Some tasksCompleted)
                              (Some completedAt)]> w in
  (Forall (fun y => ~ open y) catalog ->
   check_achievements userId completedAt a tm fs catalog w = (inr [], counted))
  /\ (forall before x rest,
        catalog = before ++ x :: rest ->
        Forall (fun y => ~ open y) before -> open x ->
        exists e,
          check_achievements userId completedAt a tm fs catalog w
          = (inl e, set_achievements (Redis.sadd userId (slug x)) counted)
          /\ error_name e = "TypeError"%string).
Proof.
  intros Hstats totalXp tasksCompleted open counted.
  assert (Hrun : check_achievements userId completedAt a tm fs catalog w
                 = award userId a tm totalXp tasksCompleted catalog counted).
  { unfold check_achievements. run. rewrite Hstats. reflexivity. }
  split.
  - intros Hall. rewrite Hrun.
    rewrite <- (app_nil_r catalog).
    rewrite (award_passes userId a tm totalXp tasksCompleted catalog []
               counted Hall).
    reflexivity.
  - intros before x rest -> Hbefore [Hnew Hrule]. rewrite Hrun.
    rewrite (award_passes userId a tm totalXp tasksCompleted before
               (x :: rest) counted Hbefore).
    cbn [award]. run. unfold Redis.sismember.
    change (achievements counted) with (achievements w).
    rewrite bool_decide_eq_false_2 by exact Hnew.
    rewrite (proj2 (shouldEarn_rule _ _ _ _ _) Hrule).
    eexists. split; reflexivity.
Qed.

Lemma check_achievements_spec_witness :
  user_stats Fixture.credited_world !! 7%N
  = Some (mkUserStats (Some 40%Z) None None)
  /\ exists e w',
       check_achievements 7 "2026-01-05" Fixture.assessment Fixture.on_time
         Fixture.final_scores initial_achievements Fixture.credited_world
       = (inl e, w')
       /\ error_name e = "TypeError"%string
       /\ achievements w' !! 7%N = Some {[ "first_blood"%string ]}
       /\ Redis.get_total_xp 7 (user_stats w') = 54%Z.
Proof.
  assert (H : user_stats Fixture.credited_world !! 7%N
              = Some (mkUserStats (Some 40%Z) None None)) by reflexivity.
  split; [exact H|].
  destruct (proj2 (check_achievements_spec 7 "2026-01-05" Fixture.assessment
                     Fixture.on_time Fixture.final_scores initial_achievements
                     Fixture.credited_world _ H)
              [] (mkAchievement "first_blood" "First Blood")
              (tail initial_achievements) eq_refl (List.Forall_nil _))
    as (e & E & He).
  { split; [cbn; set_solver | left; split; reflexivity]. }
  eexists _, _. split; [exact E|]. split; [exact He|].
  split; [|reflexivity].
  cbn. unfold Redis.sadd. rewrite lookup_insert_eq. reflexivity.
Defined.

(** X20: the time-metrics step of the assessor never returns. For every
    task it ends in an error raised by its update of the actual hours: a
    database error that leaves the store as it was when the hours do not
    fit their column (1000 hours or more) or the row is refused, and
    otherwise a TypeError, raised on the missing row or by the emission of
    TASK_UPDATED after the hours were written. No score, no XP and no
    event results from the step. *)
Theorem calculate_time_metrics_fails (taskId : uuid) (task : Task.t)
    (w : World) :
  exists e w',
    calculate_time_metrics taskId task w = (inl e, w')
    /\ (error_name e = "NeonDbError"%string \/ error_name e = "TypeError"%string)
    /\ (error_name e = "NeonDbError"%string -> w' = w)
    /\ (Sql.decimal_5_2 (actualHours (time_metrics task)) = None ->
        error_name e = "NeonDbError"%string)
    /\ (forall hours row,
          Sql.decimal_5_2 (actualHours (time_metrics task)) = Some hours ->
          Sql.select_task taskId w = Some row ->
          Task.checks row && Sql.parent_exists row w = true ->
          error_name e = "TypeError"%string
          /\ (Sql.select_task taskId w' ≫= Task.actual_hours) = Some hours)
    /\ map Task.id (tasks w') = map Task.id (tasks w)
    /\ task_scores w' = task_scores w
    /\ user_stats w' = user_stats w
    /\ events_task w' = events_task w
    /\ events_ml w' = events_ml w.
Proof.
  set (updates := Partial.mk None None None None None None None
                    (Some (actualHours (time_metrics task)))
                    None None None None None None).
  destruct (updateTask_cases taskId updates w)
    as (e & w' & E & Hname & Hdb & Hover & Hids & Hsc & Hst & Hev & Hml).
  exists e, w'.
  assert (Hrun : calculate_time_metrics taskId task w = (inl e, w')).
  { unfold calculate_time_metrics. fold updates. run. rewrite E. reflexivity. }
  split; [exact Hrun|]. split; [exact Hname|]. split; [exact Hdb|].
  split.
  { intros Hnone. apply Hover. unfold updates.
    revert Hnone. generalize (actualHours (time_metrics task)).
    intros h Hnone. unfold Sql.as_stored. cbn. rewrite Hnone. reflexivity. }
  split; [|auto 10].
  intros hours row Hfit Hsel Hok.
  destruct (TimeMetricsFacts.actual_hours_written taskId row w
              (actualHours (time_metrics task)) hours Hsel Hok Hfit)
    as (e1 & w1 & E1 & He1 & Hh & _).
  fold updates in E1. rewrite E in E1. injection E1 as <- <-.
  split; [exact He1 | exact Hh].
Qed.

End AssessorMoreFacts.

(** ** The pattern analyzer: the steps one by one *)

Module MLAnalyzerMoreFacts.
Import MLAnalyzer.
Import TaskManager.
Import SortFacts.

Lemma hour_of_range (ms : Z) : (0 <= hour_of ms < 24)%Z.
Proof. unfold hour_of. apply Z.mod_pos_bound. lia. Qed.

Lemma dow_of_range (ms : Z) : (0 <= dow_of ms < 7)%Z.
Proof. unfold dow_of. apply Z.mod_pos_bound. lia. Qed.

Lemma recently_done_spec (userId : uuid) (days now : Z) (r : Task.t) :
  recently_done userId days now r = true ->
  Task.user_id r = userId /\ Task.status r = done
  /\ exists c, Task.completed_at r = Some c /\ (now - days * day_ms < c)%Z.
Proof.
  unfold recently_done. intros H.
  apply andb_true_iff in H as [H Hc]. apply andb_true_iff in H as [Hu Hs].
  apply N.eqb_eq in Hu. apply TaskStoreFacts.Status_eqb_eq in Hs.
  destruct (Task.completed_at r) as [c|]; [|discriminate].
  apply Z.ltb_lt in Hc. eauto.
Qed.

Lemma gathered_hour (userId : uuid) (w : World) (h : Historical) :
  In h (gather_historical_data userId w) -> (0 <= completion_hour h < 24)%Z.
Proof.
  unfold gather_historical_data. intros Hh.
  apply in_map_iff in Hh as (r & <- & _). cbn. apply hour_of_range.
Qed.

(** X21: the history that the analyzer gathers has at most 50 rows, exactly
    as many as the user has tasks done within the last 90 days when these are
    fewer; every row is a task of the store that belongs to the user, is done
    and was completed within the last 90 days, with the hour (0 to 23) and the
    weekday (0 to 6) of its completion and its score row when it has one; the
    rows come newest completion first. *)
Theorem gather_historical_data_spec (userId : uuid) (w : World) :
  let rows := gather_historical_data userId w in
  length rows
  = Nat.min 50 (length (List.filter (recently_done userId 90 (clock w)) (tasks w)))
  /\ (forall h, In h rows ->
        In (h_task h) (tasks w)
        /\ Task.user_id (h_task h) = userId
        /\ Task.status (h_task h) = done
        /\ (exists c, Task.completed_at (h_task h) = Some c
                      /\ (clock w - 90 * day_ms < c)%Z
                      /\ completion_hour h = hour_of c
                      /\ completion_day h = dow_of c)
        /\ (0 <= completion_hour h < 24)%Z
        /\ (0 <= completion_day h < 7)%Z
        /\ h_score h
           = List.find (fun s => N.eqb (TaskScore.task_id s) (Task.id (h_task h)))
                       (task_scores w))
  /\ StronglySorted
       (fun a b => (completed_ms (h_task b) <= completed_ms (h_task a))%Z) rows.
Proof.
  cbn zeta. unfold gather_historical_data. split; [|split].
  - rewrite length_map, length_take, stable_sort_length. reflexivity.
  - intros h Hh. apply in_map_iff in Hh as (r & <- & Hr).
    apply In_take, stable_sort_In, filter_In in Hr as [Hin Hr].
    apply recently_done_spec in Hr as (Hu & Hs & c & Hc & Hlt).
    cbn. unfold completed_ms. rewrite Hc. cbn.
    repeat split; auto using hour_of_range, dow_of_range;
      try apply hour_of_range; try apply dow_of_range.
    exists c. auto.
  - apply StronglySorted_map. cbn. apply StronglySorted_take.
    eapply StronglySorted_weaken; [|apply stable_sort_sorted].
    + cbn. intros a b H. apply Z.ltb_ge in H. exact H.
    + intros a b H. apply Z.ltb_lt in H. apply Z.ltb_ge. lia.
    + intros a b c H1 H2. apply Z.ltb_ge in H1, H2. apply Z.ltb_ge. lia.
Qed.

(** The hours that step 2 ranks come from the hourly statistics, have at
    least two tasks and are the completion hour of a gathered row. *)
Lemma optimalHours_origin (rows : list Historical) (cp : CompletionPatterns)
    (oh : Pattern.OptimalHour) :
  analyze_completion_patterns rows = Some cp ->
  In oh (optimalHours cp) ->
  In (Pattern.hour oh, Pattern.oh_stats oh) (hourlyStats cp)
  /\ (2 <= Pattern.h_count (Pattern.oh_stats oh))%nat
  /\ exists h, In h rows /\ completion_hour h = Pattern.hour oh.
Proof.
  unfold analyze_completion_patterns.
  destruct (length rows <? 5)%nat; [discriminate|]. intros [= <-]. cbn.
  intros Hoh. apply in_map_iff in Hoh as ([k s] & <- & Hks). cbn.
  apply In_take, stable_sort_In, filter_In in Hks as [Hin Hc].
  split; [exact Hin|]. split.
  { cbn in Hc. destruct (Pattern.h_count s) as [|[|n]]; [discriminate..|lia]. }
  apply in_map_iff in Hin as ([k' s'] & [= <- _] & Hin).
  assert (Hk : In k' (map fst (fold_left
                                 (fun o h => bump (completion_hour h) (add_hour h) o)
                                 rows []))).
  { apply in_map_iff. exists (k', s'). auto. }
  apply fold_bump_keys in Hk as [[] | Hk].
  apply in_map_iff in Hk as (h & <- & Hh). eauto.
Qed.

(** X22: the completion-patterns step yields nothing exactly when fewer
    than 5 rows were gathered. Otherwise the sample size is the number of
    rows, the hourly and the weekday statistics each count every row once,
    and the optimal hours are at most three hours of the hourly statistics,
    each with at least two completed tasks, listed by decreasing mean of
    average quality and average speed. *)
Theorem analyze_completion_patterns_spec (rows : list Historical) :
  match analyze_completion_patterns rows with
  | None => (length rows < 5)%nat
  | Some cp =>
      (5 <= length rows)%nat
      /\ sampleSize cp = length rows
      /\ foldr plus 0%nat
           (map (fun kv => Pattern.h_count (snd kv)) (hourlyStats cp))
         = length rows
      /\ foldr plus 0%nat
           (map (fun kv => Pattern.d_count (snd kv)) (dayStats cp))
         = length rows
      /\ (length (optimalHours cp) <= 3)%nat
      /\ (forall oh, In oh (optimalHours cp) ->
            In (Pattern.hour oh, Pattern.oh_stats oh) (hourlyStats cp)
            /\ (2 <= Pattern.h_count (Pattern.oh_stats oh))%nat
            /\ exists h, In h rows /\ completion_hour h = Pattern.hour oh)
      /\ StronglySorted
           (fun a b => (hour_score (Pattern.oh_stats b)
                        <= hour_score (Pattern.oh_stats a))%Q)
           (optimalHours cp)
  end.
Proof.
  destruct (analyze_completion_patterns rows) as [cp|] eqn:E.
  2:{ unfold analyze_completion_patterns in E.
      destruct (Nat.ltb_spec (length rows) 5); [assumption | discriminate]. }
  split.
  { unfold analyze_completion_patterns in E.
    destruct (Nat.ltb_spec (length rows) 5); [discriminate | assumption]. }
  split; [|split; [|split; [|split; [|split]]]].
  - unfold analyze_completion_patterns in E.
    destruct (length rows <? 5)%nat; [discriminate|]. now injection E as <-.
  - unfold analyze_completion_patterns in E.
    destruct (length rows <? 5)%nat; [discriminate|]. injection E as <-. cbn.
    rewrite map_map. cbn.
    rewrite (fold_bump_sum Pattern.h_count completion_hour add_hour rows);
      [cbn; lia | reflexivity | reflexivity].
  - unfold analyze_completion_patterns in E.
    destruct (length rows <? 5)%nat; [discriminate|]. injection E as <-. cbn.
    rewrite map_map. cbn.
    rewrite (fold_bump_sum Pattern.d_count completion_day add_day rows);
      [cbn; lia | reflexivity | reflexivity].
  - unfold analyze_completion_patterns in E.
    destruct (length rows <? 5)%nat; [discriminate|]. injection E as <-. cbn.
    rewrite length_map, length_take. lia.
  - intros oh Hoh. exact (optimalHours_origin rows cp oh E Hoh).
  - unfold analyze_completion_patterns in E.
    destruct (length rows <? 5)%nat; [discriminate|]. injection E as <-. cbn.
    apply StronglySorted_map. cbn. apply StronglySorted_take.
    eapply StronglySorted_weaken; [|apply stable_sort_sorted].
    + cbn. intros a b H. apply CalendarFacts.Qltb_ge in H. exact H.
    + intros a b H. apply CalendarFacts.Qltb_lt in H. apply CalendarFacts.Qltb_ge.
      now apply Qlt_le_weak.
    + intros a b c H1 H2. apply CalendarFacts.Qltb_ge in H1, H2. apply CalendarFacts.Qltb_ge.
      eapply Qle_trans; eassumption.
Qed.

Lemma rem_hours (hour current : Z) :
  (0 <= hour < 24)%Z -> (0 <= current < 24)%Z ->
  (0 <= Z.rem (hour - current + 24) 24 < 24)%Z
  /\ ((current + Z.rem (hour - current + 24) 24) mod 24 = hour)%Z
  /\ (Z.rem (hour - current + 24) 24 = 0 <-> hour = current)%Z.
Proof.
  intros Hh Hc. rewrite Z.rem_mod_nonneg by lia.
  pose proof (Z.mod_pos_bound (hour - current + 24) 24 ltac:(lia)) as Hb.
  split; [exact Hb|]. split.
  - rewrite Zplus_mod_idemp_r.
    replace (current + (hour - current + 24))%Z with (hour + 1 * 24)%Z by lia.
    rewrite Z_mod_plus_full. apply Z.mod_small. lia.
  - destruct (Z_lt_le_dec hour current) as [Hlt | Hge].
    + rewrite Z.mod_small by lia. lia.
    + replace (hour - current + 24)%Z with (hour - current + 1 * 24)%Z by lia.
      rewrite Z_mod_plus_full, Z.mod_small by lia. lia.
Qed.

(** X23: when the gathered history yields completion patterns, the
    predictions step returns one slot per optimal hour, with the number of
    hours from the current hour to that hour on a 24-hour clock (between 0
    and 23, and 0 exactly for the current hour itself) and the hour's ranking
    score; the slots come nearest first, and the recommendation is the
    nearest slot, absent exactly when there is no optimal hour. *)
Theorem generate_predictions_spec (userId : uuid) (w : World)
    (cp : CompletionPatterns) (now : Z) :
  analyze_completion_patterns (gather_historical_data userId w) = Some cp ->
  exists p,
    generate_predictions (Some cp) now = Some p
    /\ length (Pattern.nextOptimalSlots p) = length (optimalHours cp)
    /\ (forall s, In s (Pattern.nextOptimalSlots p) ->
          In (Pattern.slot s) (optimalHours cp)
          /\ (0 <= Pattern.hoursFromNow s < 24)%Z
          /\ ((hour_of now + Pattern.hoursFromNow s) mod 24
              = Pattern.hour (Pattern.slot s))%Z
          /\ (Pattern.hoursFromNow s = 0%Z
              <-> Pattern.hour (Pattern.slot s) = hour_of now)
          /\ Pattern.recommendationScore s
             = hour_score (Pattern.oh_stats (Pattern.slot s)))
    /\ StronglySorted
         (fun a b => (Pattern.hoursFromNow a <= Pattern.hoursFromNow b)%Z)
         (Pattern.nextOptimalSlots p)
    /\ Pattern.recommendation p = head (Pattern.nextOptimalSlots p)
    /\ (forall r s, Pattern.recommendation p = Some r ->
          In s (Pattern.nextOptimalSlots p) ->
          (Pattern.hoursFromNow r <= Pattern.hoursFromNow s)%Z)
    /\ (Pattern.recommendation p = None <-> optimalHours cp = []).
Proof.
  intros E. eexists. split; [reflexivity|]. cbn.
  set (mk := fun s : Pattern.OptimalHour =>
               Pattern.mkSlot s (Z.rem (Pattern.hour s - hour_of now + 24) 24)
                              (hour_score (Pattern.oh_stats s))).
  set (before := fun a b : Pattern.Slot =>
                   (Pattern.hoursFromNow a <? Pattern.hoursFromNow b)%Z).
  assert (Hsorted : StronglySorted
                      (fun a b => (Pattern.hoursFromNow a
                                   <= Pattern.hoursFromNow b)%Z)
                      (stable_sort before (map mk (optimalHours cp)))).
  { eapply StronglySorted_weaken; [|apply stable_sort_sorted].
    - cbn. intros a b H. apply Z.ltb_ge in H. exact H.
    - intros a b H. apply Z.ltb_lt in H. apply Z.ltb_ge. lia.
    - intros a b c H1 H2. apply Z.ltb_ge in H1, H2. apply Z.ltb_ge. lia. }
  split; [now rewrite stable_sort_length, length_map|].
  split.
  { intros s Hs. apply stable_sort_In, in_map_iff in Hs as (oh & <- & Hoh).
    cbn. split; [exact Hoh|].
    destruct (optimalHours_origin _ cp oh E Hoh) as (_ & _ & h & Hh & Hhour).
    pose proof (gathered_hour userId w h Hh) as Hrange.
    rewrite Hhour in Hrange.
    destruct (rem_hours (Pattern.hour oh) (hour_of now) Hrange
                        (hour_of_range now)) as (H1 & H2 & H3).
    auto. }
  split; [exact Hsorted|]. split; [reflexivity|]. split.
  { intros r s Hr Hs.
    destruct (stable_sort before (map mk (optimalHours cp))) as [|x l];
      [discriminate|].
    injection Hr as ->. destruct Hs as [<- | Hs]; [lia|].
    apply StronglySorted_inv in Hsorted as [_ Hall].
    rewrite Forall_forall in Hall. apply Hall. now apply list_elem_of_In. }
  pose proof (stable_sort_length before (map mk (optimalHours cp))) as Hlen.
  rewrite length_map in Hlen.
  destruct (stable_sort before (map mk (optimalHours cp))) as [|x l];
    destruct (optimalHours cp) as [|y l']; cbn in *;
    split; intros; try discriminate; try reflexivity; lia.
Qed.

Lemma generate_predictions_spec_witness :
  exists cp p,
    analyze_completion_patterns (gather_historical_data 7 Sample.busy_world)
    = Some cp
    /\ generate_predictions (Some cp) (clock Sample.busy_world) = Some p
    /\ length (Pattern.nextOptimalSlots p) = length (optimalHours cp).
Proof.
  destruct (analyze_completion_patterns
              (gather_historical_data 7 Sample.busy_world)) as [cp|] eqn:E;
    [|vm_compute in E; discriminate].
  destruct (generate_predictions_spec 7 Sample.busy_world cp
              (clock Sample.busy_world) E) as (p & Hp & Hlen & _).
  exists cp, p. auto.
Defined.






(** X25: on a database created from the schema file as it stands, where
    the pattern table has an index on (user_id, pattern_type) but no unique
    constraint, every run of the analyzer fails with a database error at its
    first pattern write: no pattern row is stored, no event is emitted and
    the recommendations cache is not refreshed. *)
Theorem POST_without_unique_constraint (userId : uuid)
    (advise : CompletionPatterns -> list (Z * Pattern.DifficultyGroup)
              -> list Pattern.Insight)
    (w : World) :
  task_patterns_unique w = false ->
  exists message, POST userId advise w = (inl (Sql.db_error message), w).
Proof.
  intros Hu.
  unfold POST, update_patterns, store_insights, cache_recommendations,
    storePattern, Sql.upsert_pattern. run.
  destruct (analyze_completion_patterns (gather_historical_data userId w));
    rewrite Hu; cbn; eexists; reflexivity.
Qed.

Lemma POST_without_unique_constraint_witness :
  task_patterns_unique Fixture.as_deployed = false
  /\ exists message,
       POST 7 Fixture.one_insight Fixture.as_deployed
       = (inl (Sql.db_error message), Fixture.as_deployed).
Proof.
  assert (Hu : task_patterns_unique Fixture.as_deployed = false) by reflexivity.
  split; [exact Hu|].
  exact (POST_without_unique_constraint 7 Fixture.one_insight
           Fixture.as_deployed Hu).
Defined.

End MLAnalyzerMoreFacts.

(** ** Calendar analytics: the next slot, the halves of the window, the
    component *)

Module CalendarMoreFacts.
Import CalendarAnalytics.
Import CalendarFacts.
Import SortFacts.

Lemma find_first {A : Type} (P : A -> bool) (before after : list A) (s : A) :
  Forall (fun x => P x = false) before -> P s = true ->
  List.find P (before ++ s :: after) = Some s.
Proof.
  induction 1 as [|x before Hx Hall IH]; intros Hs; cbn.
  - now rewrite Hs.
  - rewrite Hx. now apply IH.
Qed.

Lemma find_none {A : Type} (P : A -> bool) (l : list A) :
  Forall (fun x => P x = false) l -> List.find P l = None.
Proof.
  induction 1 as [|x l Hx Hall IH]; cbn; [reflexivity|]. now rewrite Hx.
Qed.

Lemma Qmin_unit (n : nat) (d : Q) :
  (0 < d)%Q ->
  (0 <= Qmin (inject_Z (Z.of_nat n) / d) 1 /\ Qmin (inject_Z (Z.of_nat n) / d) 1 <= 1)%Q.
Proof.
  intros Hd.
  assert (H0 : (0 <= inject_Z (Z.of_nat n) / d)%Q).
  { apply Qle_shift_div_l; [exact Hd|]. rewrite Qmult_0_l.
    change 0%Q with (inject_Z 0). rewrite <- Zle_Qle. lia. }
  unfold Qmin. destruct (Qle_bool (inject_Z (Z.of_nat n) / d) 1) eqn:E.
  - split; [exact H0 | now apply Qle_bool_iff].
  - split; discriminate.
Qed.

(** X26: the next optimal slot of the calendar route. It is for today
    exactly when its hour is later than the current hour, and for tomorrow
    otherwise, also when it is the current hour itself. When a ranked hour
    lies later today, the slot is the best ranked of these; when none does,
    the slot is the best ranked hour of all, tomorrow; without ranked hours
    it is 9 o'clock with confidence 1/5. The confidence lies between 0
    and 1. *)
Theorem nextOptimalSlot_spec (optimalHours : list OptimalHour)
    (currentHour : Z) :
  let res := nextOptimalSlot optimalHours currentHour in
  (day res = "today"%string <-> (currentHour < next_hour res)%Z)
  /\ (day res = "tomorrow"%string <-> (next_hour res <= currentHour)%Z)
  /\ (0 <= confidence res /\ confidence res <= 1)%Q
  /\ (forall before s after,
        optimalHours = before ++ s :: after ->
        Forall (fun x => (hour x <= currentHour)%Z) before ->
        (currentHour < hour s)%Z ->
        res = mkNextSlot "today" (hour s)
                (Qmin (inject_Z (Z.of_nat (sampleSize s)) / 5) 1))
  /\ (forall first rest,
        optimalHours = first :: rest ->
        Forall (fun x => (hour x <= currentHour)%Z) optimalHours ->
        res = mkNextSlot "tomorrow" (hour first)
                (Qmin (inject_Z (Z.of_nat (sampleSize first)) / 5) 1))
  /\ (optimalHours = [] ->
        next_hour res = 9%Z /\ (confidence res == 1 # 5)%Q).
Proof.
  cbn zeta. unfold nextOptimalSlot.
  set (slot := chosen_slot optimalHours currentHour).
  split; [|split; [|split; [|split; [|split]]]].
  - cbn. destruct (Z.ltb_spec currentHour (hour slot)); split;
      intros; try reflexivity; try discriminate; lia.
  - cbn. destruct (Z.ltb_spec currentHour (hour slot)); split;
      intros; try reflexivity; try discriminate; lia.
  - cbn. apply Qmin_unit. reflexivity.
  - intros before s after -> Hbefore Hs.
    assert (Hslot : slot = s).
    { subst slot. unfold chosen_slot.
      rewrite find_first.
      - destruct before; reflexivity.
      - eapply Forall_impl; [exact Hbefore|]. cbn. intros x Hx.
        apply Z.ltb_ge. exact Hx.
      - now apply Z.ltb_lt. }
    rewrite Hslot. apply Z.ltb_lt in Hs. now rewrite Hs.
  - intros first rest -> Hall.
    assert (Hslot : slot = first).
    { subst slot. unfold chosen_slot. rewrite find_none; [reflexivity|].
      eapply Forall_impl; [exact Hall|]. cbn. intros x Hx.
      apply Z.ltb_ge. exact Hx. }
    rewrite Hslot. apply Forall_inv in Hall. apply Z.ltb_ge in Hall.
    now rewrite Hall.
  - intros ->. subst slot. cbn. split; reflexivity.
Qed.

(** The rows of the trend query: one per day with completions. *)
Lemma trend_rows_days (userId : uuid) (since : Z) (w : World) (d : Z) :
  In d (map date (trend_tasks userId since w))
  <-> exists r, In r (tasks w) /\ completed_since userId since r = true
                /\ (MLAnalyzer.completed_ms r / day_ms)%Z = d.
Proof.
  unfold trend_tasks. rewrite map_map. cbn [date].
  change (fun x : Z * nat => x.1) with (@fst Z nat).
  set (l := List.filter (completed_since userId since) (tasks w)).
  assert (H : forall o,
             In d (map fst
                     (fold_left
                        (fun o r =>
                           bump (MLAnalyzer.completed_ms r / day_ms)%Z
                                (fun c => S (default 0%nat c)) o) l o))
             <-> In d (map fst o)
                 \/ exists r, In r l
                              /\ (MLAnalyzer.completed_ms r / day_ms)%Z = d).
  { induction l as [|r l IH]; intros o; cbn [fold_left].
    - split; [auto | intros [H | (r & [] & _)]; exact H].
    - rewrite IH, bump_keys. split.
      + intros [[-> | H] | (r' & Hr' & E)]; eauto.
        * right. exists r. split; [now left | reflexivity].
        * right. exists r'. split; [now right | exact E].
      + intros [H | (r' & [<- | Hr'] & E)]; eauto. }
  rewrite H. subst l. split.
  - intros [[] | (r & Hr & E)]. apply filter_In in Hr as [Hin Hc]. eauto.
  - intros (r & Hin & Hc & E). right. exists r. split; [|exact E].
    apply filter_In. auto.
Qed.

Lemma trend_rows_positive (userId : uuid) (since : Z) (w : World) :
  Forall (fun t => (1 <= daily_count t)%nat) (trend_tasks userId since w).
Proof.
  unfold trend_tasks. apply Forall_map. cbn.
  apply (fold_bump_all (fun _ c => (1 <= c)%nat)
           (fun r => (MLAnalyzer.completed_ms r / day_ms)%Z)
           (fun _ c => S (default 0%nat c))).
  - intros; cbn; lia.
  - intros; cbn; lia.
  - constructor.
Qed.

Lemma average_positive (rows : list TrendRow) :
  rows <> [] -> Forall (fun t => (1 <= daily_count t)%nat) rows ->
  (0 < average rows)%Q.
Proof.
  destruct rows as [|t rows]; [congruence|]. intros _ Hall.
  unfold average. apply Qlt_shift_div_l.
  - change 0%Q with (inject_Z 0). rewrite <- Zlt_Qlt. cbn [length]. lia.
  - rewrite Qmult_0_l. change 0%Q with (inject_Z 0). rewrite <- Zlt_Qlt.
    pose proof (fold_appended_bounds (map daily_count (t :: rows)) 0
                  ltac:(lia)) as H.
    apply Forall_inv in Hall.
    set (n := fold_left appended (map daily_count (t :: rows)) 0%Z) in *.
    cbn [map foldr] in H. lia.
Qed.

(** X27: the velocity trend when a half of the eight-week window has no
    day with completions. The query has one row per day on which the user
    completed a task inside the window, with a count of at least 1, and a
    row belongs to the recent half when its day starts at or after the
    instant four weeks ago. With completions in neither half the trend is
    stable; with completions only in the recent half it is up, however few
    they are; with completions only in the older half it is down. *)
Theorem velocity_trend_empty_half (userId : uuid) (w : World) :
  let since := (clock w - 56 * day_ms)%Z in
  let fourWeeksAgo := (clock w - 28 * day_ms)%Z in
  let rows := trend_tasks userId since w in
  let recent := recentTasks fourWeeksAgo rows in
  let older := olderTasks fourWeeksAgo rows in
  let completed_on r d :=
    In r (tasks w) /\ completed_since userId since r = true
    /\ (MLAnalyzer.completed_ms r / day_ms)%Z = d in
  velocityTrend userId w
  = match recent, older with
    | [], [] => stable
    | _ :: _, [] => up
    | [], _ :: _ => down
    | _ :: _, _ :: _ => trend_of (average recent) (average older)
    end
  /\ Forall (fun t => (1 <= daily_count t)%nat) rows
  /\ (recent <> []
      <-> exists r d, completed_on r d /\ (fourWeeksAgo <= d * day_ms)%Z)
  /\ (older <> []
      <-> exists r d, completed_on r d /\ (d * day_ms < fourWeeksAgo)%Z).
Proof.
  intros since fourWeeksAgo rows recent older completed_on.
  pose proof (trend_rows_positive userId since w) as Hpos. fold rows in Hpos.
  assert (Hrecent : Forall (fun t => (1 <= daily_count t)%nat) recent).
  { apply Forall_forall. intros t Ht. rewrite Forall_forall in Hpos.
    apply Hpos. apply list_elem_of_In. apply list_elem_of_In in Ht.
    unfold recent, recentTasks in Ht. now apply filter_In in Ht. }
  assert (Holder : Forall (fun t => (1 <= daily_count t)%nat) older).
  { apply Forall_forall. intros t Ht. rewrite Forall_forall in Hpos.
    apply Hpos. apply list_elem_of_In. apply list_elem_of_In in Ht.
    unfold older, olderTasks in Ht. now apply filter_In in Ht. }
  assert (Hdays : forall P : Z -> bool,
             List.filter (fun t => P (date_ms t)) rows <> []
             <-> exists r d, completed_on r d /\ P (d * day_ms)%Z = true).
  { intros P. split.
    - destruct (List.filter _ rows) as [|t l] eqn:E; [congruence|]. intros _.
      assert (Ht : In t (List.filter (fun t => P (date_ms t)) rows))
        by (rewrite E; now left).
      apply filter_In in Ht as [Hin HP].
      assert (Hd : In (date t) (map date rows)) by now apply in_map.
      apply trend_rows_days in Hd as (r & Hr). exists r, (date t).
      split; [exact Hr | exact HP].
    - intros (r & d & Hr & HP).
      assert (Hd : In d (map date rows)).
      { apply trend_rows_days. exists r. exact Hr. }
      apply in_map_iff in Hd as (t & <- & Ht).
      assert (Hin : In t (List.filter (fun t => P (date_ms t)) rows))
        by (apply filter_In; auto).
      intros E. rewrite E in Hin. destruct Hin. }
  split; [|split; [exact Hpos|split]].
  - unfold velocityTrend. fold since fourWeeksAgo rows recent older.
    destruct recent as [|t recent'] eqn:Er, older as [|t' older'] eqn:Eo.
    + reflexivity.
    + assert (Ho : (0 < average (t' :: older'))%Q)
        by (apply average_positive; [discriminate | exact Holder]).
      destruct (trend_of_cases (average []) (average (t' :: older'))
                  (Qlt_le_weak _ _ Ho)) as (_ & Hdown & _).
      apply Hdown. set (a := average (t' :: older')) in *.
      change (average []) with 0%Q. lra.
    + assert (Hr : (0 < average (t :: recent'))%Q)
        by (apply average_positive; [discriminate | exact Hrecent]).
      destruct (trend_of_cases (average (t :: recent')) (average [])
                  (average_nonneg [])) as (Hup & _ & _).
      apply Hup. set (a := average (t :: recent')) in *.
      change (average []) with 0%Q. lra.
    + reflexivity.
  - unfold recent, recentTasks.
    rewrite (Hdays (fun ms => (fourWeeksAgo <=? ms)%Z)).
    split; intros (r & d & Hr & H); exists r, d; split; auto;
      [now apply Z.leb_le | now apply Z.leb_le].
  - unfold older, olderTasks.
    rewrite (Hdays (fun ms => (ms <? fourWeeksAgo)%Z)).
    split; intros (r & d & Hr & H); exists r, d; split; auto;
      [now apply Z.ltb_lt | now apply Z.ltb_lt].
Qed.

Lemma digits_from_spec (fuel : nat) (n : Z) :
  (1 <= n <= Z.of_nat fuel)%Z ->
  (10 ^ (digits_from fuel n - 1) <= n < 10 ^ digits_from fuel n)%Z.
Proof.
  revert n. induction fuel as [|fuel IH]; intros n Hn; [lia|].
  cbn [digits_from]. destruct (Z.ltb_spec n 10) as [Hlt | Hge].
  - change (10 ^ (1 - 1))%Z with 1%Z. change (10 ^ 1)%Z with 10%Z. lia.
  - pose proof (Z.div_mod n 10 ltac:(lia)) as Hdm.
    pose proof (Z.mod_pos_bound n 10 ltac:(lia)) as Hmod.
    specialize (IH (n / 10)%Z ltac:(lia)).
    pose proof (digits_from_positive fuel (n / 10)) as Hd.
    replace (1 + digits_from fuel (n / 10) - 1)%Z
      with (Z.succ (digits_from fuel (n / 10) - 1)) by lia.
    replace (1 + digits_from fuel (n / 10))%Z
      with (Z.succ (digits_from fuel (n / 10))) by lia.
    rewrite !Z.pow_succ_r by lia. lia.
Qed.

Lemma mean_le_average_num (counts : list nat) :
  (Z.of_nat (foldr plus 0%nat counts) <= fold_left appended counts 0)%Z.
Proof.
  pose proof (fold_appended_bounds counts 0 ltac:(lia)). lia.
Qed.

(** X19: what the route takes for the mean of a half. The counts come
    back from the query as strings of digits, so the sum that the route
    divides by the number of days is the number read from the counts
    written one after the other. For days with at least one completion
    each, this is never below the mean daily count, equals it for a single
    day and exceeds it as soon as the half has two days; for two days with
    counts a and b it is (a * 10^k + b) / 2, where k is the number of
    digits of b. *)
Theorem average_concatenates (rows : list TrendRow) :
  Forall (fun t => (1 <= daily_count t)%nat) rows ->
  (mean_daily_count rows <= average rows)%Q
  /\ (forall t, rows = [t] -> (average rows == mean_daily_count rows)%Q)
  /\ ((2 <= length rows)%nat -> (mean_daily_count rows < average rows)%Q)
  /\ (forall a b, rows = [a; b] ->
        exists k,
          (10 ^ (k - 1) <= Z.of_nat (daily_count b) < 10 ^ k)%Z
          /\ (average rows
              == inject_Z (Z.of_nat (daily_count a) * 10 ^ k
                           + Z.of_nat (daily_count b)) / 2)%Q).
Proof.
  intros Hall.
  assert (Hinv : forall n : nat, (0 < n)%nat ->
            (0 < / inject_Z (Z.of_nat n))%Q).
  { intros n Hn. apply Qinv_lt_0_compat. change 0%Q with (inject_Z 0).
    rewrite <- Zlt_Qlt. lia. }
  split; [|split; [|split]].
  - destruct rows as [|t rows]; [apply Qle_refl|].
    unfold mean_daily_count, average, sum_nat_Q, Qdiv.
    apply Qmult_le_compat_r.
    + rewrite <- Zle_Qle. apply mean_le_average_num.
    + apply Qlt_le_weak, Hinv. cbn. lia.
  - intros t ->. rewrite average_single.
    unfold mean_daily_count, sum_nat_Q. cbn [map foldr length].
    replace (daily_count t + 0)%nat with (daily_count t) by lia.
    change (inject_Z (Z.of_nat 1)) with 1%Q. field.
  - destruct rows as [|t1 [|t2 rows]]; cbn [length]; [lia | lia |]. intros _.
    unfold mean_daily_count, average, sum_nat_Q, Qdiv.
    apply Qmult_lt_compat_r; [apply Hinv; cbn; lia|].
    rewrite <- Zlt_Qlt. cbn [map fold_left foldr].
    rewrite (appended_first (daily_count t1)).
    assert (H1 : (1 <= daily_count t1)%nat) by (now apply Forall_inv in Hall).
    pose proof (digits_from_positive (daily_count t2)
                  (Z.of_nat (daily_count t2))) as Hd.
    assert (Hp : (10 <= 10 ^ digits (daily_count t2))%Z).
    { unfold digits. change 10%Z with (10 ^ 1)%Z at 1.
      apply Z.pow_le_mono_r; lia. }
    assert (Ha : (10 * Z.of_nat (daily_count t1) + Z.of_nat (daily_count t2)
                  <= appended (Z.of_nat (daily_count t1)) (daily_count t2))%Z)
      by (unfold appended; nia).
    pose proof (fold_appended_bounds (map daily_count rows)
                  (appended (Z.of_nat (daily_count t1)) (daily_count t2))
                  ltac:(lia)) as Hf.
    lia.
  - intros a b ->. exists (digits (daily_count b)). split.
    + apply Forall_inv_tail, Forall_inv in Hall.
      unfold digits. apply digits_from_spec. lia.
    + unfold average. cbn [map fold_left length]. rewrite appended_first.
      unfold appended. change (inject_Z (Z.of_nat 2)) with 2%Q.
      reflexivity.
Qed.

Lemma average_concatenates_witness :
  Forall (fun t => (1 <= daily_count t)%nat) [mkTrendRow 90 1; mkTrendRow 91 1]
  /\ (mean_daily_count [mkTrendRow 90 1; mkTrendRow 91 1] == 1)%Q
  /\ (average [mkTrendRow 90 1; mkTrendRow 91 1] == 11 # 2)%Q
  /\ (mean_daily_count [mkTrendRow 90 1; mkTrendRow 91 1]
      < average [mkTrendRow 90 1; mkTrendRow 91 1])%Q.
Proof.
  assert (H : Forall (fun t => (1 <= daily_count t)%nat)
                     [mkTrendRow 90 1; mkTrendRow 91 1])
    by (repeat constructor).
  split; [exact H|]. split; [reflexivity|]. split; [reflexivity|].
  apply (average_concatenates _ H). cbn. lia.
Defined.

Import AnalyticsCalendar.

Lemma take_all {A : Type} (n : nat) (l : list A) :
  (length l <= n)%nat -> take n l = l.
Proof. intros H. now apply take_ge. Qed.

(** X28: when the calendar component shows at most seven days, as in its
    week view, the second week of its trend is empty: the trend is down as
    soon as one displayed task is done, stable when none is, and never up. *)
Theorem week_view_trend (days : list CalendarDay) :
  (length days <= 7)%nat ->
  trend days
  = (if (0 <? foldr plus 0 (map completed days))%nat then down else stable)
  /\ trend days <> up.
Proof.
  intros Hlen.
  assert (E : trend days
              = if (0 <? foldr plus 0 (map completed days))%nat
                then down else stable).
  { unfold trend, recentDays.
    replace (length days - 14)%nat with 0%nat by lia. rewrite drop_0.
    rewrite (take_all 7 days Hlen).
    rewrite (drop_ge days 7 Hlen). cbn [take].
    unfold week_average. cbn [map].
    set (n := foldr plus 0%nat (map completed days)).
    assert (Hfirst : (sum_nat_Q (map completed days) == inject_Z (Z.of_nat n))%Q)
      by reflexivity.
    assert (Hzero : (sum_nat_Q [] / 7 == 0)%Q) by reflexivity.
    assert (Hn : (0 <= inject_Z (Z.of_nat n))%Q).
    { change 0%Q with (inject_Z 0). rewrite <- Zle_Qle. lia. }
    destruct (JS.Qltb (sum_nat_Q (map completed days) / 7 * (11 # 10))
                      (sum_nat_Q [] / 7)) eqn:Eup.
    { apply Qltb_lt in Eup. rewrite Hzero, Hfirst in Eup. exfalso.
      assert (0 <= inject_Z (Z.of_nat n) / 7 * (11 # 10))%Q; [|lra].
      apply Qmult_le_0_compat; [|discriminate].
      apply Qle_shift_div_l; [reflexivity | lra]. }
    destruct (Nat.ltb_spec 0 n) as [Hpos | Hz].
    - assert (JS.Qltb (sum_nat_Q [] / 7)
                      (sum_nat_Q (map completed days) / 7 * (9 # 10)) = true)
        as ->; [|reflexivity].
      apply Qltb_lt. rewrite Hzero, Hfirst.
      assert (Hq : (1 <= inject_Z (Z.of_nat n))%Q).
      { change 1%Q with (inject_Z 1). rewrite <- Zle_Qle. lia. }
      apply Qmult_lt_0_compat; [|reflexivity].
      apply Qlt_shift_div_l; [reflexivity | lra].
    - assert (JS.Qltb (sum_nat_Q [] / 7)
                      (sum_nat_Q (map completed days) / 7 * (9 # 10)) = false)
        as ->; [|reflexivity].
      apply Qltb_ge. rewrite Hfirst.
      replace n with 0%nat by lia. discriminate. }
  split; [exact E|]. rewrite E. destruct (0 <? _)%nat; discriminate.
Qed.

Lemma week_view_trend_witness :
  (length (take 7 Sample.two_weeks) <= 7)%nat
  /\ trend (take 7 Sample.two_weeks) = down.
Proof.
  assert (H : (length (take 7 Sample.two_weeks) <= 7)%nat) by (cbn; lia).
  split; [exact H|].
  destruct (week_view_trend (take 7 Sample.two_weeks) H) as [E _].
  rewrite E. reflexivity.
Defined.

Lemma rate_at_least (k : Z) (c p : nat) :
  (0 < p)%nat ->
  Qle_bool (inject_Z k)
           (inject_Z (Z.of_nat c) / inject_Z (Z.of_nat p) * 100)
  = (k * Z.of_nat p <=? 100 * Z.of_nat c)%Z.
Proof.
  intros Hp.
  assert (Hq : (0 < inject_Z (Z.of_nat p))%Q).
  { change 0%Q with (inject_Z 0). rewrite <- Zlt_Qlt. lia. }
  assert (E : (inject_Z (Z.of_nat c) / inject_Z (Z.of_nat p) * 100
               == inject_Z (100 * Z.of_nat c) / inject_Z (Z.of_nat p))%Q).
  { rewrite inject_Z_mult. field. lra. }
  destruct (Z.leb_spec (k * Z.of_nat p) (100 * Z.of_nat c)) as [H | H].
  - apply Qle_bool_iff. rewrite E. apply Qle_shift_div_l; [exact Hq|].
    rewrite <- inject_Z_mult, <- Zle_Qle. exact H.
  - destruct (Qle_bool _ _) eqn:Eb; [|reflexivity]. exfalso.
    apply Qle_bool_iff in Eb. rewrite E in Eb.
    apply (Qmult_le_compat_r _ _ (inject_Z (Z.of_nat p))) in Eb; [|lra].
    assert (E2 : (inject_Z (100 * Z.of_nat c) / inject_Z (Z.of_nat p)
                  * inject_Z (Z.of_nat p)
                  == inject_Z (100 * Z.of_nat c))%Q) by (field; lra).
    rewrite E2 in Eb.
    rewrite <- inject_Z_mult, <- Zle_Qle in Eb. lia.
Qed.

(** X29: the colour of a day in the calendar, from the day's tasks. The
    day is neutral exactly when it has no task; green exactly when at least
    80 percent of its tasks are done and they earned at least 5 XP; red
    exactly when it has tasks, fewer than 60 percent of them are done and
    they earned fewer than 3 XP; amber in every other case, so also when
    every task is done but fewer than 5 XP were earned. *)
Theorem getDayColor_spec (dayTasks : list DayTask) :
  let m := metrics dayTasks in
  let p := Z.of_nat (length dayTasks) in
  let c := Z.of_nat (length (List.filter is_done dayTasks)) in
  planned m = length dayTasks
  /\ m_completed m = length (List.filter is_done dayTasks)
  /\ (getDayColor m = zinc <-> dayTasks = [])
  /\ (getDayColor m = emerald
      <-> dayTasks <> [] /\ (80 * p <= 100 * c)%Z /\ (5 <= totalXP m)%Z)
  /\ (getDayColor m = rose
      <-> dayTasks <> [] /\ (100 * c < 60 * p)%Z /\ (totalXP m < 3)%Z)
  /\ (getDayColor m = amber
      <-> ~ (dayTasks <> [] /\ (80 * p <= 100 * c)%Z /\ (5 <= totalXP m)%Z)
          /\ ((dayTasks <> [] /\ (60 * p <= 100 * c)%Z)
              \/ (3 <= totalXP m)%Z)).
Proof.
  intros m p c. split; [reflexivity|]. split; [reflexivity|].
  assert (Hcase : dayTasks = [] \/ (0 < length dayTasks)%nat).
  { destruct dayTasks; cbn; [now left | right; lia]. }
  destruct Hcase as [-> | Hp].
  { cbn. repeat split; intros; try discriminate; try congruence;
      try tauto; try lia.
    destruct H as (_ & [[? _] | ?]); [congruence | lia]. }
  assert (Hne : dayTasks <> []) by (intros ->; cbn in Hp; lia).
  unfold getDayColor.
  assert (Hrate : forall k,
             Qle_bool (inject_Z k) (completionRate m)
             = (k * p <=? 100 * c)%Z).
  { intros k. subst m. unfold metrics. cbn [completionRate].
    destruct (Nat.ltb_spec 0 (length dayTasks)) as [_ | H]; [|lia].
    apply rate_at_least. exact Hp. }
  change 80%Q with (inject_Z 80). change 60%Q with (inject_Z 60).
  rewrite !Hrate.
  assert (Hplanned : (0 <? planned m)%nat = true)
    by (apply Nat.ltb_lt; exact Hp).
  rewrite Hplanned.
  set (xp := totalXP m). clearbody xp. clear Hrate Hplanned. clearbody m.
  destruct (Z.leb_spec (80 * p) (100 * c)), (Z.leb_spec 5 xp),
    (Z.leb_spec (60 * p) (100 * c)), (Z.leb_spec 3 xp); cbn;
    repeat split; intros; try discriminate; try congruence; try tauto;
    try lia.
Qed.

End CalendarMoreFacts.

(** ** The workflow orchestrator *)

Module OrchestratorFacts.
Import WorkflowOrchestrator.

Lemma last_cons_default {A : Type} (d x : A) (l : list A) :
  default d (last (x :: l)) = default x (last l).
Proof.
  revert d x. induction l as [|y l IH]; intros d x; [reflexivity|].
  change (last (x :: y :: l)) with (last (y :: l)).
  now rewrite (IH d y), (IH x y).
Qed.

(** X30: one pass of the orchestrator over a batch of the task stream.
    The requests sent are, in stream order, those of the events whose type
    has a handler and whose trigger call the workflow client accepted: a
    TASK_CREATED event asks the planner with the event's taskId and userId,
    TASK_COMPLETED the assessor with taskId, userId and completedAt,
    TASK_SCORED and DAILY_ANALYSIS the pattern analyzer; events of any other
    type, or without a type, send nothing. The cursor ends at the id of the
    last event of the batch, whether or not its trigger was accepted, so a
    refused trigger is not tried again. *)
Theorem process_task_events_spec (accepted : Request -> bool)
    (events : list (string * list string)) (lastEventId : string)
    (sent : list Request) :
  let request event :=
    (fun handler => handler (parse (snd event)))
      <$> find_handler (parse (snd event)) in
  process_task_events accepted events lastEventId sent
  = (default lastEventId (last (map fst events)),
     sent ++ List.filter accepted (omap request events))
  /\ (forall event,
        let eventData := parse (snd event) in
        match request event with
        | Some r =>
            exists type,
              eventData !! "type"%string = Some type
              /\ ((type = "TASK_CREATED"%string
                   /\ r = mkRequest planner
                            [ ("taskId", eventData !! "taskId");
                              ("userId", eventData !! "userId") ]%string)
                  \/ (type = "TASK_COMPLETED"%string
                      /\ r = mkRequest assessor
                               [ ("taskId", eventData !! "taskId");
                                 ("userId", eventData !! "userId");
                                 ("completedAt", eventData !! "completedAt") ]%string)
                  \/ (type = "TASK_SCORED"%string
                      /\ r = mkRequest ml_analyzer
                               [ ("userId", eventData !! "userId");
                                 ("type", Some "task_completion");
                                 ("taskId", eventData !! "taskId") ]%string)
                  \/ (type = "DAILY_ANALYSIS"%string
                      /\ r = mkRequest ml_analyzer
                               [ ("userId", eventData !! "userId");
                                 ("type", Some "daily_analysis") ]%string))
        | None =>
            forall type,
              eventData !! "type"%string = Some type ->
              ~ In type ["TASK_CREATED"; "TASK_COMPLETED"; "TASK_SCORED";
                         "DAILY_ANALYSIS"]%string
        end).
Proof.
  intros request. split.
  - unfold process_task_events. subst request. revert lastEventId sent.
    induction events as [|event events IH]; intros lastEventId sent.
    + cbn. now rewrite app_nil_r.
    + cbn [fold_left fst snd]. rewrite IH. f_equal.
      * cbn [map]. symmetry. apply last_cons_default.
      * cbn [omap list_omap].
        destruct (find_handler (parse event.2)) as [handler|]; cbn.
        -- unfold send.
           destruct (accepted (handler (parse event.2))); cbn;
             [now rewrite <- app_assoc | reflexivity].
        -- reflexivity.
  - intros event eventData. unfold request. fold eventData.
    unfold find_handler.
    destruct (eventData !! "type"%string) as [type|] eqn:Etype;
      [|cbn; intros; discriminate].
    unfold handlers. cbn [List.find fst snd].
    destruct (String.eqb_spec "TASK_CREATED" type) as [<- | H1].
    { cbn. exists "TASK_CREATED"%string. split; [reflexivity|]. now left. }
    destruct (String.eqb_spec "TASK_COMPLETED" type) as [<- | H2].
    { cbn. exists "TASK_COMPLETED"%string. split; [reflexivity|].
      right. now left. }
    destruct (String.eqb_spec "TASK_SCORED" type) as [<- | H3].
    { cbn. exists "TASK_SCORED"%string. split; [reflexivity|].
      right. right. now left. }
    destruct (String.eqb_spec "DAILY_ANALYSIS" type) as [<- | H4].
    { cbn. exists "DAILY_ANALYSIS"%string. split; [reflexivity|].
      right. right. now right. }
    cbn. intros type' [= <-] [? | [? | [? | [? | []]]]]; congruence.
Qed.

End OrchestratorFacts.
